(** * EC-FOAI: the portfolio construction pipeline

    A shallow embedding of [models/data_models.py],
    [calculators/roi_calculator.py], [optimizers/portfolio_optimizer.py] and
    [generators/roadmap_generator.py], and the properties of the pipeline
    that the specification states about them.

    Conventions of the embedding.
    - Python [float] amounts are exact rationals ([Q]); [float('inf')] is the
      extra value [Inf] of [pyfloat].  Equality of amounts is [Qeq].
    - Python [int] is [Z]; [date] is its proleptic ordinal, a [Z], so that
      adding [timedelta(days=n)] is adding [n].  The [OverflowError] of a
      date beyond the year 9999 is not modelled: what is shown of dates
      holds of the roadmap that is returned.
    - The [str]-valued enums hash and compare as their string values, so a
      dictionary keyed by enum members is a [gmap] keyed by those strings.
    - The f-string rationales are kept as constructors that carry the
      formatted arguments.
    - Where a statement turns on the rounding of doubles, the function is
      also run on IEEE 754 binary64 numbers, the [float] of the kernel
      (module [Binary64]). *)

From Stdlib Require Import QArith Qround Qabs Qminmax Qpower Lqa ZArith Lia
  Sorted.
From Stdlib Require Import Floats.
From stdpp Require Import gmap strings list.

#[local] Open Scope Z_scope.

(** * models/data_models.py *)

Module EffortLevel.
Inductive t := LOW | MEDIUM | HIGH.
Definition value (l : t) : string :=
  match l with LOW => "Low" | MEDIUM => "Medium" | HIGH => "High" end.
#[global] Instance eq_dec : EqDecision t.
Proof. solve_decision. Defined.
End EffortLevel.

Module ImpactLevel.
Inductive t := LOW | MEDIUM | HIGH.
Definition value (l : t) : string :=
  match l with LOW => "Low" | MEDIUM => "Medium" | HIGH => "High" end.
#[global] Instance eq_dec : EqDecision t.
Proof. solve_decision. Defined.
End ImpactLevel.

Module RiskLevel.
Inductive t := LOW | MEDIUM | HIGH.
Definition value (l : t) : string :=
  match l with LOW => "Low" | MEDIUM => "Medium" | HIGH => "High" end.
#[global] Instance eq_dec : EqDecision t.
Proof. solve_decision. Defined.
End RiskLevel.

Module TimeHorizon.
Inductive t := Q1 | YEAR_1 | YEAR_3.
Definition value (h : t) : string :=
  match h with
  | Q1 => "Q1 (0-3 months)"
  | YEAR_1 => "Year 1 (3-12 months)"
  | YEAR_3 => "3-Year (1-3 years)"
  end.
#[global] Instance eq_dec : EqDecision t.
Proof. solve_decision. Defined.
Definition to_pos (h : t) : positive :=
  match h with Q1 => 1 | YEAR_1 => 2 | YEAR_3 => 3 end%positive.
Definition of_pos (p : positive) : option t :=
  match p with
  | 1 => Some Q1 | 2 => Some YEAR_1 | 3 => Some YEAR_3 | _ => None
  end%positive.
#[global] Instance countable : Countable t.
Proof. apply (inj_countable to_pos of_pos). by intros []. Defined.
End TimeHorizon.

(** A Python float that may be [float('inf')]. *)
Inductive pyfloat := Fin (q : Q) | Inf.

Module AIUseCase.
Record t := mk {
  id : string;
  name : string;
  problem_statement : string;
  kpis : list string;
  initial_cost : Q;
  annual_cost : Q;
  annual_benefit : Q;
  implementation_months : Z;
  benefit_start_month : Z;
  effort_level : EffortLevel.t;
  impact_level : ImpactLevel.t;
  risk_level : RiskLevel.t;
  dependencies : list string;
  skills_required : list string;
  technology_required : list string;
  soft_benefits : list string;
  risk_factors : list string
}.

(** The [Field(..., ge=...)] constraints of the model. *)
Definition valid (uc : t) : Prop :=
  (0 <= initial_cost uc)%Q /\ (0 <= annual_cost uc)%Q /\
  (0 <= annual_benefit uc)%Q /\
  1 <= implementation_months uc /\ 1 <= benefit_start_month uc.

(** A copy of the record with one amount replaced. *)
Definition with_annual_benefit (uc : t) (v : Q) : t :=
  mk (id uc) (name uc) (problem_statement uc) (kpis uc)
     (initial_cost uc) (annual_cost uc) v
     (implementation_months uc) (benefit_start_month uc)
     (effort_level uc) (impact_level uc) (risk_level uc)
     (dependencies uc) (skills_required uc) (technology_required uc)
     (soft_benefits uc) (risk_factors uc).

Definition with_initial_cost (uc : t) (v : Q) : t :=
  mk (id uc) (name uc) (problem_statement uc) (kpis uc)
     v (annual_cost uc) (annual_benefit uc)
     (implementation_months uc) (benefit_start_month uc)
     (effort_level uc) (impact_level uc) (risk_level uc)
     (dependencies uc) (skills_required uc) (technology_required uc)
     (soft_benefits uc) (risk_factors uc).
End AIUseCase.

Module ROIMetrics.
Record t := mk {
  use_case_id : string;
  basic_roi_percent : Q;
  npv : Q;
  payback_months : pyfloat;
  risk_adjusted_value : Q;
  three_year_benefit : Q;
  three_year_cost : Q;
  annual_net_benefit : Q
}.
End ROIMetrics.

(** * Python built-ins on numbers *)

(** Rounding of a rational to the nearest integer, ties to the even one. *)
Definition round_half_even (x : Q) : Z :=
  let f := Qfloor x in
  match (x - inject_Z f ?= 1 # 2)%Q with
  | Lt => f
  | Gt => f + 1
  | Eq => if Z.even f then f else f + 1
  end.

(** [round(x, ndigits)] *)
Definition py_round (x : Q) (ndigits : Z) : Q :=
  (inject_Z (round_half_even (x * 10 ^ ndigits)) / 10 ^ ndigits)%Q.

Definition Qltb (x y : Q) : bool := negb (Qle_bool y x).

(** [sum(l)] *)
Definition py_sum (l : list Q) : Q := foldl Qplus 0%Q l.


(** * calculators/roi_calculator.py *)

Module ROICalculator.

Definition DISCOUNT_RATE : Q := 10 # 100.
Definition ANALYSIS_YEARS : Z := 3.

Definition RISK_MULTIPLIERS : gmap string Q :=
  <[RiskLevel.value RiskLevel.HIGH := (60 # 100)%Q]>
  (<[RiskLevel.value RiskLevel.MEDIUM := (80 # 100)%Q]>
  (<[RiskLevel.value RiskLevel.LOW := (95 # 100)%Q]> ∅)).

Section Calculator.

(** The value of [(1 + self.DISCOUNT_RATE) ** (1/12) - 1].  The twelfth
    root of 1.1 is irrational, so the monthly rate is a parameter of the
    calculator. *)
Variable monthly_rate : Q.

Definition _generate_cash_flows (use_case : AIUseCase.t) : list Q :=
  let months := ANALYSIS_YEARS * 12 in
  (fun month : Z =>
     let flow := 0%Q in
     let flow :=
       if month =? 0 then (flow - AIUseCase.initial_cost use_case)%Q
       else flow in
     let flow := (flow - AIUseCase.annual_cost use_case / 12)%Q in
     let benefit_start :=
       AIUseCase.implementation_months use_case
       + AIUseCase.benefit_start_month use_case - 1 in
     let flow :=
       if benefit_start <=? month
       then (flow + AIUseCase.annual_benefit use_case / 12)%Q
       else flow in
     flow) <$> seqZ 0 months.

Definition _calculate_basic_roi (total_benefit total_cost : Q) : Q :=
  if Qeq_bool total_cost 0 then 0%Q
  else ((total_benefit - total_cost) / total_cost * 100)%Q.

(** The loop [for t, cf in enumerate(cash_flows): npv += ...], from index
    [t] and accumulator [npv]. *)
Fixpoint npv_loop (t : Z) (cash_flows : list Q) (npv : Q) : Q :=
  match cash_flows with
  | [] => npv
  | cf :: rest =>
      npv_loop (t + 1) rest (npv + cf / (1 + monthly_rate) ^ t)%Q
  end.

Definition _calculate_npv (cash_flows : list Q) : Q :=
  py_round (npv_loop 0 cash_flows 0%Q) 2.

Definition _calculate_payback_period (use_case : AIUseCase.t) : pyfloat :=
  if Qle_bool (AIUseCase.annual_benefit use_case)
              (AIUseCase.annual_cost use_case)
  then Inf
  else
    let monthly_net_benefit :=
      ((AIUseCase.annual_benefit use_case
        - AIUseCase.annual_cost use_case) / 12)%Q in
    if Qle_bool monthly_net_benefit 0 then Inf
    else
      let benefit_start :=
        AIUseCase.implementation_months use_case
        + AIUseCase.benefit_start_month use_case - 1 in
      let months_to_recover :=
        (AIUseCase.initial_cost use_case / monthly_net_benefit)%Q in
      Fin (py_round (inject_Z benefit_start + months_to_recover) 1).

Definition _calculate_risk_adjusted_value
    (base_value : Q) (risk_level : RiskLevel.t) : Q :=
  let multiplier :=
    default (80 # 100)%Q (RISK_MULTIPLIERS !! RiskLevel.value risk_level) in
  py_round (base_value * multiplier) 2.

Definition _calculate_total_benefit (use_case : AIUseCase.t) : Q :=
  let benefit_start :=
    AIUseCase.implementation_months use_case
    + AIUseCase.benefit_start_month use_case - 1 in
  let benefit_months := Z.max 0 (ANALYSIS_YEARS * 12 - benefit_start) in
  (AIUseCase.annual_benefit use_case / 12 * inject_Z benefit_months)%Q.

Definition calculate_metrics (use_case : AIUseCase.t) : ROIMetrics.t :=
  let cash_flows := _generate_cash_flows use_case in
  let three_year_cost :=
    (AIUseCase.initial_cost use_case
     + AIUseCase.annual_cost use_case * inject_Z ANALYSIS_YEARS)%Q in
  let three_year_benefit := _calculate_total_benefit use_case in
  let basic_roi := _calculate_basic_roi three_year_benefit three_year_cost in
  let npv := _calculate_npv cash_flows in
  let payback_months := _calculate_payback_period use_case in
  let risk_adjusted :=
    _calculate_risk_adjusted_value npv (AIUseCase.risk_level use_case) in
  let annual_net :=
    (AIUseCase.annual_benefit use_case - AIUseCase.annual_cost use_case)%Q in
  {| ROIMetrics.use_case_id := AIUseCase.id use_case;
     ROIMetrics.basic_roi_percent := basic_roi;
     ROIMetrics.npv := npv;
     ROIMetrics.payback_months := payback_months;
     ROIMetrics.risk_adjusted_value := risk_adjusted;
     ROIMetrics.three_year_benefit := three_year_benefit;
     ROIMetrics.three_year_cost := three_year_cost;
     ROIMetrics.annual_net_benefit := annual_net |}.

Definition calculate_batch (use_cases : list AIUseCase.t)
    : list ROIMetrics.t :=
  calculate_metrics <$> use_cases.

End Calculator.

(** The dictionary that [get_roi_summary] returns when [metrics] is not
    empty. *)
Record summary := mk_summary {
  total_npv : Q;
  average_roi : Q;
  total_3yr_benefit : Q;
  total_3yr_cost : Q;
  portfolio_roi : Q;
  average_payback_months : pyfloat;
  total_risk_adjusted_value : Q
}.



End ROICalculator.

(** * The payback period on doubles

    Python's [float] is the IEEE 754 binary64 format with rounding to
    nearest, ties to even; so is the kernel's [float].  This module runs
    [_calculate_payback_period] on it.  [None] is an exception. *)

Module Binary64.

(** The value of a finite double; [None] for an infinity or a NaN. *)
Definition to_Q (x : float) : option Q :=
  match Prim2SF x with
  | S754_zero _ => Some 0%Q
  | S754_finite s m e => Some (inject_Z (cond_Zopp s (Z.pos m)) * 2 ^ e)%Q
  | S754_infinity _ | S754_nan => None
  end.

(** The double nearest to a rational, ties to even, an infinity beyond
    the range: the correctly rounded quotient of the numerator by the
    denominator. *)
Definition of_Q (q : Q) : float :=
  SF2Prim
    match Qnum q with
    | Z0 => S754_zero false
    | Z.pos n =>
        SFdiv prec emax (S754_finite false n 0) (S754_finite false (Qden q) 0)
    | Z.neg n =>
        SFdiv prec emax (S754_finite true n 0) (S754_finite false (Qden q) 0)
    end.

(** The conversion of an [int] operand to [float]: correctly rounded,
    [OverflowError] beyond the range. *)
Definition of_int (n : Z) : option float :=
  let x := SF2Prim (binary_normalize prec emax n 0 false) in
  if is_infinity x then None else Some x.

(** [x / y]: [ZeroDivisionError] on a zero divisor. *)
Definition py_div (x y : float) : option float :=
  if is_zero y then None else Some (x / y)%float.

(** [round(x, ndigits)] on a double: an infinity or a NaN rounds to
    itself; otherwise the value of [x] is rounded to [ndigits] decimals,
    ties to even, and the decimal is converted back to the nearest double
    ([OverflowError] if that is out of range); a result of zero keeps the
    sign of [x]. *)
Definition py_round (x : float) (ndigits : Z) : option float :=
  match to_Q x with
  | None => Some x
  | Some q =>
      if 323 <? ndigits then Some x
      else if ndigits <? -308 then Some (0 * x)%float
      else
        let k := round_half_even (q * 10 ^ ndigits) in
        let rounded :=
          if k =? 0 then (if get_sign x then neg_zero else zero)
          else of_Q (inject_Z k / 10 ^ ndigits) in
        if is_infinity rounded then None else Some rounded
  end.

(** The fields of [AIUseCase] that the function reads. *)
Record use_case := mk_use_case {
  initial_cost : float;
  annual_cost : float;
  annual_benefit : float;
  implementation_months : Z;
  benefit_start_month : Z
}.

(** The [Field(..., ge=...)] constraints on these fields. *)
Definition valid (uc : use_case) : Prop :=
  (0 <=? initial_cost uc)%float = true /\
  (0 <=? annual_cost uc)%float = true /\
  (0 <=? annual_benefit uc)%float = true /\
  1 <= implementation_months uc /\ 1 <= benefit_start_month uc.

Definition _calculate_payback_period (uc : use_case) : option float :=
  if (annual_benefit uc <=? annual_cost uc)%float then Some infinity
  else
    let monthly_net_benefit :=
      ((annual_benefit uc - annual_cost uc) / 12)%float in
    if (monthly_net_benefit <=? 0)%float then Some infinity
    else
      let benefit_start :=
        implementation_months uc + benefit_start_month uc - 1 in
      months_to_recover ← py_div (initial_cost uc) monthly_net_benefit;
      benefit_start ← of_int benefit_start;
      py_round (benefit_start + months_to_recover)%float 1.

End Binary64.

Module PortfolioItem.
(** [selection_rationale] holds the arguments of the f-string that the
    selector writes; [NoRationale] is the empty string. *)
Inductive rationale :=
| NoRationale
| BelowThreshold (roi threshold : Q)
| ExceedsBudget (budget : Q)
| ExceedsMaxProjects (limit : Z)
| SelectedRank (rank : Z) (score : Q).

Record t := mk {
  use_case : AIUseCase.t;
  roi_metrics : ROIMetrics.t;
  priority_score : Q;
  quadrant : string;
  selected : bool;
  selection_rationale : rationale
}.
End PortfolioItem.

Module RoadmapItem.
(** [phase_rationale] holds the arguments of the f-string of
    [_get_phase_rationale]; [NoPhase] is the empty string. *)
Inductive rationale :=
| NoPhase
| QuickWin (effort impact : string) (months : Z)
| StrategicInitiative (effort : string) (score : Q)
| Transformational (effort : string) (months : Z).

Record t := mk {
  use_case : AIUseCase.t;
  roi_metrics : ROIMetrics.t;
  time_horizon : TimeHorizon.t;
  start_date : Z;
  end_date : Z;
  milestones : list string;
  phase_rationale : rationale
}.
End RoadmapItem.

(** * More Python built-ins *)

(** [list.sort(key=..., reverse=True)] and [sorted(..., reverse=True)]:
    a stable sort into descending key order; elements with equal keys keep
    their original order. *)
Fixpoint insert_desc {A} (key : A -> Q) (x : A) (l : list A) : list A :=
  match l with
  | [] => [x]
  | y :: l' =>
      if Qltb (key x) (key y) then y :: insert_desc key x l'
      else x :: y :: l'
  end.

Definition sort_desc {A} (key : A -> Q) (l : list A) : list A :=
  foldr (insert_desc key) [] l.

(** A [for] loop whose body may raise: the state is threaded from left to
    right and the first failure ends the loop. *)
Fixpoint for_each {A S} (body : S -> A -> option S) (l : list A) (s : S)
    : option S :=
  match l with
  | [] => Some s
  | x :: l' =>
      match body s x with
      | Some s' => for_each body l' s'
      | None => None
      end
  end.

(** Truth value of an [Optional] number: [None] and zero are false. *)
Definition truthy_float (o : option Q) : bool :=
  match o with Some x => negb (Qeq_bool x 0) | None => false end.

Definition truthy_int (o : option Z) : bool :=
  match o with Some n => negb (n =? 0) | None => false end.

(** * optimizers/portfolio_optimizer.py *)

Module PortfolioOptimizer.

(** The constraints stored by [__init__]. *)
Record t := mk {
  budget_constraint : option Q;
  max_projects : option Z;
  min_roi_threshold : Q
}.

Definition QUADRANTS : gmap (string * string) (string * Z * string) :=
  list_to_map [
    ((ImpactLevel.value ImpactLevel.HIGH, EffortLevel.value EffortLevel.LOW),
      ("Quick Wins", 1, "🚀"));
    ((ImpactLevel.value ImpactLevel.HIGH, EffortLevel.value EffortLevel.MEDIUM),
      ("Strategic Projects", 2, "⭐"));
    ((ImpactLevel.value ImpactLevel.HIGH, EffortLevel.value EffortLevel.HIGH),
      ("Major Projects", 3, "🏗️"));
    ((ImpactLevel.value ImpactLevel.MEDIUM, EffortLevel.value EffortLevel.LOW),
      ("Easy Wins", 2, "✅"));
    ((ImpactLevel.value ImpactLevel.MEDIUM, EffortLevel.value EffortLevel.MEDIUM),
      ("Balanced Projects", 3, "⚖️"));
    ((ImpactLevel.value ImpactLevel.MEDIUM, EffortLevel.value EffortLevel.HIGH),
      ("Resource Heavy", 4, "⚠️"));
    ((ImpactLevel.value ImpactLevel.LOW, EffortLevel.value EffortLevel.LOW),
      ("Fill-ins", 3, "📝"));
    ((ImpactLevel.value ImpactLevel.LOW, EffortLevel.value EffortLevel.MEDIUM),
      ("Low Priority", 4, "📉"));
    ((ImpactLevel.value ImpactLevel.LOW, EffortLevel.value EffortLevel.HIGH),
      ("Avoid", 5, "🚫"))
  ].

(** [WEIGHTS], in the insertion order in which the score sums them. *)
Definition WEIGHTS : list (string * Q) :=
  [("roi", 30 # 100); ("npv", 25 # 100); ("risk_adjusted", 20 # 100);
   ("payback", 15 # 100); ("strategic", 10 # 100)]%Q.

(** [impact] and [effort] are the enum members as the dictionary sees
    them, that is as their string values; any other string is a key that
    is not in the table. *)
Definition _get_quadrant (impact effort : string) : string * Z * string :=
  default ("Unknown", 3, "❓") (QUADRANTS !! (impact, effort)).

Definition _calculate_priority_score
    (use_case : AIUseCase.t) (metrics : ROIMetrics.t) : Q :=
  let roi_normalized :=
    (Qmin (ROIMetrics.basic_roi_percent metrics) 500 / 500)%Q in
  let s_roi := (roi_normalized * 100)%Q in
  let npv_normalized :=
    (Qmin (Qmax (ROIMetrics.npv metrics) 0) 5000000 / 5000000)%Q in
  let s_npv := (npv_normalized * 100)%Q in
  let risk_adj_normalized :=
    (Qmin (Qmax (ROIMetrics.risk_adjusted_value metrics) 0) 5000000
     / 5000000)%Q in
  let s_risk_adjusted := (risk_adj_normalized * 100)%Q in
  let s_payback :=
    match ROIMetrics.payback_months metrics with
    | Inf => 0%Q
    | Fin payback_months =>
        let payback_score := Qmax 0 ((36 - payback_months) / 36)%Q in
        (payback_score * 100)%Q
    end in
  let quadrant_info :=
    _get_quadrant (ImpactLevel.value (AIUseCase.impact_level use_case))
                  (EffortLevel.value (AIUseCase.effort_level use_case)) in
  let quadrant_priority := quadrant_info.1.2 in
  let s_strategic := (inject_Z (6 - quadrant_priority) / 5 * 100)%Q in
  let scores : gmap string Q :=
    <["strategic" := s_strategic]> (<["payback" := s_payback]>
    (<["risk_adjusted" := s_risk_adjusted]> (<["npv" := s_npv]>
    (<["roi" := s_roi]> ∅)))) in
  let total_score :=
    foldl (fun acc kw => (acc + default 0 (scores !! kw.1) * kw.2)%Q)
          0%Q WEIGHTS in
  py_round total_score 2.

(** One turn of the loop of [_apply_selection] on [item], from the running
    [selected_count] and [total_cost]: the item as the turn leaves it and
    the two counters. A rejected item keeps its [selected] field. *)
Definition select_item (self : t) (selected_count : Z) (total_cost : Q)
    (item : PortfolioItem.t) : PortfolioItem.t * Z * Q :=
  let set_rationale r :=
    {| PortfolioItem.use_case := PortfolioItem.use_case item;
       PortfolioItem.roi_metrics := PortfolioItem.roi_metrics item;
       PortfolioItem.priority_score := PortfolioItem.priority_score item;
       PortfolioItem.quadrant := PortfolioItem.quadrant item;
       PortfolioItem.selected := PortfolioItem.selected item;
       PortfolioItem.selection_rationale := r |} in
  let roi :=
    ROIMetrics.basic_roi_percent (PortfolioItem.roi_metrics item) in
  if Qltb roi (min_roi_threshold self) then
    (set_rationale (PortfolioItem.BelowThreshold roi (min_roi_threshold self)),
     selected_count, total_cost)
  else
    let project_cost :=
      (AIUseCase.initial_cost (PortfolioItem.use_case item)
       + AIUseCase.annual_cost (PortfolioItem.use_case item) * 3)%Q in
    if truthy_float (budget_constraint self)
       && Qltb (default 0%Q (budget_constraint self))
               (total_cost + project_cost)
    then
      (set_rationale
         (PortfolioItem.ExceedsBudget (default 0%Q (budget_constraint self))),
       selected_count, total_cost)
    else if truthy_int (max_projects self)
            && (default 0 (max_projects self) <=? selected_count)
    then
      (set_rationale
         (PortfolioItem.ExceedsMaxProjects (default 0 (max_projects self))),
       selected_count, total_cost)
    else
      ({| PortfolioItem.use_case := PortfolioItem.use_case item;
          PortfolioItem.roi_metrics := PortfolioItem.roi_metrics item;
          PortfolioItem.priority_score := PortfolioItem.priority_score item;
          PortfolioItem.quadrant := PortfolioItem.quadrant item;
          PortfolioItem.selected := true;
          PortfolioItem.selection_rationale :=
            PortfolioItem.SelectedRank (selected_count + 1)
              (PortfolioItem.priority_score item) |},
       selected_count + 1, (total_cost + project_cost)%Q).

(** The loop of [_apply_selection]: the items as the loop leaves them,
    in their order, and the final counters. *)
Fixpoint selection_loop (self : t) (items : list PortfolioItem.t)
    (selected_count : Z) (total_cost : Q)
    : list PortfolioItem.t * Z * Q :=
  match items with
  | [] => ([], selected_count, total_cost)
  | item :: rest =>
      let '(item', selected_count', total_cost') :=
        select_item self selected_count total_cost item in
      let '(rest', n, c) :=
        selection_loop self rest selected_count' total_cost' in
      (item' :: rest', n, c)
  end.

Definition _apply_selection (self : t) (items : list PortfolioItem.t)
    : list PortfolioItem.t :=
  (selection_loop self items 0 0%Q).1.1.

(** One turn of the loop of [optimize] that builds the items. *)
Definition build_turn (metrics_map : gmap string ROIMetrics.t)
    (portfolio_items : list PortfolioItem.t) (uc : AIUseCase.t)
    : list PortfolioItem.t :=
  match metrics_map !! AIUseCase.id uc with
  | None => portfolio_items
  | Some roi_metrics =>
      let score := _calculate_priority_score uc roi_metrics in
      let quadrant_info :=
        _get_quadrant (ImpactLevel.value (AIUseCase.impact_level uc))
                      (EffortLevel.value (AIUseCase.effort_level uc)) in
      portfolio_items
      ++ [ {| PortfolioItem.use_case := uc;
              PortfolioItem.roi_metrics := roi_metrics;
              PortfolioItem.priority_score := score;
              PortfolioItem.quadrant := quadrant_info.1.1;
              PortfolioItem.selected := false;
              PortfolioItem.selection_rationale :=
                PortfolioItem.NoRationale |} ]
  end.

Definition optimize (self : t) (use_cases : list AIUseCase.t)
    (metrics : list ROIMetrics.t) : list PortfolioItem.t :=
  let metrics_map : gmap string ROIMetrics.t :=
    foldl (fun acc m => <[ROIMetrics.use_case_id m := m]> acc) ∅ metrics in
  let portfolio_items := foldl (build_turn metrics_map) [] use_cases in
  let portfolio_items :=
    sort_desc PortfolioItem.priority_score portfolio_items in
  _apply_selection self portfolio_items.

(** [get_quadrant_summary]: the items grouped by quadrant. *)
Definition get_quadrant_summary (self : t) (items : list PortfolioItem.t)
    : gmap string (list PortfolioItem.t) :=
  foldl (fun summary item =>
           let summary :=
             match summary !! PortfolioItem.quadrant item with
             | None => <[PortfolioItem.quadrant item := []]> summary
             | Some _ => summary
             end in
           <[PortfolioItem.quadrant item :=
               default [] (summary !! PortfolioItem.quadrant item)
               ++ [item]]> summary)
        ∅ items.

(** An entry of the list under the key "items" of the selection summary:
    name, quadrant, score, roi and npv. *)
Record summary_item := mk_summary_item {
  si_name : string;
  si_quadrant : string;
  si_score : Q;
  si_roi : Q;
  si_npv : Q
}.

(** The dictionary that [get_selection_summary] returns; the key
    "total_risk_adjusted_value" is absent when nothing is selected. *)
Record selection_summary := mk_selection_summary {
  count : Z;
  total_investment : Q;
  total_npv : Q;
  average_roi : Q;
  total_risk_adjusted_value : option Q;
  items : list summary_item
}.

Definition get_selection_summary (self : t) (items : list PortfolioItem.t)
    : selection_summary :=
  let selected :=
    filter (fun i => PortfolioItem.selected i = true) items in
  match selected with
  | [] =>
      {| count := 0; total_investment := 0; total_npv := 0;
         average_roi := 0; total_risk_adjusted_value := None;
         items := [] |}
  | _ =>
      {| count := Z.of_nat (length selected);
         total_investment :=
           py_sum ((fun i =>
                      AIUseCase.initial_cost (PortfolioItem.use_case i)
                      + AIUseCase.annual_cost (PortfolioItem.use_case i) * 3)%Q
                   <$> selected);
         total_npv :=
           py_sum ((fun i => ROIMetrics.npv (PortfolioItem.roi_metrics i))
                   <$> selected);
         average_roi :=
           (py_sum ((fun i => ROIMetrics.basic_roi_percent
                                (PortfolioItem.roi_metrics i)) <$> selected)
            / inject_Z (Z.of_nat (length selected)))%Q;
         total_risk_adjusted_value :=
           Some (py_sum ((fun i => ROIMetrics.risk_adjusted_value
                                     (PortfolioItem.roi_metrics i))
                         <$> selected));
         items :=
           (fun i =>
              {| si_name := AIUseCase.name (PortfolioItem.use_case i);
                 si_quadrant := PortfolioItem.quadrant i;
                 si_score := PortfolioItem.priority_score i;
                 si_roi :=
                   ROIMetrics.basic_roi_percent (PortfolioItem.roi_metrics i);
                 si_npv := ROIMetrics.npv (PortfolioItem.roi_metrics i) |})
           <$> selected |}
  end.

End PortfolioOptimizer.

(** * generators/roadmap_generator.py *)

Module RoadmapGenerator.

(** [start_date] as [__init__] stores it. *)
Record t := mk { start_date : Z }.

Definition _determine_horizon (self : t) (item : PortfolioItem.t)
    (slots : gmap TimeHorizon.t Z) : TimeHorizon.t :=
  let uc := PortfolioItem.use_case item in
  let impl_months := AIUseCase.implementation_months uc in
  if bool_decide (AIUseCase.effort_level uc = EffortLevel.LOW)
     && (impl_months <=? 3)
     && Qle_bool 50 (PortfolioItem.priority_score item)
  then TimeHorizon.Q1
  else if bool_decide (AIUseCase.effort_level uc = EffortLevel.HIGH)
          || (12 <? impl_months)
  then TimeHorizon.YEAR_3
  else if bool_decide (AIUseCase.effort_level uc = EffortLevel.MEDIUM)
  then
    if Qle_bool 40 (PortfolioItem.priority_score item)
    then TimeHorizon.YEAR_1
    else TimeHorizon.YEAR_3
  else if bool_decide (AIUseCase.effort_level uc = EffortLevel.LOW)
  then TimeHorizon.YEAR_1
  else TimeHorizon.YEAR_1.

(** [None] is the [KeyError] of [slots[horizon]]. *)
Definition _calculate_dates (self : t) (item : PortfolioItem.t)
    (horizon : TimeHorizon.t) (slots : gmap TimeHorizon.t Z)
    : option (Z * Z) :=
  let impl_months :=
    AIUseCase.implementation_months (PortfolioItem.use_case item) in
  slot_num ← slots !! horizon;
  match horizon with
  | TimeHorizon.Q1 =>
      let start_offset := slot_num * 30 in
      let start := start_date self + start_offset in
      let end_ := start + impl_months * 30 in
      Some (start, end_)
  | TimeHorizon.YEAR_1 =>
      let start_offset := 90 + slot_num * 45 in
      let start := start_date self + start_offset in
      let end_ := start + impl_months * 30 in
      Some (start, end_)
  | TimeHorizon.YEAR_3 =>
      let start_offset := 365 + slot_num * 90 in
      let start := start_date self + start_offset in
      let end_ := start + impl_months * 30 in
      Some (start, end_)
  end.

Definition _generate_milestones (self : t) (item : PortfolioItem.t)
    (horizon : TimeHorizon.t) : list string :=
  let uc := PortfolioItem.use_case item in
  let impl_months := AIUseCase.implementation_months uc in
  let milestones := ["Project Kickoff"] in
  let milestones :=
    if 2 <=? impl_months then milestones ++ ["Requirements Complete"]
    else milestones in
  let milestones :=
    if 3 <=? impl_months
    then milestones ++ ["Design & Architecture Complete"]
    else milestones in
  let milestones :=
    if 4 <=? impl_months then milestones ++ ["Development Phase Complete"]
    else milestones in
  let milestones :=
    if 6 <=? impl_months
    then milestones ++ ["Integration Testing Complete"]
    else milestones in
  let milestones := milestones ++ ["UAT & Validation"] in
  let milestones := milestones ++ ["Production Deployment"] in
  let milestones := milestones ++ ["Benefits Realization Review"] in
  milestones.

Definition _get_phase_rationale (self : t) (item : PortfolioItem.t)
    (horizon : TimeHorizon.t) : RoadmapItem.rationale :=
  let uc := PortfolioItem.use_case item in
  match horizon with
  | TimeHorizon.Q1 =>
      RoadmapItem.QuickWin
        (EffortLevel.value (AIUseCase.effort_level uc))
        (ImpactLevel.value (AIUseCase.impact_level uc))
        (AIUseCase.implementation_months uc)
  | TimeHorizon.YEAR_1 =>
      RoadmapItem.StrategicInitiative
        (EffortLevel.value (AIUseCase.effort_level uc))
        (PortfolioItem.priority_score item)
  | TimeHorizon.YEAR_3 =>
      RoadmapItem.Transformational
        (EffortLevel.value (AIUseCase.effort_level uc))
        (AIUseCase.implementation_months uc)
  end.

(** One turn of the loop of [generate_roadmap], on the pair of
    [roadmap_items] and [phase_slots]. *)
Definition roadmap_turn (self : t)
    (st : list RoadmapItem.t * gmap TimeHorizon.t Z) (item : PortfolioItem.t)
    : option (list RoadmapItem.t * gmap TimeHorizon.t Z) :=
  let '(roadmap_items, phase_slots) := st in
  let horizon := _determine_horizon self item phase_slots in
  '(start, end_) ← _calculate_dates self item horizon phase_slots;
  let milestones := _generate_milestones self item horizon in
  let roadmap_item :=
    {| RoadmapItem.use_case := PortfolioItem.use_case item;
       RoadmapItem.roi_metrics := PortfolioItem.roi_metrics item;
       RoadmapItem.time_horizon := horizon;
       RoadmapItem.start_date := start;
       RoadmapItem.end_date := end_;
       RoadmapItem.milestones := milestones;
       RoadmapItem.phase_rationale :=
         _get_phase_rationale self item horizon |} in
  n ← phase_slots !! horizon;
  Some (roadmap_items ++ [roadmap_item], <[horizon := n + 1]> phase_slots).

Definition generate_roadmap (self : t)
    (portfolio_items : list PortfolioItem.t) (selected_only : bool)
    : option (list RoadmapItem.t) :=
  let items := portfolio_items in
  let items :=
    if selected_only
    then filter (fun i => PortfolioItem.selected i = true) portfolio_items
    else items in
  let items := sort_desc PortfolioItem.priority_score items in
  let phase_slots : gmap TimeHorizon.t Z :=
    <[TimeHorizon.YEAR_3 := 0]> (<[TimeHorizon.YEAR_1 := 0]>
    (<[TimeHorizon.Q1 := 0]> ∅)) in
  fst <$> for_each (roadmap_turn self) items ([], phase_slots).

(** The nested function [process] of [get_dependencies_order], on the pair
    of [processed] and [ordered] that it updates.  [depth] is the number of
    nested calls that the interpreter still allows; [None] is the
    [RecursionError] raised when they are used up. *)
Fixpoint process (depth : nat) (name_to_item : gmap string RoadmapItem.t)
    (item : RoadmapItem.t) (st : gset string * list RoadmapItem.t)
    : option (gset string * list RoadmapItem.t) :=
  match depth with
  | O => None
  | S depth' =>
      let name := AIUseCase.name (RoadmapItem.use_case item) in
      if bool_decide (name ∈ st.1) then Some st
      else
        st' ← for_each
          (fun st dep_name =>
             match name_to_item !! dep_name with
             | Some dep =>
                 if bool_decide (dep_name ∈ st.1) then Some st
                 else process depth' name_to_item dep st
             | None => Some st
             end)
          (AIUseCase.dependencies (RoadmapItem.use_case item)) st;
        Some ({[name]} ∪ st'.1, st'.2 ++ [item])
  end.

Definition get_dependencies_order (depth : nat) (self : t)
    (items : list RoadmapItem.t) : option (list RoadmapItem.t) :=
  let name_to_item : gmap string RoadmapItem.t :=
    foldl (fun acc i =>
             <[AIUseCase.name (RoadmapItem.use_case i) := i]> acc) ∅ items in
  snd <$> for_each (fun st item => process depth name_to_item item st)
                   items (∅, []).

(** [get_roadmap_by_horizon]; [None] is the [KeyError] of
    [grouped[item.time_horizon]]. *)
Definition get_roadmap_by_horizon (self : t) (items : list RoadmapItem.t)
    : option (gmap TimeHorizon.t (list RoadmapItem.t)) :=
  let grouped : gmap TimeHorizon.t (list RoadmapItem.t) :=
    <[TimeHorizon.YEAR_3 := []]> (<[TimeHorizon.YEAR_1 := []]>
    (<[TimeHorizon.Q1 := []]> ∅)) in
  for_each (fun grouped item =>
              group ← grouped !! RoadmapItem.time_horizon item;
              Some (<[RoadmapItem.time_horizon item := group ++ [item]]>
                      grouped))
           items grouped.

(** A value of the dictionary that [get_roadmap_summary] returns. *)
Record horizon_summary := mk_horizon_summary {
  count : Z;
  total_investment : Q;
  total_npv : Q;
  projects : list string
}.

(** [get_roadmap_summary], keyed by the string value of the horizon. The
    loop goes through the three keys of [grouped] in the order in which
    [get_roadmap_by_horizon] inserted them. *)
Definition get_roadmap_summary (self : t) (items : list RoadmapItem.t)
    : option (gmap string horizon_summary) :=
  grouped ← get_roadmap_by_horizon self items;
  for_each (fun summary horizon =>
              horizon_items ← grouped !! horizon;
              Some (<[TimeHorizon.value horizon :=
                match horizon_items with
                | [] =>
                    {| count := 0; total_investment := 0; total_npv := 0;
                       projects := [] |}
                | _ =>
                    {| count := Z.of_nat (length horizon_items);
                       total_investment :=
                         py_sum ((fun i =>
                                    AIUseCase.initial_cost
                                      (RoadmapItem.use_case i)
                                    + AIUseCase.annual_cost
                                        (RoadmapItem.use_case i) * 3)%Q
                                 <$> horizon_items);
                       total_npv :=
                         py_sum ((fun i => ROIMetrics.npv
                                             (RoadmapItem.roi_metrics i))
                                 <$> horizon_items);
                       projects :=
                         (fun i => AIUseCase.name (RoadmapItem.use_case i))
                         <$> horizon_items |}
                end]> summary))
           [TimeHorizon.Q1; TimeHorizon.YEAR_1; TimeHorizon.YEAR_3] ∅.

End RoadmapGenerator.

(** * The pipeline on a store of objects

    [PortfolioItem] objects are created by [optimize] and then written in
    place by [_apply_selection]; they hold a reference to the [AIUseCase]
    object they were built from.  This module runs the stages on a store
    in which both kinds of objects live at locations, so that what a stage
    writes, and where, is explicit.  Each turn of a loop reads the objects
    it needs, runs the same loop body as above on what it read, and writes
    back the attributes that the body assigns. *)

Module Store.

Abbreviation loc := positive (only parsing).

(** A [PortfolioItem] object: [use_case] is a reference. *)
Record item_cell := mk_cell {
  use_case : loc;
  roi_metrics : ROIMetrics.t;
  priority_score : Q;
  quadrant : string;
  selected : bool;
  selection_rationale : PortfolioItem.rationale
}.

Inductive obj :=
| UseCaseObj (uc : AIUseCase.t)
| ItemObj (c : item_cell).

Abbreviation heap := (gmap positive obj) (only parsing).

Definition get_use_case (h : heap) (l : loc) : option AIUseCase.t :=
  match h !! l with Some (UseCaseObj uc) => Some uc | _ => None end.

Definition get_item (h : heap) (l : loc) : option item_cell :=
  match h !! l with Some (ItemObj c) => Some c | _ => None end.

(** The item at [l] with its use case read through the reference. *)
Definition load (h : heap) (l : loc) : option PortfolioItem.t :=
  c ← get_item h l;
  uc ← get_use_case h (use_case c);
  Some {| PortfolioItem.use_case := uc;
          PortfolioItem.roi_metrics := roi_metrics c;
          PortfolioItem.priority_score := priority_score c;
          PortfolioItem.quadrant := quadrant c;
          PortfolioItem.selected := selected c;
          PortfolioItem.selection_rationale := selection_rationale c |}.

(** A location that no object of [h] lives at. *)
Definition fresh_loc (h : heap) : loc :=
  (map_fold (fun k _ acc => Pos.max k acc) 1 h + 1)%positive.

(** Construction of a new object. *)
Definition alloc (h : heap) (o : obj) : loc * heap :=
  let l := fresh_loc h in (l, <[l := o]> h).

(** [item.selected = ...; item.selection_rationale = ...] on the object at
    [l]: the two attributes that [_apply_selection] assigns. *)
Definition assign (h : heap) (l : loc) (item : PortfolioItem.t)
    : option heap :=
  c ← get_item h l;
  Some (<[l := ItemObj
            {| use_case := use_case c;
               roi_metrics := roi_metrics c;
               priority_score := priority_score c;
               quadrant := quadrant c;
               selected := PortfolioItem.selected item;
               selection_rationale :=
                 PortfolioItem.selection_rationale item |}]> h).

Definition calculate_batch (monthly_rate : Q) (use_cases : list loc)
    (h : heap) : option (list ROIMetrics.t) :=
  mapM (fun l => ROICalculator.calculate_metrics monthly_rate
                   <$> get_use_case h l) use_cases.

(** [_apply_selection] on the list of item objects [items], in place. *)
Fixpoint selection_loop (self : PortfolioOptimizer.t) (items : list loc)
    (selected_count : Z) (total_cost : Q) (h : heap) : option heap :=
  match items with
  | [] => Some h
  | l :: rest =>
      item ← load h l;
      let '(item', selected_count', total_cost') :=
        PortfolioOptimizer.select_item self selected_count total_cost item in
      h' ← assign h l item';
      selection_loop self rest selected_count' total_cost' h'
  end.

Definition _apply_selection (self : PortfolioOptimizer.t)
    (items : list loc) (h : heap) : option (list loc * heap) :=
  h' ← selection_loop self items 0 0%Q h;
  Some (items, h').

(** One turn of the loop of [optimize] that builds the items. *)
Definition build_turn (metrics_map : gmap string ROIMetrics.t)
    (st : list loc * heap) (l : loc) : option (list loc * heap) :=
  let '(portfolio_items, h) := st in
  uc ← get_use_case h l;
  match metrics_map !! AIUseCase.id uc with
  | None => Some st
  | Some roi_metrics =>
      let score :=
        PortfolioOptimizer._calculate_priority_score uc roi_metrics in
      let quadrant_info :=
        PortfolioOptimizer._get_quadrant
          (ImpactLevel.value (AIUseCase.impact_level uc))
          (EffortLevel.value (AIUseCase.effort_level uc)) in
      let '(p, h') :=
        alloc h (ItemObj {| use_case := l;
                            roi_metrics := roi_metrics;
                            priority_score := score;
                            quadrant := quadrant_info.1.1;
                            selected := false;
                            selection_rationale :=
                              PortfolioItem.NoRationale |}) in
      Some (portfolio_items ++ [p], h')
  end.

Definition score_at (h : heap) (l : loc) : Q :=
  default 0%Q (priority_score <$> get_item h l).

Definition optimize (self : PortfolioOptimizer.t) (use_cases : list loc)
    (metrics : list ROIMetrics.t) (h : heap) : option (list loc * heap) :=
  let metrics_map : gmap string ROIMetrics.t :=
    foldl (fun acc m => <[ROIMetrics.use_case_id m := m]> acc) ∅ metrics in
  '(portfolio_items, h) ← for_each (build_turn metrics_map) use_cases ([], h);
  let portfolio_items := sort_desc (score_at h) portfolio_items in
  _apply_selection self portfolio_items h.

(** [generate_roadmap]: each roadmap item is returned with the reference
    to the use case object that it holds. *)
Definition generate_roadmap (self : RoadmapGenerator.t)
    (portfolio_items : list loc) (selected_only : bool) (h : heap)
    : option (list (loc * RoadmapItem.t)) :=
  let items := portfolio_items in
  let items :=
    if selected_only
    then filter (fun l => selected <$> get_item h l = Some true)
                portfolio_items
    else items in
  let items := sort_desc (score_at h) items in
  let phase_slots : gmap TimeHorizon.t Z :=
    <[TimeHorizon.YEAR_3 := 0]> (<[TimeHorizon.YEAR_1 := 0]>
    (<[TimeHorizon.Q1 := 0]> ∅)) in
  refs ← mapM (fun l => use_case <$> get_item h l) items;
  loaded ← mapM (load h) items;
  roadmap_items ←
    fst <$> for_each (RoadmapGenerator.roadmap_turn self) loaded
                     ([], phase_slots);
  Some (zip refs roadmap_items).

(** The three stages in sequence on the use case objects at [use_cases]:
    the metrics, the item objects, the roadmap and the final store. *)
Definition pipeline (monthly_rate : Q) (optimizer : PortfolioOptimizer.t)
    (generator : RoadmapGenerator.t) (use_cases : list loc) (h : heap)
    : option (list ROIMetrics.t * list loc * list (loc * RoadmapItem.t)
              * heap) :=
  metrics ← calculate_batch monthly_rate use_cases h;
  '(portfolio_items, h') ← optimize optimizer use_cases metrics h;
  roadmap_items ← generate_roadmap generator portfolio_items true h';
  Some (metrics, portfolio_items, roadmap_items, h').

End Store.

(** * Definitions that the statements use *)

Module Spec.
#[local] Open Scope Q_scope.

(** The payback formula as the specification words it: the month in which
    benefits start plus the initial cost over the monthly net benefit, to
    one decimal. *)
Definition payback_months (uc : AIUseCase.t) : Q :=
  let benefit_start :=
    (AIUseCase.implementation_months uc
     + AIUseCase.benefit_start_month uc - 1)%Z in
  py_round
    (inject_Z benefit_start
     + AIUseCase.initial_cost uc
       / ((AIUseCase.annual_benefit uc - AIUseCase.annual_cost uc) / 12))
    1.

(** The canonical quadrant table of the specification: label and rank. *)
Definition quadrant_table (impact : ImpactLevel.t) (effort : EffortLevel.t)
    : string * Z :=
  match impact, effort with
  | ImpactLevel.HIGH, EffortLevel.LOW => ("Quick Wins", 1%Z)
  | ImpactLevel.HIGH, EffortLevel.MEDIUM => ("Strategic Projects", 2%Z)
  | ImpactLevel.HIGH, EffortLevel.HIGH => ("Major Projects", 3%Z)
  | ImpactLevel.MEDIUM, EffortLevel.LOW => ("Easy Wins", 2%Z)
  | ImpactLevel.MEDIUM, EffortLevel.MEDIUM => ("Balanced Projects", 3%Z)
  | ImpactLevel.MEDIUM, EffortLevel.HIGH => ("Resource Heavy", 4%Z)
  | ImpactLevel.LOW, EffortLevel.LOW => ("Fill-ins", 3%Z)
  | ImpactLevel.LOW, EffortLevel.MEDIUM => ("Low Priority", 4%Z)
  | ImpactLevel.LOW, EffortLevel.HIGH => ("Avoid", 5%Z)
  end.

(** The month in which benefits start. *)
Definition benefit_start (uc : AIUseCase.t) : Z :=
  (AIUseCase.implementation_months uc
   + AIUseCase.benefit_start_month uc - 1)%Z.

(** The net present value that [calculate_metrics] reports. *)
Definition npv_of (monthly_rate : Q) (uc : AIUseCase.t) : Q :=
  ROIMetrics.npv (ROICalculator.calculate_metrics monthly_rate uc).

End Spec.

(** What the statements about the dependency order say. *)
Module Dependencies.

Definition item_name (item : RoadmapItem.t) : string :=
  AIUseCase.name (RoadmapItem.use_case item).

Definition item_deps (item : RoadmapItem.t) : list string :=
  AIUseCase.dependencies (RoadmapItem.use_case item).

(** The dependencies among [items] have no cycle: a rank falls along
    each of them. *)
Definition acyclic (rank : string -> nat) (items : list RoadmapItem.t)
    : Prop :=
  forall item dep,
    item ∈ items -> dep ∈ item_deps item ->
    dep ∈ item_name <$> items ->
    (rank dep < rank (item_name item))%nat.

(** In [ordered], whatever an entry names among [items] stands before
    it. *)
Definition dependencies_first (items ordered : list RoadmapItem.t) : Prop :=
  forall pre item post dep,
    ordered = pre ++ item :: post ->
    dep ∈ item_deps item -> dep ∈ item_name <$> items ->
    dep ∈ item_name <$> pre.

(** The dictionary [name_to_item] of [get_dependencies_order]. *)
Definition name_map (items : list RoadmapItem.t)
    : gmap string RoadmapItem.t :=
  foldl (fun acc i => <[AIUseCase.name (RoadmapItem.use_case i) := i]> acc)
        ∅ items.

(** What holds of [processed] and [ordered] between two calls of
    [process]: the names in [processed] are those of [ordered], no name
    comes twice, and the entries are entries of [items], each after what
    it names. *)
Definition order_inv (items : list RoadmapItem.t)
    (st : gset string * list RoadmapItem.t) : Prop :=
  (forall name, name ∈ st.1 <-> name ∈ item_name <$> st.2) /\
  NoDup (item_name <$> st.2) /\
  (forall x, x ∈ st.2 -> x ∈ items) /\
  dependencies_first items st.2.

(** [st'] adds to [st] entries of rank below [bound]. *)
Definition grows (rank : string -> nat) (bound : nat)
    (st st' : gset string * list RoadmapItem.t) : Prop :=
  exists added,
    st'.2 = st.2 ++ added /\
    Forall (fun x => (rank (item_name x) < bound)%nat) added.

(** The turn of the loop over the dependencies in [process]. *)
Definition visit (items : list RoadmapItem.t) (depth : nat)
    (st : gset string * list RoadmapItem.t) (dep_name : string)
    : option (gset string * list RoadmapItem.t) :=
  match name_map items !! dep_name with
  | Some dep =>
      if bool_decide (dep_name ∈ st.1) then Some st
      else RoadmapGenerator.process depth (name_map items) dep st
  | None => Some st
  end.

(** What a call of [process] on an entry of [items] achieves. *)
Definition process_spec (items : list RoadmapItem.t) (rank : string -> nat)
    (depth : nat) : Prop :=
  forall item st,
    item ∈ items -> (rank (item_name item) < depth)%nat ->
    order_inv items st ->
    exists st',
      RoadmapGenerator.process depth (name_map items) item st = Some st' /\
      order_inv items st' /\ item_name item ∈ st'.1 /\
      grows rank (S (rank (item_name item))) st st'.

End Dependencies.

(** Inputs on which the statements are exercised. *)
Module Sample.
#[local] Open Scope Q_scope.

(** The monthly rate to eighteen decimals. *)
Definition monthly_rate : Q := 7974140428903764 # 1000000000000000000.

(** The record of the end-to-end scenario of the specification. *)
Definition invoice_triage : AIUseCase.t :=
  {| AIUseCase.id := "UC001"; AIUseCase.name := "Invoice triage";
     AIUseCase.problem_statement := "Manual invoice routing";
     AIUseCase.kpis := ["Hours saved"];
     AIUseCase.initial_cost := 150000; AIUseCase.annual_cost := 30000;
     AIUseCase.annual_benefit := 400000;
     AIUseCase.implementation_months := 4;
     AIUseCase.benefit_start_month := 1;
     AIUseCase.effort_level := EffortLevel.LOW;
     AIUseCase.impact_level := ImpactLevel.HIGH;
     AIUseCase.risk_level := RiskLevel.LOW;
     AIUseCase.dependencies := []; AIUseCase.skills_required := [];
     AIUseCase.technology_required := []; AIUseCase.soft_benefits := [];
     AIUseCase.risk_factors := [] |}.

(** A record whose three-year benefit stays below its three-year cost. *)
Definition chatbot : AIUseCase.t :=
  {| AIUseCase.id := "UC002"; AIUseCase.name := "Support chatbot";
     AIUseCase.problem_statement := "Slow first response";
     AIUseCase.kpis := [];
     AIUseCase.initial_cost := 100000; AIUseCase.annual_cost := 20000;
     AIUseCase.annual_benefit := 60000;
     AIUseCase.implementation_months := 6;
     AIUseCase.benefit_start_month := 1;
     AIUseCase.effort_level := EffortLevel.MEDIUM;
     AIUseCase.impact_level := ImpactLevel.MEDIUM;
     AIUseCase.risk_level := RiskLevel.MEDIUM;
     AIUseCase.dependencies := ["Invoice triage"];
     AIUseCase.skills_required := [];
     AIUseCase.technology_required := []; AIUseCase.soft_benefits := [];
     AIUseCase.risk_factors := [] |}.




(** Constraints on which the selector is exercised. *)
Definition tight_budget : PortfolioOptimizer.t :=
  {| PortfolioOptimizer.budget_constraint := Some 300000;
     PortfolioOptimizer.max_projects := Some 1%Z;
     PortfolioOptimizer.min_roi_threshold := 20 |}.

Definition zero_budget : PortfolioOptimizer.t :=
  {| PortfolioOptimizer.budget_constraint := Some 0;
     PortfolioOptimizer.max_projects := None;
     PortfolioOptimizer.min_roi_threshold := 0 |}.

Definition zero_projects : PortfolioOptimizer.t :=
  {| PortfolioOptimizer.budget_constraint := None;
     PortfolioOptimizer.max_projects := Some 0%Z;
     PortfolioOptimizer.min_roi_threshold := 0 |}.

(** A selected item of low effort, two months and score 60. *)
Definition quick_win : PortfolioItem.t :=
  {| PortfolioItem.use_case :=
       {| AIUseCase.id := "UC003"; AIUseCase.name := "Email tagging";
          AIUseCase.problem_statement := "Untagged inbox";
          AIUseCase.kpis := [];
          AIUseCase.initial_cost := 20000; AIUseCase.annual_cost := 5000;
          AIUseCase.annual_benefit := 90000;
          AIUseCase.implementation_months := 2;
          AIUseCase.benefit_start_month := 1;
          AIUseCase.effort_level := EffortLevel.LOW;
          AIUseCase.impact_level := ImpactLevel.HIGH;
          AIUseCase.risk_level := RiskLevel.LOW;
          AIUseCase.dependencies := []; AIUseCase.skills_required := [];
          AIUseCase.technology_required := [];
          AIUseCase.soft_benefits := []; AIUseCase.risk_factors := [] |};
     PortfolioItem.roi_metrics :=
       ROICalculator.calculate_metrics monthly_rate invoice_triage;
     PortfolioItem.priority_score := 60;
     PortfolioItem.quadrant := "Quick Wins";
     PortfolioItem.selected := true;
     PortfolioItem.selection_rationale := PortfolioItem.SelectedRank 1 60 |}.

(** The roadmap generator started on day 739000. *)
Definition generator : RoadmapGenerator.t :=
  {| RoadmapGenerator.start_date := 739000 |}.

(** A roadmap entry for a use case called [name] that names
    [dependencies]. *)
Definition entry (name : string) (dependencies : list string)
    : RoadmapItem.t :=
  {| RoadmapItem.use_case :=
       {| AIUseCase.id := name; AIUseCase.name := name;
          AIUseCase.problem_statement := "";
          AIUseCase.kpis := [];
          AIUseCase.initial_cost := 0; AIUseCase.annual_cost := 0;
          AIUseCase.annual_benefit := 0;
          AIUseCase.implementation_months := 1;
          AIUseCase.benefit_start_month := 1;
          AIUseCase.effort_level := EffortLevel.MEDIUM;
          AIUseCase.impact_level := ImpactLevel.MEDIUM;
          AIUseCase.risk_level := RiskLevel.MEDIUM;
          AIUseCase.dependencies := dependencies;
          AIUseCase.skills_required := [];
          AIUseCase.technology_required := [];
          AIUseCase.soft_benefits := []; AIUseCase.risk_factors := [] |};
     RoadmapItem.roi_metrics :=
       ROICalculator.calculate_metrics monthly_rate invoice_triage;
     RoadmapItem.time_horizon := TimeHorizon.YEAR_1;
     RoadmapItem.start_date := 739090;
     RoadmapItem.end_date := 739120;
     RoadmapItem.milestones := ["Project Kickoff"];
     RoadmapItem.phase_rationale := RoadmapItem.NoPhase |}.

(** Two entries that name each other. *)
Definition cyclic : list RoadmapItem.t :=
  [entry "A" ["B"]; entry "B" ["A"]].

(** An entry that names a later one, and a rank that falls along the
    dependency. *)
Definition chain : list RoadmapItem.t :=
  [entry "B" ["A"]; entry "A" []].

Definition chain_rank (name : string) : nat :=
  if decide (name = "A") then 0%nat else 1%nat.

(** A store that holds the two sample records. *)
Definition store : gmap positive Store.obj :=
  <[2%positive := Store.UseCaseObj chatbot]>
  (<[1%positive := Store.UseCaseObj invoice_triage]> ∅).

End Sample.

(** What the statements about the selector measure. *)
Module Selection.
#[local] Open Scope Q_scope.

(** The three-year commitment of an item. *)
Definition project_cost (item : PortfolioItem.t) : Q :=
  AIUseCase.initial_cost (PortfolioItem.use_case item)
  + AIUseCase.annual_cost (PortfolioItem.use_case item) * 3.

(** The cost of the items marked selected, summed. *)
Definition selected_cost (items : list PortfolioItem.t) : Q :=
  foldr (fun item acc =>
           if PortfolioItem.selected item then project_cost item + acc
           else acc) 0 items.

(** The number of items marked selected. *)
Definition selected_count (items : list PortfolioItem.t) : Z :=
  foldr (fun item acc =>
           if PortfolioItem.selected item then (1 + acc)%Z else acc)
        0%Z items.

(** Items as [optimize] builds them: not yet selected. *)
Definition unselected (items : list PortfolioItem.t) : Prop :=
  Forall (fun item => PortfolioItem.selected item = false) items.

(** The item passes the ROI test of the selector. *)
Definition meets_threshold (self : PortfolioOptimizer.t)
    (item : PortfolioItem.t) : Prop :=
  PortfolioOptimizer.min_roi_threshold self
  <= ROIMetrics.basic_roi_percent (PortfolioItem.roi_metrics item).

(** The counters of the selector after it has gone through [items]. *)
Definition counters_after (self : PortfolioOptimizer.t)
    (items : list PortfolioItem.t) : Z * Q :=
  let '(_, selected_count, total_cost) :=
    PortfolioOptimizer.selection_loop self items 0%Z 0 in
  (selected_count, total_cost).

Import PortfolioOptimizer.

(** What one turn of the selector does, branch by branch. *)
Inductive turn (self : PortfolioOptimizer.t) (n : Z) (c : Q)
    (item : PortfolioItem.t) : PortfolioItem.t * Z * Q -> Prop :=
| turn_threshold item' :
    ~ meets_threshold self item ->
    PortfolioItem.selected item' = PortfolioItem.selected item ->
    PortfolioItem.use_case item' = PortfolioItem.use_case item ->
    PortfolioItem.selection_rationale item'
    = PortfolioItem.BelowThreshold
        (ROIMetrics.basic_roi_percent (PortfolioItem.roi_metrics item))
        (min_roi_threshold self) ->
    turn self n c item (item', n, c)
| turn_budget item' budget :
    meets_threshold self item ->
    budget_constraint self = Some budget -> ~ budget == 0 ->
    budget < c + project_cost item ->
    PortfolioItem.selected item' = PortfolioItem.selected item ->
    PortfolioItem.use_case item' = PortfolioItem.use_case item ->
    PortfolioItem.selection_rationale item'
    = PortfolioItem.ExceedsBudget budget ->
    turn self n c item (item', n, c)
| turn_max item' limit :
    meets_threshold self item ->
    (forall budget, budget_constraint self = Some budget -> ~ budget == 0 ->
                    c + project_cost item <= budget) ->
    max_projects self = Some limit -> limit <> 0%Z -> (limit <= n)%Z ->
    PortfolioItem.selected item' = PortfolioItem.selected item ->
    PortfolioItem.use_case item' = PortfolioItem.use_case item ->
    PortfolioItem.selection_rationale item'
    = PortfolioItem.ExceedsMaxProjects limit ->
    turn self n c item (item', n, c)
| turn_select item' :
    meets_threshold self item ->
    (forall budget, budget_constraint self = Some budget -> ~ budget == 0 ->
                    c + project_cost item <= budget) ->
    (forall limit, max_projects self = Some limit -> limit <> 0%Z ->
                   (n < limit)%Z) ->
    PortfolioItem.selected item' = true ->
    PortfolioItem.use_case item' = PortfolioItem.use_case item ->
    PortfolioItem.selection_rationale item'
    = PortfolioItem.SelectedRank (n + 1) (PortfolioItem.priority_score item) ->
    turn self n c item (item', (n + 1)%Z, c + project_cost item).

End Selection.

(** What the statements about [optimize] and the summaries use. *)
Module Portfolio.
#[local] Open Scope Q_scope.


(** The metrics that [optimize] pairs with [uc]: the last of [metrics]
    that carries its id. *)
Definition metrics_for (metrics : list ROIMetrics.t) (uc : AIUseCase.t)
    : option ROIMetrics.t :=
  last (filter (fun m => ROIMetrics.use_case_id m = AIUseCase.id uc) metrics).

(** The item is scored and classified from its own record and metrics. *)
Definition scored_from (metrics : list ROIMetrics.t)
    (item : PortfolioItem.t) : Prop :=
  (metrics_for metrics (PortfolioItem.use_case item)
   = Some (PortfolioItem.roi_metrics item)) /\
  (PortfolioItem.priority_score item
   = PortfolioOptimizer._calculate_priority_score
       (PortfolioItem.use_case item) (PortfolioItem.roi_metrics item)) /\
  (PortfolioItem.quadrant item
   = (PortfolioOptimizer._get_quadrant
        (ImpactLevel.value
           (AIUseCase.impact_level (PortfolioItem.use_case item)))
        (EffortLevel.value
           (AIUseCase.effort_level (PortfolioItem.use_case item)))).1.1).

(** The selected items, in their order. *)
Definition selected_items (items : list PortfolioItem.t)
    : list PortfolioItem.t :=
  filter (fun i => PortfolioItem.selected i = true) items.

(** The rationale the selector writes on the [i]-th item it selects,
    counting from 0. *)
Definition rank_rationale (i : nat) (item : PortfolioItem.t)
    : PortfolioItem.rationale :=
  PortfolioItem.SelectedRank (Z.of_nat i + 1)
    (PortfolioItem.priority_score item).

(** The rationale is one of the three rejections. *)
Definition is_rejection (r : PortfolioItem.rationale) : Prop :=
  match r with
  | PortfolioItem.BelowThreshold _ _
  | PortfolioItem.ExceedsBudget _
  | PortfolioItem.ExceedsMaxProjects _ => True
  | _ => False
  end.

End Portfolio.

(** What the statements about the roadmap loop use. *)
Module Schedule.

(** The three counters of [generate_roadmap] are all there. *)
Definition slots_full (slots : gmap TimeHorizon.t Z) : Prop :=
  forall horizon, is_Some (slots !! horizon).

(** The items that [generate_roadmap] goes through, in its order. *)
Definition scheduled (portfolio_items : list PortfolioItem.t)
    (selected_only : bool) : list PortfolioItem.t :=
  sort_desc PortfolioItem.priority_score
    (if selected_only
     then filter (fun i => PortfolioItem.selected i = true) portfolio_items
     else portfolio_items).

(** The entries of [items] that lie in [horizon], in their order. *)
Definition in_horizon (horizon : TimeHorizon.t) (items : list RoadmapItem.t)
    : list RoadmapItem.t :=
  filter (fun r => RoadmapItem.time_horizon r = horizon) items.

(** The days from the start of the roadmap to the start of the entry
    that is the [k]-th of its horizon, counting from 0. *)
Definition slot_offset (horizon : TimeHorizon.t) (k : Z) : Z :=
  match horizon with
  | TimeHorizon.Q1 => k * 30
  | TimeHorizon.YEAR_1 => 90 + k * 45
  | TimeHorizon.YEAR_3 => 365 + k * 90
  end.

(** [r] is the entry made for [item]: same record and metrics, the
    horizon, the milestones and the rationale of the item. *)
Definition entry_of (self : RoadmapGenerator.t) (item : PortfolioItem.t)
    (r : RoadmapItem.t) : Prop :=
  RoadmapItem.use_case r = PortfolioItem.use_case item /\
  RoadmapItem.roi_metrics r = PortfolioItem.roi_metrics item /\
  RoadmapItem.time_horizon r
  = RoadmapGenerator._determine_horizon self item ∅ /\
  RoadmapItem.milestones r
  = RoadmapGenerator._generate_milestones self item
      (RoadmapItem.time_horizon r) /\
  RoadmapItem.phase_rationale r
  = RoadmapGenerator._get_phase_rationale self item
      (RoadmapItem.time_horizon r).

(** Every entry of [roadmap] starts at the offset of its place within
    its horizon and ends thirty days per month of implementation
    later. *)
Definition staggered (self : RoadmapGenerator.t)
    (roadmap : list RoadmapItem.t) : Prop :=
  forall pre r post,
    roadmap = pre ++ r :: post ->
    RoadmapItem.start_date r
    = RoadmapGenerator.start_date self
      + slot_offset (RoadmapItem.time_horizon r)
          (Z.of_nat (length (in_horizon (RoadmapItem.time_horizon r) pre)))
    /\ RoadmapItem.end_date r
       = RoadmapItem.start_date r
         + AIUseCase.implementation_months (RoadmapItem.use_case r) * 30.

(** The three-year commitment of an entry. *)
Definition entry_cost (r : RoadmapItem.t) : Q :=
  (AIUseCase.initial_cost (RoadmapItem.use_case r)
   + AIUseCase.annual_cost (RoadmapItem.use_case r) * 3)%Q.

End Schedule.

(** What the statements about the store use. *)
Module StoreInv.

(** [p] is an item object made after [h0], referring to one of
    [use_cases]. *)
Definition item_ok (h0 : gmap positive Store.obj) (use_cases : list positive)
    (h : gmap positive Store.obj) (p : positive) : Prop :=
  h0 !! p = None /\
  exists c, h !! p = Some (Store.ItemObj c) /\ Store.use_case c ∈ use_cases.

(** A use case object lives at [l]. *)
Definition is_use_case (h : gmap positive Store.obj) (l : positive) : Prop :=
  is_Some (Store.get_use_case h l).

End StoreInv.

(** * Rounding *)

Section Rounding.
#[local] Open Scope Q_scope.

Lemma round_half_even_floor (x : Q) :
  (Qfloor x <= round_half_even x <= Qfloor x + 1)%Z.
Proof.
  unfold round_half_even.
  destruct (x - inject_Z (Qfloor x) ?= 1 # 2); [destruct (Z.even _) | |]; lia.
Qed.

Lemma round_half_even_mono (x y : Q) :
  x <= y -> (round_half_even x <= round_half_even y)%Z.
Proof.
  intros Hxy.
  pose proof (Qfloor_resp_le _ _ Hxy) as Hf.
  destruct (Z.eq_dec (Qfloor x) (Qfloor y)) as [Heq | Hne].
  - unfold round_half_even. rewrite <- Heq.
    destruct (Qcompare_spec (x - inject_Z (Qfloor x)) (1 # 2)) as [Hx | Hx | Hx];
      destruct (Qcompare_spec (y - inject_Z (Qfloor x)) (1 # 2)) as [Hy | Hy | Hy];
      try destruct (Z.even _); try lia; exfalso; lra.
  - pose proof (round_half_even_floor x). pose proof (round_half_even_floor y).
    lia.
Qed.

Lemma round_half_even_comp (x y : Q) :
  x == y -> round_half_even x = round_half_even y.
Proof.
  intros Hxy. apply Z.le_antisymm; apply round_half_even_mono; lra.
Qed.

Lemma py_round_mono (x y : Q) (ndigits : Z) :
  x <= y -> py_round x ndigits <= py_round y ndigits.
Proof.
  intros Hxy. unfold py_round.
  assert (Hpos : 0 < 10 ^ ndigits) by (apply Qpower_0_lt; lra).
  apply Qmult_le_compat_r.
  - rewrite <- Zle_Qle. apply round_half_even_mono.
    apply Qmult_le_compat_r; lra.
  - apply Qlt_le_weak, Qinv_lt_0_compat, Hpos.
Qed.

Lemma py_round_comp (x y : Q) (ndigits : Z) :
  x == y -> py_round x ndigits == py_round y ndigits.
Proof. intros Hxy. apply Qle_antisym; apply py_round_mono; lra. Qed.

Lemma py_round_proper : Proper (Qeq ==> eq ==> Qeq) py_round.
Proof. intros x y Hxy n ? <-. by apply py_round_comp. Qed.

#[global] Existing Instance py_round_proper.

Lemma Qltb_lt (x y : Q) : Qltb x y = true <-> x < y.
Proof.
  unfold Qltb. rewrite negb_true_iff, <- not_true_iff_false, Qle_bool_iff.
  split; [apply Qnot_le_lt | apply Qlt_not_le].
Qed.

Lemma Qltb_ge (x y : Q) : Qltb x y = false <-> y <= x.
Proof. unfold Qltb. rewrite negb_false_iff. apply Qle_bool_iff. Qed.

End Rounding.

(** * The stable sort *)

Module StableSort.

Lemma insert_desc_perm {A} (key : A -> Q) (x : A) (l : list A) :
  insert_desc key x l ≡ₚ x :: l.
Proof.
  induction l as [| y l IH]; [done |]. simpl.
  destruct (Qltb (key x) (key y)); [| done].
  rewrite IH. apply Permutation_swap.
Qed.

Lemma sort_desc_perm {A} (key : A -> Q) (l : list A) :
  sort_desc key l ≡ₚ l.
Proof.
  induction l as [| x l IH]; [done |].
  unfold sort_desc in *. simpl. by rewrite insert_desc_perm, IH.
Qed.


(** Sorting two lists that are related entry by entry, on keys that
    agree on related entries, gives related lists. *)
Lemma insert_desc_Forall2 {A B} (R : A -> B -> Prop)
    (key1 : A -> Q) (key2 : B -> Q) (x : A) (y : B)
    (l1 : list A) (l2 : list B) :
  (forall a b, R a b -> key1 a = key2 b) ->
  R x y -> Forall2 R l1 l2 ->
  Forall2 R (insert_desc key1 x l1) (insert_desc key2 y l2).
Proof.
  intros Hkey Hxy Hall.
  induction Hall as [| a b l1 l2 Hab Htail IH]; simpl.
  - by repeat constructor.
  - rewrite (Hkey _ _ Hxy), (Hkey _ _ Hab).
    destruct (Qltb (key2 y) (key2 b));
      [constructor; [done | exact IH] | by repeat constructor].
Qed.

Lemma sort_desc_Forall2 {A B} (R : A -> B -> Prop)
    (key1 : A -> Q) (key2 : B -> Q) (l1 : list A) (l2 : list B) :
  (forall a b, R a b -> key1 a = key2 b) ->
  Forall2 R l1 l2 ->
  Forall2 R (sort_desc key1 l1) (sort_desc key2 l2).
Proof.
  intros Hkey Hall. unfold sort_desc.
  induction Hall as [| a b l1 l2 Hab _ IH]; simpl; [constructor |].
  by apply insert_desc_Forall2.
Qed.

End StableSort.

(** * The financial metrics *)

Module ROICalculatorFacts.
Import ROICalculator.
#[local] Open Scope Q_scope.

Lemma npv_of_unfold (monthly_rate : Q) (uc : AIUseCase.t) :
  Spec.npv_of monthly_rate uc
  = py_round (npv_loop monthly_rate 0 (_generate_cash_flows uc) 0) 2.
Proof. reflexivity. Qed.

Lemma npv_loop_mono (monthly_rate : Q) (cfs1 cfs2 : list Q) :
  0 < 1 + monthly_rate ->
  Forall2 Qle cfs1 cfs2 ->
  forall (t : Z) (a1 a2 : Q),
    a1 <= a2 ->
    npv_loop monthly_rate t cfs1 a1 <= npv_loop monthly_rate t cfs2 a2.
Proof.
  intros Hpos Hall.
  induction Hall as [| c1 c2 l1 l2 Hc _ IH]; intros t a1 a2 Ha; simpl.
  - exact Ha.
  - apply IH.
    assert (Hd : 0 <= / (1 + monthly_rate) ^ t).
    { apply Qlt_le_weak, Qinv_lt_0_compat, Qpower_0_lt, Hpos. }
    unfold Qdiv.
    pose proof (Qmult_le_compat_r _ _ _ Hc Hd). lra.
Qed.

(** The cash flows grow, month by month, with the benefit and shrink with
    the initial cost. *)
Lemma cash_flows_mono (uc1 uc2 : AIUseCase.t) :
  AIUseCase.initial_cost uc2 <= AIUseCase.initial_cost uc1 ->
  AIUseCase.annual_cost uc1 == AIUseCase.annual_cost uc2 ->
  AIUseCase.annual_benefit uc1 <= AIUseCase.annual_benefit uc2 ->
  AIUseCase.implementation_months uc1 = AIUseCase.implementation_months uc2 ->
  AIUseCase.benefit_start_month uc1 = AIUseCase.benefit_start_month uc2 ->
  Forall2 Qle (_generate_cash_flows uc1) (_generate_cash_flows uc2).
Proof.
  intros Hi Hc Hb Hm Hs. unfold _generate_cash_flows.
  apply Forall2_fmap, Forall_Forall2_diag, Forall_forall.
  intros month _. cbv zeta. rewrite Hm, Hs.
  unfold Qdiv; change (/ 12) with (1 # 12).
  destruct (month =? 0)%Z; destruct (_ <=? month)%Z; lra.
Qed.

Lemma npv_of_mono (monthly_rate : Q) (uc1 uc2 : AIUseCase.t) :
  0 < 1 + monthly_rate ->
  AIUseCase.initial_cost uc2 <= AIUseCase.initial_cost uc1 ->
  AIUseCase.annual_cost uc1 == AIUseCase.annual_cost uc2 ->
  AIUseCase.annual_benefit uc1 <= AIUseCase.annual_benefit uc2 ->
  AIUseCase.implementation_months uc1 = AIUseCase.implementation_months uc2 ->
  AIUseCase.benefit_start_month uc1 = AIUseCase.benefit_start_month uc2 ->
  Spec.npv_of monthly_rate uc1 <= Spec.npv_of monthly_rate uc2.
Proof.
  intros Hpos Hi Hc Hb Hm Hs. rewrite !npv_of_unfold.
  apply py_round_mono, npv_loop_mono; [exact Hpos | | lra].
  by apply cash_flows_mono.
Qed.


(** The second test of [_calculate_payback_period] never fires. *)
Lemma payback_finite (uc : AIUseCase.t) :
  AIUseCase.annual_cost uc < AIUseCase.annual_benefit uc ->
  _calculate_payback_period uc = Fin (Spec.payback_months uc).
Proof.
  intros Hlt. unfold _calculate_payback_period, Spec.payback_months.
  destruct (Qle_bool (AIUseCase.annual_benefit uc) (AIUseCase.annual_cost uc))
    eqn:Hle.
  { apply Qle_bool_iff in Hle. exfalso. lra. }
  destruct (Qle_bool _ 0) eqn:Hnet; [| reflexivity].
  apply Qle_bool_iff in Hnet. exfalso.
  unfold Qdiv in Hnet. change (/ 12) with (1 # 12) in Hnet. lra.
Qed.

(** C3. The record with initial cost 150000, annual cost 30000, annual
    benefit 400000, four months of implementation, benefits from the first
    month after it and low risk has a three-year cost of 240000, a
    three-year benefit of (400000/12) * 32, which is 1,066,666.67 to the
    cent, a basic ROI of 344.44 percent to two decimals, and a payback of
    8.9 months. *)
Theorem C3_end_to_end_metrics (monthly_rate : Q) (uc : AIUseCase.t) :
  AIUseCase.initial_cost uc == 150000 ->
  AIUseCase.annual_cost uc == 30000 ->
  AIUseCase.annual_benefit uc == 400000 ->
  AIUseCase.implementation_months uc = 4%Z ->
  AIUseCase.benefit_start_month uc = 1%Z ->
  AIUseCase.risk_level uc = RiskLevel.LOW ->
  let m := calculate_metrics monthly_rate uc in
  ROIMetrics.three_year_cost m == 240000 /\
  ROIMetrics.three_year_benefit m == 400000 / 12 * 32 /\
  Qabs (ROIMetrics.three_year_benefit m - 1066666.67) <= 0.005 /\
  Qabs (ROIMetrics.basic_roi_percent m - 344.44) <= 0.005 /\
  exists p, ROIMetrics.payback_months m = Fin p /\ p == 8.9.
Proof.
  intros Hi Hc Hb Hm Hs _ m.
  assert (Hcost : ROIMetrics.three_year_cost m == 240000).
  { subst m. cbn. rewrite Hi, Hc. reflexivity. }
  assert (Hben : ROIMetrics.three_year_benefit m == 400000 / 12 * 32).
  { subst m. cbn. unfold _calculate_total_benefit. rewrite Hm, Hs, Hb.
    reflexivity. }
  assert (Hroi : ROIMetrics.basic_roi_percent m == 3100 # 9).
  { change (ROIMetrics.basic_roi_percent m)
      with (_calculate_basic_roi (ROIMetrics.three_year_benefit m)
                                 (ROIMetrics.three_year_cost m)).
    unfold _calculate_basic_roi.
    destruct (Qeq_bool _ 0) eqn:Hz.
    - apply Qeq_bool_eq in Hz. exfalso. lra.
    - setoid_rewrite Hcost. setoid_rewrite Hben. reflexivity. }
  repeat split; try assumption.
  - rewrite Hben. apply Qabs_Qle_condition. split; reflexivity || (vm_compute; discriminate).
  - rewrite Hroi. apply Qabs_Qle_condition. split; vm_compute; discriminate.
  - exists (Spec.payback_months uc). split.
    + subst m. cbn. apply payback_finite. lra.
    + unfold Spec.payback_months. rewrite Hm, Hs.
      setoid_rewrite Hi. setoid_rewrite Hb. setoid_rewrite Hc. reflexivity.
Qed.

Lemma C3_witness :
  let m := calculate_metrics Sample.monthly_rate Sample.invoice_triage in
  ROIMetrics.three_year_cost m == 240000 /\
  ROIMetrics.three_year_benefit m == 400000 / 12 * 32 /\
  Qabs (ROIMetrics.three_year_benefit m - 1066666.67) <= 0.005 /\
  Qabs (ROIMetrics.basic_roi_percent m - 344.44) <= 0.005 /\
  exists p, ROIMetrics.payback_months m = Fin p /\ p == 8.9.
Proof.
  apply (C3_end_to_end_metrics Sample.monthly_rate Sample.invoice_triage); reflexivity.
Defined.

(** ** The payback on doubles *)





(** C7. With everything else fixed, a larger annual benefit never gives a
    smaller NPV and a larger initial cost never gives a larger one, the
    rounding to two decimals included. *)
Theorem C7_npv_monotone (monthly_rate : Q) (uc : AIUseCase.t) (v : Q) :
  -1 < monthly_rate ->
  (AIUseCase.annual_benefit uc <= v ->
   Spec.npv_of monthly_rate uc
   <= Spec.npv_of monthly_rate (AIUseCase.with_annual_benefit uc v)) /\
  (AIUseCase.initial_cost uc <= v ->
   Spec.npv_of monthly_rate (AIUseCase.with_initial_cost uc v)
   <= Spec.npv_of monthly_rate uc).
Proof.
  intros Hrate. split; intros Hv.
  - apply npv_of_mono; cbn; try reflexivity; lra.
  - apply npv_of_mono; cbn; try reflexivity; lra.
Qed.

Lemma C7_witness :
  -1 < Sample.monthly_rate /\
  Spec.npv_of Sample.monthly_rate Sample.invoice_triage
  <= Spec.npv_of Sample.monthly_rate
       (AIUseCase.with_annual_benefit Sample.invoice_triage 500000) /\
  Spec.npv_of Sample.monthly_rate
    (AIUseCase.with_initial_cost Sample.invoice_triage 500000)
  <= Spec.npv_of Sample.monthly_rate Sample.invoice_triage.
Proof.
  assert (Hrate : -1 < Sample.monthly_rate) by reflexivity.
  split; [exact Hrate |].
  destruct (C7_npv_monotone Sample.monthly_rate Sample.invoice_triage 500000
              Hrate) as [Hb Hi].
  split; [apply Hb | apply Hi]; vm_compute; discriminate.
Defined.

End ROICalculatorFacts.

(** * The quadrant table *)

Module QuadrantFacts.
Import PortfolioOptimizer.

(** C4. For each of the nine pairs of an impact level and an effort level
    the quadrant lookup returns the label and the rank of the canonical
    table, and nothing but the pair enters the result. *)
Theorem C4_quadrant_table (impact : ImpactLevel.t) (effort : EffortLevel.t) :
  (_get_quadrant (ImpactLevel.value impact) (EffortLevel.value effort)).1
  = Spec.quadrant_table impact effort.
Proof. destruct impact, effort; reflexivity. Qed.

Lemma quadrants_dom (impact effort : string) :
  is_Some (QUADRANTS !! (impact, effort)) <->
  (impact = "High" \/ impact = "Medium" \/ impact = "Low") /\
  (effort = "Low" \/ effort = "Medium" \/ effort = "High").
Proof.
  unfold QUADRANTS. cbn [list_to_map foldr ImpactLevel.value EffortLevel.value
                         fst snd curry].
  split.
  - intros [v Hv].
    repeat (rewrite lookup_insert in Hv;
            destruct (decide _) as [[= <- <-] | _]; [split; auto |]).
    by rewrite lookup_empty in Hv.
  - intros [[-> | [-> | ->]] [-> | [-> | ->]]]; eexists; reflexivity.
Qed.

(** C5, as the code has it. For a pair that is not a key of the table the
    lookup raises nothing: it returns the quadrant named Unknown, of rank
    3. *)
Theorem C5_unknown_key_default (impact effort : string) :
  QUADRANTS !! (impact, effort) = None ->
  _get_quadrant impact effort = ("Unknown", 3, "❓").
Proof. intros Hnone. unfold _get_quadrant. by rewrite Hnone. Qed.

Lemma C5_witness :
  QUADRANTS !! ("Critical", "Low") = None /\
  _get_quadrant "Critical" "Low" = ("Unknown", 3, "❓").
Proof.
  assert (Hnone : QUADRANTS !! ("Critical", "Low") = None) by reflexivity.
  split; [exact Hnone | exact (C5_unknown_key_default _ _ Hnone)].
Defined.

(** C5, as stated, fails: the level Critical is not in the table, and the
    lookup on it returns a quadrant, the default one, where the claim has
    it fail. *)
Lemma C5_counterexample :
  QUADRANTS !! ("Critical", "Low") = None /\
  exists quadrant, _get_quadrant "Critical" "Low" = quadrant
                   /\ quadrant.1.1 = "Unknown".
Proof. split; [reflexivity |]. eexists. split; reflexivity. Qed.

End QuadrantFacts.

(** * The portfolio selector *)

Module SelectionFacts.
Import PortfolioOptimizer Selection.
#[local] Open Scope Q_scope.

Lemma truthy_float_spec (o : option Q) :
  truthy_float o = true <-> exists x, o = Some x /\ ~ x == 0.
Proof.
  destruct o as [x |]; simpl.
  - rewrite negb_true_iff, <- not_true_iff_false, Qeq_bool_iff.
    split; [eauto | by intros (? & [= <-] & ?)].
  - split; [discriminate | by intros (? & ? & ?)].
Qed.

Lemma truthy_int_spec (o : option Z) :
  truthy_int o = true <-> exists n, o = Some n /\ n <> 0%Z.
Proof.
  destruct o as [n |]; simpl.
  - rewrite negb_true_iff, Z.eqb_neq.
    split; [eauto | by intros (? & [= <-] & ?)].
  - split; [discriminate | by intros (? & ? & ?)].
Qed.

Lemma select_item_turn (self : PortfolioOptimizer.t) (n : Z) (c : Q)
    (item : PortfolioItem.t) :
  turn self n c item (select_item self n c item).
Proof.
  unfold select_item.
  destruct (Qltb _ (min_roi_threshold self)) eqn:Hroi.
  { apply turn_threshold; try reflexivity.
    apply Qltb_lt in Hroi. unfold meets_threshold. lra. }
  apply Qltb_ge in Hroi.
  change (AIUseCase.initial_cost (PortfolioItem.use_case item)
          + AIUseCase.annual_cost (PortfolioItem.use_case item) * 3)
    with (project_cost item).
  destruct (truthy_float (budget_constraint self)) eqn:Hb; simpl andb.
  - pose proof Hb as (b & Hsome & Hnz)%truthy_float_spec.
    rewrite Hsome. simpl default.
    destruct (Qltb b (c + project_cost item)) eqn:Hover.
    { apply Qltb_lt in Hover. by eapply turn_budget. }
    apply Qltb_ge in Hover.
    assert (Hbudget : forall budget, Some b = Some budget -> ~ budget == 0 ->
                        c + project_cost item <= budget)
      by (by intros ? [= <-] _).
    rewrite <- Hsome in Hbudget.
    destruct (truthy_int (max_projects self)) eqn:Hm; simpl andb.
    + pose proof Hm as (m & Hmsome & Hmnz)%truthy_int_spec.
      rewrite Hmsome. simpl default.
      destruct (m <=? n)%Z eqn:Hfull.
      * apply Z.leb_le in Hfull. by eapply turn_max.
      * apply Z.leb_gt in Hfull. apply turn_select; try done.
        intros ? ? _. by simplify_eq.
    + apply turn_select; try done.
      intros limit Hl Hlz.
      assert (truthy_int (max_projects self) = true)
        by (apply truthy_int_spec; eauto).
      congruence.
  - assert (Hbudget : forall budget, budget_constraint self = Some budget ->
                        ~ budget == 0 -> c + project_cost item <= budget).
    { intros budget Hsome Hnz.
      assert (truthy_float (budget_constraint self) = true)
        by (apply truthy_float_spec; eauto).
      congruence. }
    destruct (truthy_int (max_projects self)) eqn:Hm; simpl andb.
    + pose proof Hm as (m & Hmsome & Hmnz)%truthy_int_spec.
      rewrite Hmsome. simpl default.
      destruct (m <=? n)%Z eqn:Hfull.
      * apply Z.leb_le in Hfull. by eapply turn_max.
      * apply Z.leb_gt in Hfull. apply turn_select; try done.
        intros ? ? _. by simplify_eq.
    + apply turn_select; try done.
      intros limit Hl Hlz.
      assert (truthy_int (max_projects self) = true)
        by (apply truthy_int_spec; eauto).
      congruence.
Qed.


Lemma selection_loop_cons (self : PortfolioOptimizer.t)
    (item : PortfolioItem.t) (rest : list PortfolioItem.t) (n : Z) (c : Q) :
  selection_loop self (item :: rest) n c
  = let '(item', n1, c1) := select_item self n c item in
    let '(rest', n2, c2) := selection_loop self rest n1 c1 in
    (item' :: rest', n2, c2).
Proof. reflexivity. Qed.

Lemma selection_loop_app (self : PortfolioOptimizer.t)
    (l1 l2 : list PortfolioItem.t) :
  forall (n : Z) (c : Q),
    selection_loop self (l1 ++ l2) n c
    = let '(o1, n1, c1) := selection_loop self l1 n c in
      let '(o2, n2, c2) := selection_loop self l2 n1 c1 in
      (o1 ++ o2, n2, c2).
Proof.
  induction l1 as [| item l1 IH]; intros n c.
  - simpl. by destruct (selection_loop self l2 n c) as [[? ?] ?].
  - rewrite <- app_comm_cons, !selection_loop_cons.
    destruct (select_item self n c item) as [[item' n1] c1].
    rewrite IH.
    destruct (selection_loop self l1 n1 c1) as [[o1 n2] c2].
    by destruct (selection_loop self l2 n2 c2) as [[o2 n3] c3].
Qed.

Lemma selection_loop_length (self : PortfolioOptimizer.t)
    (items : list PortfolioItem.t) :
  forall (n : Z) (c : Q),
    length (selection_loop self items n c).1.1 = length items.
Proof.
  induction items as [| item rest IH]; intros n c; [reflexivity |].
  rewrite selection_loop_cons.
  destruct (select_item self n c item) as [[item' n1] c1].
  specialize (IH n1 c1).
  destruct (selection_loop self rest n1 c1) as [[rest' n2] c2].
  simpl in *. by rewrite IH.
Qed.

(** The counters are the cost and the number of the items that the loop
    has marked, and they stay within a limit that they start within. *)
Lemma selection_loop_counters (self : PortfolioOptimizer.t)
    (items : list PortfolioItem.t) :
  unselected items ->
  forall (n : Z) (c : Q),
    let '(out, n', c') := selection_loop self items n c in
    c' == c + selected_cost out /\
    n' = (n + selected_count out)%Z /\
    (forall budget, budget_constraint self = Some budget -> 0 < budget ->
                    c <= budget -> c' <= budget) /\
    (forall limit, max_projects self = Some limit -> (0 < limit)%Z ->
                   (n <= limit)%Z -> (n' <= limit)%Z).
Proof.
  induction 1 as [| item rest Hitem _ IH]; intros n c.
  - simpl. repeat split; try lra; try lia; auto.
  - rewrite selection_loop_cons.
    pose proof (select_item_turn self n c item) as Hturn.
    destruct (select_item self n c item) as [[item' n1] c1].
    specialize (IH n1 c1).
    destruct (selection_loop self rest n1 c1) as [[rest' n2] c2].
    destruct IH as (Hc & Hn & Hb & Hm). simpl.
    inversion Hturn as
      [? _ Hsel _ _ | ? ? _ _ _ _ Hsel _ _ | ? ? _ _ _ _ _ Hsel _ _
       | ? _ Hbudget Hmax Hsel Huc _]; subst.
    1-3: rewrite Hsel, Hitem; repeat split; auto.
    rewrite Hsel.
    assert (Hcost : project_cost item' == project_cost item)
      by (unfold project_cost; by rewrite Huc).
    repeat split.
    + lra.
    + lia.
    + intros budget Hsome Hpos Hle. apply (Hb budget Hsome Hpos).
      apply Hbudget; [done | lra].
    + intros limit Hsome Hpos Hle. apply (Hm limit Hsome Hpos).
      specialize (Hmax limit Hsome). lia.
Qed.

(** The item at the place of [item], with [pre] before it, is what the
    turn taken from the counters after [pre] leaves. *)
Lemma apply_selection_at (self : PortfolioOptimizer.t)
    (pre post : list PortfolioItem.t) (item : PortfolioItem.t) :
  let '(n, c) := counters_after self pre in
  let '(item', n', c') := select_item self n c item in
  _apply_selection self (pre ++ item :: post) !! length pre = Some item' /\
  counters_after self (pre ++ [item]) = (n', c').
Proof.
  unfold counters_after, _apply_selection.
  rewrite !selection_loop_app.
  pose proof (selection_loop_length self pre 0%Z 0) as Hlen.
  destruct (selection_loop self pre 0%Z 0) as [[pre' n] c].
  rewrite selection_loop_cons. simpl selection_loop at 2.
  destruct (select_item self n c item) as [[item' n1] c1].
  destruct (selection_loop self post n1 c1) as [[post' n2] c2].
  simpl in *. split; [| reflexivity].
  rewrite <- Hlen. by rewrite list_lookup_middle.
Qed.


(** A turn changes nothing of an item but its mark and its rationale. *)
Lemma select_item_keeps (self : PortfolioOptimizer.t) (n : Z) (c : Q)
    (item : PortfolioItem.t) :
  let item' := (select_item self n c item).1.1 in
  PortfolioItem.use_case item' = PortfolioItem.use_case item /\
  PortfolioItem.roi_metrics item' = PortfolioItem.roi_metrics item /\
  PortfolioItem.priority_score item' = PortfolioItem.priority_score item /\
  PortfolioItem.quadrant item' = PortfolioItem.quadrant item.
Proof.
  unfold select_item.
  destruct (Qltb _ (min_roi_threshold self)); [done |].
  destruct (truthy_float _ && _); [done |].
  by destruct (truthy_int _ && _).
Qed.

(** The selector never selects an item whose ROI is below the threshold. *)
Lemma selected_meet_threshold (self : PortfolioOptimizer.t)
    (items : list PortfolioItem.t) :
  unselected items ->
  Forall (fun item' => PortfolioItem.selected item' = true ->
                       meets_threshold self item')
         (_apply_selection self items).
Proof.
  intros Hun. unfold _apply_selection. generalize 0%Z 0.
  induction Hun as [| item rest Hitem _ IH]; intros n c; [constructor |].
  rewrite selection_loop_cons.
  pose proof (select_item_turn self n c item) as Hturn.
  pose proof (select_item_keeps self n c item) as (_ & Hroi & _).
  destruct (select_item self n c item) as [[item' n1] c1].
  specialize (IH n1 c1).
  destruct (selection_loop self rest n1 c1) as [[rest' n2] c2].
  simpl in *. constructor; [| exact IH].
  intros Hmark. unfold meets_threshold. rewrite Hroi.
  inversion Hturn as
    [? _ Hsel _ _ | ? ? _ _ _ _ Hsel _ _ | ? ? _ _ _ _ _ Hsel _ _
     | ? Hmeets _ _ _ _ _]; subst;
    [rewrite Hsel, Hitem in Hmark; discriminate .. |].
  exact Hmeets.
Qed.

(** [optimize] hands the selector items that are not yet selected. *)
Lemma optimize_candidates (self : PortfolioOptimizer.t)
    (use_cases : list AIUseCase.t) (metrics : list ROIMetrics.t) :
  exists items,
    optimize self use_cases metrics = _apply_selection self items /\
    unselected items.
Proof.
  unfold optimize. eexists. split; [reflexivity |].
  unfold unselected. rewrite StableSort.sort_desc_perm.
  set (metrics_map := foldl _ ∅ metrics).
  assert (Hgen : forall acc,
            Forall (fun item => PortfolioItem.selected item = false) acc ->
            Forall (fun item => PortfolioItem.selected item = false)
                   (foldl (build_turn metrics_map) acc use_cases));
    [| by apply Hgen].
  induction use_cases as [| uc rest IH]; intros acc Hacc; [done |].
  simpl. apply IH. unfold build_turn.
  destruct (metrics_map !! AIUseCase.id uc); [| done].
  apply Forall_app. split; [done |]. by apply Forall_singleton.
Qed.

(** The portfolio that [optimize] returns stays within a positive budget
    and within a positive number of projects. *)
Lemma optimize_within_limits (self : PortfolioOptimizer.t)
    (use_cases : list AIUseCase.t) (metrics : list ROIMetrics.t) :
  (forall budget, budget_constraint self = Some budget -> 0 < budget ->
     selected_cost (optimize self use_cases metrics) <= budget) /\
  (forall limit, max_projects self = Some limit -> (0 < limit)%Z ->
     (selected_count (optimize self use_cases metrics) <= limit)%Z).
Proof.
  destruct (optimize_candidates self use_cases metrics)
    as (items & -> & Hun).
  unfold _apply_selection.
  pose proof (selection_loop_counters self items Hun 0%Z 0) as Hinv.
  destruct (selection_loop self items 0%Z 0) as [[out n] c].
  destruct Hinv as (Hc & Hn & Hb & Hm). simpl. split.
  - intros budget Hsome Hpos. specialize (Hb budget Hsome Hpos). lra.
  - intros limit Hsome Hpos. specialize (Hm limit Hsome Hpos). lia.
Qed.

(** With a positive budget limit the cost of the items that the selector
    marks selected, summed, never exceeds the limit; and an item that
    passes the ROI test and whose cost would take the running total over
    the limit is rejected with the budget rationale and leaves the
    counters as they were. *)
Lemma positive_budget_respected (self : PortfolioOptimizer.t)
    (items : list PortfolioItem.t) (budget : Q) :
  budget_constraint self = Some budget -> 0 < budget ->
  unselected items ->
  selected_cost (_apply_selection self items) <= budget /\
  forall pre item post,
    items = pre ++ item :: post ->
    meets_threshold self item ->
    budget < (counters_after self pre).2 + project_cost item ->
    exists item',
      _apply_selection self items !! length pre = Some item' /\
      PortfolioItem.selected item' = false /\
      PortfolioItem.selection_rationale item'
      = PortfolioItem.ExceedsBudget budget /\
      counters_after self (pre ++ [item]) = counters_after self pre.
Proof.
  intros Hsome Hpos Hun. split.
  - unfold _apply_selection.
    pose proof (selection_loop_counters self items Hun 0%Z 0) as Hinv.
    destruct (selection_loop self items 0%Z 0) as [[out n] c].
    destruct Hinv as (Hc & _ & Hb & _). simpl.
    specialize (Hb budget Hsome Hpos). lra.
  - intros pre item post -> Hroi Hover.
    pose proof (apply_selection_at self pre post item) as Hat.
    destruct (counters_after self pre) as [n c] eqn:Hpre.
    pose proof (select_item_turn self n c item) as Hturn.
    destruct (select_item self n c item) as [[item' n1] c1].
    destruct Hat as [Hlook Hafter]. exists item'.
    assert (Hitem : PortfolioItem.selected item = false).
    { apply Forall_app in Hun as [_ Hun]. by inversion Hun. }
    simpl in Hover.
    inversion Hturn as
      [? Hno _ _ _ | ? b _ Hb _ _ Hsel _ Hrat | ? ? _ Hbudget _ _ _ _ _ _
       | ? _ Hbudget _ _ _ _]; subst.
    + contradiction.
    + rewrite Hsome in Hb. injection Hb as <-.
      rewrite Hsel, Hrat. by rewrite Hafter.
    + exfalso. specialize (Hbudget budget Hsome). lra.
    + exfalso. specialize (Hbudget budget Hsome). lra.
Qed.

(** A budget of zero is a budget that is not set: the guard
    [if self.budget_constraint and ...] reads the limit by its truth
    value, so the selector goes through the items as it does without a
    budget. *)
Lemma zero_budget_is_no_budget (self : PortfolioOptimizer.t) (budget : Q)
    (items : list PortfolioItem.t) :
  budget_constraint self = Some budget -> budget == 0 ->
  forall (n : Z) (c : Q),
    selection_loop self items n c
    = selection_loop
        {| budget_constraint := None;
           max_projects := max_projects self;
           min_roi_threshold := min_roi_threshold self |}
        items n c.
Proof.
  intros Hsome Hzero.
  induction items as [| item rest IH]; intros n c; [done |].
  rewrite !selection_loop_cons.
  assert (Hturn : select_item self n c item
                  = select_item
                      {| budget_constraint := None;
                         max_projects := max_projects self;
                         min_roi_threshold := min_roi_threshold self |}
                      n c item).
  { unfold select_item. rewrite Hsome. cbn [truthy_float default
      budget_constraint max_projects min_roi_threshold].
    apply Qeq_bool_iff in Hzero. by rewrite Hzero. }
  rewrite Hturn. clear Hturn.
  destruct (select_item _ n c item) as [[item' n1] c1].
  by rewrite IH.
Qed.

(** C1, on the code. With the budget limit set to 0 the selector does
    not enforce it: [optimize] on the record of the end-to-end scenario,
    with the metrics computed for it, selects the record at rank 1, for
    a cost of 240000 against the limit of 0. *)
Theorem C1_zero_budget_not_enforced (monthly_rate : Q) :
  budget_constraint Sample.zero_budget = Some 0 /\
  exists item,
    optimize Sample.zero_budget [Sample.invoice_triage]
      (ROICalculator.calculate_batch monthly_rate [Sample.invoice_triage])
    = [item] /\
    PortfolioItem.selected item = true /\
    PortfolioItem.selection_rationale item
    = PortfolioItem.SelectedRank 1 (PortfolioItem.priority_score item) /\
    selected_cost [item] == 240000 /\
    ~ selected_cost [item] <= 0.
Proof.
  split; [reflexivity |]. eexists. split; [reflexivity |].
  split; [reflexivity |]. split; [reflexivity |].
  split; [reflexivity |]. intros Hle. by apply Hle.
Qed.

(** With a positive limit on the number of projects the selector marks
    at most that many items selected; once the count has reached the
    limit every further item is rejected and leaves the counters as they
    were, with the rationale of the project limit if it passes the ROI
    test and the budget test that come first. *)
Lemma positive_limit_respected (self : PortfolioOptimizer.t)
    (items : list PortfolioItem.t) (limit : Z) :
  max_projects self = Some limit -> (0 < limit)%Z ->
  unselected items ->
  (selected_count (_apply_selection self items) <= limit)%Z /\
  forall pre item post,
    items = pre ++ item :: post ->
    (counters_after self pre).1 = limit ->
    exists item',
      _apply_selection self items !! length pre = Some item' /\
      PortfolioItem.selected item' = false /\
      counters_after self (pre ++ [item]) = counters_after self pre /\
      (meets_threshold self item ->
       (forall budget, budget_constraint self = Some budget ->
          ~ budget == 0 ->
          (counters_after self pre).2 + project_cost item <= budget) ->
       PortfolioItem.selection_rationale item'
       = PortfolioItem.ExceedsMaxProjects limit).
Proof.
  intros Hsome Hpos Hun. split.
  - unfold _apply_selection.
    pose proof (selection_loop_counters self items Hun 0%Z 0) as Hinv.
    destruct (selection_loop self items 0%Z 0) as [[out n] c].
    destruct Hinv as (_ & Hn & _ & Hm). simpl.
    specialize (Hm limit Hsome Hpos). lia.
  - intros pre item post -> Hfull.
    pose proof (apply_selection_at self pre post item) as Hat.
    destruct (counters_after self pre) as [n c] eqn:Hpre.
    pose proof (select_item_turn self n c item) as Hturn.
    destruct (select_item self n c item) as [[item' n1] c1].
    destruct Hat as [Hlook Hafter]. exists item'.
    assert (Hitem : PortfolioItem.selected item = false).
    { apply Forall_app in Hun as [_ Hun]. by inversion Hun. }
    simpl in Hfull. subst n. simpl.
    inversion Hturn as
      [? Hno Hsel _ _ | ? b _ Hb Hnz Hover Hsel _ _
       | ? m _ _ Hm _ _ Hsel _ Hrat | ? _ _ Hmax _ _ _]; subst.
    + rewrite Hsel. repeat split; done.
    + rewrite Hsel. repeat split; try done. intros _ Hbudget.
      specialize (Hbudget b Hb Hnz). exfalso. simpl in Hbudget. lra.
    + rewrite Hsome in Hm. injection Hm as <-.
      rewrite Hsel. repeat split; done.
    + specialize (Hmax limit Hsome). lia.
Qed.

(** A limit of zero projects is a limit that is not set, by the same
    reading of [if self.max_projects and ...]. *)
Lemma zero_limit_is_no_limit (self : PortfolioOptimizer.t)
    (items : list PortfolioItem.t) :
  max_projects self = Some 0%Z ->
  forall (n : Z) (c : Q),
    selection_loop self items n c
    = selection_loop
        {| budget_constraint := budget_constraint self;
           max_projects := None;
           min_roi_threshold := min_roi_threshold self |}
        items n c.
Proof.
  intros Hsome.
  induction items as [| item rest IH]; intros n c; [done |].
  rewrite !selection_loop_cons.
  assert (Hturn : select_item self n c item
                  = select_item
                      {| budget_constraint := budget_constraint self;
                         max_projects := None;
                         min_roi_threshold := min_roi_threshold self |}
                      n c item).
  { unfold select_item. by rewrite Hsome. }
  rewrite Hturn. clear Hturn.
  destruct (select_item _ n c item) as [[item' n1] c1].
  by rewrite IH.
Qed.

(** C2, on the code. With the limit on the number of projects set to 0
    the selector does not enforce it: [optimize] on the record of the
    end-to-end scenario, with the metrics computed for it, selects the
    record at rank 1, one project against the limit of 0. *)
Theorem C2_zero_limit_not_enforced (monthly_rate : Q) :
  max_projects Sample.zero_projects = Some 0%Z /\
  exists item,
    optimize Sample.zero_projects [Sample.invoice_triage]
      (ROICalculator.calculate_batch monthly_rate [Sample.invoice_triage])
    = [item] /\
    PortfolioItem.selected item = true /\
    PortfolioItem.selection_rationale item
    = PortfolioItem.SelectedRank 1 (PortfolioItem.priority_score item) /\
    selected_count [item] = 1%Z /\
    ~ (selected_count [item] <= 0)%Z.
Proof.
  split; [reflexivity |]. eexists. split; [reflexivity |].
  split; [reflexivity |]. split; [reflexivity |].
  split; [reflexivity |]. cbn. lia.
Qed.

End SelectionFacts.

(** * The roadmap *)

Module RoadmapFacts.
Import RoadmapGenerator Schedule.

Lemma roadmap_turn_ok (self : RoadmapGenerator.t)
    (roadmap_items : list RoadmapItem.t) (slots : gmap TimeHorizon.t Z)
    (item : PortfolioItem.t) :
  slots_full slots ->
  exists roadmap_item slots',
    roadmap_turn self (roadmap_items, slots) item
    = Some (roadmap_items ++ [roadmap_item], slots') /\
    slots_full slots' /\
    RoadmapItem.use_case roadmap_item = PortfolioItem.use_case item /\
    RoadmapItem.roi_metrics roadmap_item = PortfolioItem.roi_metrics item.
Proof.
  intros Hfull. unfold roadmap_turn, _calculate_dates.
  destruct (Hfull (_determine_horizon self item slots)) as [n Hn].
  rewrite !Hn. simpl.
  destruct (_determine_horizon self item slots); simpl;
    (eexists _, _; split; [reflexivity |]; split; [| done];
     intros hz; rewrite lookup_insert; case_decide; eauto).
Qed.

Lemma roadmap_loop_ok (self : RoadmapGenerator.t)
    (items : list PortfolioItem.t) :
  forall (roadmap_items : list RoadmapItem.t) (slots : gmap TimeHorizon.t Z),
    slots_full slots ->
    exists added slots',
      for_each (roadmap_turn self) items (roadmap_items, slots)
      = Some (roadmap_items ++ added, slots') /\
      Forall2 (fun item r =>
                 RoadmapItem.use_case r = PortfolioItem.use_case item /\
                 RoadmapItem.roi_metrics r = PortfolioItem.roi_metrics item)
              items added.
Proof.
  induction items as [| item rest IH]; intros roadmap_items slots Hfull.
  - exists [], slots. by rewrite app_nil_r.
  - cbn [for_each].
    destruct (roadmap_turn_ok self roadmap_items slots item Hfull)
      as (r & slots1 & -> & Hfull1 & Hr).
    destruct (IH (roadmap_items ++ [r]) slots1 Hfull1)
      as (added & slots' & -> & Hall).
    exists (r :: added), slots'. rewrite <- app_assoc. split; [done |].
    by constructor.
Qed.

Lemma initial_slots_full :
  slots_full (<[TimeHorizon.YEAR_3 := 0]> (<[TimeHorizon.YEAR_1 := 0]>
             (<[TimeHorizon.Q1 := 0]> ∅))).
Proof. intros []; by eexists. Qed.

(** [generate_roadmap] always returns, with one entry for each item that
    it schedules. *)
Lemma generate_roadmap_returns (self : RoadmapGenerator.t)
    (portfolio_items : list PortfolioItem.t) (selected_only : bool) :
  exists roadmap,
    generate_roadmap self portfolio_items selected_only = Some roadmap /\
    length roadmap
    = length (if selected_only
              then filter (fun i => PortfolioItem.selected i = true)
                          portfolio_items
              else portfolio_items).
Proof.
  unfold generate_roadmap.
  set (items := sort_desc PortfolioItem.priority_score _).
  destruct (roadmap_loop_ok self items [] _ initial_slots_full)
    as (added & slots' & -> & Hall).
  exists added. split; [done |].
  rewrite <- (Forall2_length _ _ _ Hall). subst items.
  by rewrite StableSort.sort_desc_perm.
Qed.

(** C8. A selected item of low effort, two months of implementation and
    score 60 that is the first of its horizon is placed in Q1, starts on
    the start date of the roadmap, ends 60 days later and has the five
    milestones that a project of under three months has. *)
Theorem C8_quick_win_first_slot (self : RoadmapGenerator.t)
    (item : PortfolioItem.t) (slots : gmap TimeHorizon.t Z)
    (roadmap_items : list RoadmapItem.t) :
  AIUseCase.effort_level (PortfolioItem.use_case item) = EffortLevel.LOW ->
  AIUseCase.implementation_months (PortfolioItem.use_case item) = 2 ->
  (PortfolioItem.priority_score item == 60)%Q ->
  slots !! TimeHorizon.Q1 = Some 0 ->
  _determine_horizon self item slots = TimeHorizon.Q1 /\
  _calculate_dates self item TimeHorizon.Q1 slots
  = Some (start_date self, start_date self + 60) /\
  _generate_milestones self item TimeHorizon.Q1
  = ["Project Kickoff"; "Requirements Complete"; "UAT & Validation";
     "Production Deployment"; "Benefits Realization Review"] /\
  exists roadmap_item,
    roadmap_turn self (roadmap_items, slots) item
    = Some (roadmap_items ++ [roadmap_item], <[TimeHorizon.Q1 := 1]> slots) /\
    RoadmapItem.time_horizon roadmap_item = TimeHorizon.Q1 /\
    RoadmapItem.start_date roadmap_item = start_date self /\
    RoadmapItem.end_date roadmap_item = start_date self + 60 /\
    length (RoadmapItem.milestones roadmap_item) = 5%nat.
Proof.
  intros Heffort Hmonths Hscore Hslot.
  assert (Hhorizon : _determine_horizon self item slots = TimeHorizon.Q1).
  { unfold _determine_horizon. rewrite Heffort, Hmonths.
    assert (Qle_bool 50 (PortfolioItem.priority_score item) = true) as ->
      by (apply Qle_bool_iff; lra).
    reflexivity. }
  assert (Hdates : _calculate_dates self item TimeHorizon.Q1 slots
                   = Some (start_date self, start_date self + 60)).
  { unfold _calculate_dates. rewrite Hslot, Hmonths. simpl.
    f_equal. f_equal; lia. }
  assert (Hmiles : _generate_milestones self item TimeHorizon.Q1
                   = ["Project Kickoff"; "Requirements Complete";
                      "UAT & Validation"; "Production Deployment";
                      "Benefits Realization Review"]).
  { unfold _generate_milestones. by rewrite Hmonths. }
  repeat split; try assumption.
  eexists. unfold roadmap_turn. rewrite Hhorizon, Hdates, Hslot. simpl.
  split; [reflexivity |]. simpl. by rewrite Hmiles.
Qed.

Lemma C8_witness :
  _determine_horizon Sample.generator Sample.quick_win
    (<[TimeHorizon.Q1 := 0]> ∅) = TimeHorizon.Q1 /\
  _calculate_dates Sample.generator Sample.quick_win TimeHorizon.Q1
    (<[TimeHorizon.Q1 := 0]> ∅)
  = Some (start_date Sample.generator, start_date Sample.generator + 60) /\
  _generate_milestones Sample.generator Sample.quick_win TimeHorizon.Q1
  = ["Project Kickoff"; "Requirements Complete"; "UAT & Validation";
     "Production Deployment"; "Benefits Realization Review"] /\
  exists roadmap_item,
    roadmap_turn Sample.generator ([], <[TimeHorizon.Q1 := 0]> ∅)
      Sample.quick_win
    = Some ([] ++ [roadmap_item],
            <[TimeHorizon.Q1 := 1]> (<[TimeHorizon.Q1 := 0]> ∅)) /\
    RoadmapItem.time_horizon roadmap_item = TimeHorizon.Q1 /\
    RoadmapItem.start_date roadmap_item = start_date Sample.generator /\
    RoadmapItem.end_date roadmap_item = start_date Sample.generator + 60 /\
    length (RoadmapItem.milestones roadmap_item) = 5%nat.
Proof.
  apply (C8_quick_win_first_slot Sample.generator Sample.quick_win
           (<[TimeHorizon.Q1 := 0]> ∅) []); reflexivity.
Defined.

(** On two entries that name each other, [process] uses up any depth of
    recursion. *)
Lemma process_cyclic (depth : nat) (name_to_item : gmap string RoadmapItem.t) :
  name_to_item !! "A" = Some (Sample.entry "A" ["B"]) ->
  name_to_item !! "B" = Some (Sample.entry "B" ["A"]) ->
  process depth name_to_item (Sample.entry "A" ["B"]) (∅, []) = None /\
  process depth name_to_item (Sample.entry "B" ["A"]) (∅, []) = None.
Proof.
  intros HA HB. induction depth as [| depth [IHA IHB]]; [done |].
  split; cbn -[process]; cbn [process].
  - rewrite bool_decide_eq_false_2 by set_solver.
    cbn [AIUseCase.dependencies RoadmapItem.use_case Sample.entry for_each].
    rewrite HB. rewrite bool_decide_eq_false_2 by set_solver.
    by rewrite IHB.
  - rewrite bool_decide_eq_false_2 by set_solver.
    cbn [AIUseCase.dependencies RoadmapItem.use_case Sample.entry for_each].
    rewrite HA. rewrite bool_decide_eq_false_2 by set_solver.
    by rewrite IHA.
Qed.

(** C10, on the code. On the two entries A and B that name each other
    the ordering pass does not return: whatever depth of recursion the
    interpreter allows, the pass ends in the error raised when that depth
    is used up. *)
Theorem C10_cycle_exhausts_recursion (depth : nat) (self : RoadmapGenerator.t) :
  get_dependencies_order depth self Sample.cyclic = None.
Proof.
  unfold get_dependencies_order, Sample.cyclic.
  cbn [foldl for_each].
  set (name_to_item := <[_ := _]> (<[_ := _]> ∅)).
  destruct (process_cyclic depth name_to_item) as [HA _]; [done | done |].
  by rewrite HA.
Qed.

End RoadmapFacts.

(** * The pipeline on the store *)

Module StoreFacts.
Import Store StoreInv.

Lemma fresh_loc_None (h : gmap positive obj) : h !! fresh_loc h = None.
Proof.
  assert (Hbound : forall k, is_Some (h !! k) ->
            (k <= map_fold (fun k _ acc => Pos.max k acc) 1 h)%positive).
  { apply (map_fold_weak_ind
             (fun r (m : gmap positive obj) =>
                forall k, is_Some (m !! k) -> (k <= r)%positive)).
    - intros k [o Ho]. by rewrite lookup_empty in Ho.
    - intros i x m r _ IH k Hk.
      destruct (decide (i = k)) as [-> | Hne]; [lia |].
      rewrite lookup_insert_ne in Hk by done.
      specialize (IH k Hk). lia. }
  destruct (h !! fresh_loc h) eqn:Hl; [| done].
  assert (Hs : is_Some (h !! fresh_loc h)) by eauto.
  apply Hbound in Hs. unfold fresh_loc in Hs. lia.
Qed.

Lemma get_use_case_Some (h : gmap positive obj) (l : positive)
    (uc : AIUseCase.t) :
  get_use_case h l = Some uc <-> h !! l = Some (UseCaseObj uc).
Proof.
  unfold get_use_case. destruct (h !! l) as [[uc' | c] |]; naive_solver.
Qed.

Lemma get_item_Some (h : gmap positive obj) (l : positive) (c : item_cell) :
  get_item h l = Some c <-> h !! l = Some (ItemObj c).
Proof.
  unfold get_item. destruct (h !! l) as [[uc' | c'] |]; naive_solver.
Qed.

Lemma get_use_case_mono (h0 h : gmap positive obj) (l : positive)
    (uc : AIUseCase.t) :
  h0 ⊆ h -> get_use_case h0 l = Some uc -> get_use_case h l = Some uc.
Proof.
  rewrite !get_use_case_Some. intros Hsub Hl.
  by eapply lookup_weaken.
Qed.

Section Frame.

Variable h0 : gmap positive obj.
Variable use_cases : list positive.
Hypothesis use_cases_valid : Forall (is_use_case h0) use_cases.

Lemma load_ok (h : gmap positive obj) (p : positive) :
  h0 ⊆ h -> item_ok h0 use_cases h p -> is_Some (load h p).
Proof.
  intros Hsub (_ & c & Hc & Hin). unfold load.
  apply get_item_Some in Hc. rewrite Hc. simpl.
  rewrite Forall_forall in use_cases_valid.
  destruct (use_cases_valid _ Hin) as [uc Huc].
  rewrite (get_use_case_mono h0 h _ uc Hsub Huc). simpl. eauto.
Qed.

Lemma assign_ok (h : gmap positive obj) (p : positive)
    (item : PortfolioItem.t) :
  h0 ⊆ h -> item_ok h0 use_cases h p ->
  exists h', assign h p item = Some h' /\ h0 ⊆ h' /\
             forall q, item_ok h0 use_cases h q -> item_ok h0 use_cases h' q.
Proof.
  intros Hsub (Hnew & c & Hc & Hin). unfold assign.
  rewrite (proj2 (get_item_Some h p c) Hc). simpl.
  eexists. split; [reflexivity |]. split.
  - by apply insert_subseteq_r.
  - intros q (Hq & cq & Hcq & Hinq). split; [done |].
    destruct (decide (p = q)) as [<- | Hne].
    + rewrite lookup_insert_eq. eexists. split; [reflexivity |]. done.
    + rewrite lookup_insert_ne by done. eauto.
Qed.

Lemma selection_loop_ok (self : PortfolioOptimizer.t) (items : list positive) :
  forall (n : Z) (c : Q) (h : gmap positive obj),
    h0 ⊆ h -> Forall (item_ok h0 use_cases h) items ->
    exists h', selection_loop self items n c h = Some h' /\ h0 ⊆ h' /\
               forall q, item_ok h0 use_cases h q ->
                         item_ok h0 use_cases h' q.
Proof.
  induction items as [| p rest IH]; intros n c h Hsub Hall.
  - exists h. split; [done |]. split; [done | auto].
  - apply Forall_cons in Hall as [Hp Hrest]. simpl.
    destruct (load_ok h p Hsub Hp) as [item ->]. simpl.
    destruct (PortfolioOptimizer.select_item self n c item)
      as [[item' n'] c'].
    destruct (assign_ok h p item' Hsub Hp) as (h1 & -> & Hsub1 & Hkeep).
    simpl.
    destruct (IH n' c' h1 Hsub1) as (h' & Hrun & Hsub' & Hkeep').
    { eapply Forall_impl; [exact Hrest | exact Hkeep]. }
    exists h'. split; [done |]. split; [done | auto].
Qed.

Lemma build_turn_ok (metrics_map : gmap string ROIMetrics.t)
    (items : list positive) (h : gmap positive obj) (l : positive) :
  h0 ⊆ h -> l ∈ use_cases -> Forall (item_ok h0 use_cases h) items ->
  exists items' h',
    build_turn metrics_map (items, h) l = Some (items', h') /\
    h0 ⊆ h' /\ Forall (item_ok h0 use_cases h') items'.
Proof.
  intros Hsub Hin Hall. unfold build_turn.
  rewrite Forall_forall in use_cases_valid.
  destruct (use_cases_valid _ Hin) as [uc Huc].
  rewrite (get_use_case_mono h0 h _ uc Hsub Huc). simpl.
  destruct (metrics_map !! AIUseCase.id uc) as [roi_metrics |];
    [| by exists items, h].
  unfold alloc. pose proof (fresh_loc_None h) as Hfresh.
  set (p := fresh_loc h) in *.
  eexists _, _. split; [reflexivity |].
  assert (Hp0 : h0 !! p = None).
  { destruct (h0 !! p) eqn:Hp; [| done].
    by rewrite (lookup_weaken _ _ _ _ Hp Hsub) in Hfresh. }
  split; [by apply insert_subseteq_r |].
  apply Forall_app. split.
  - eapply Forall_impl; [exact Hall |].
    intros q (Hq & cq & Hcq & Hinq). split; [done |].
    exists cq. split; [| done].
    rewrite lookup_insert_ne; [done |]. intros ->. congruence.
  - apply Forall_singleton. split; [done |].
    eexists. rewrite lookup_insert_eq. split; [reflexivity | done].
Qed.

Lemma build_loop_ok (metrics_map : gmap string ROIMetrics.t)
    (todo : list positive) :
  forall (items : list positive) (h : gmap positive obj),
    h0 ⊆ h -> Forall (fun l => l ∈ use_cases) todo ->
    Forall (item_ok h0 use_cases h) items ->
    exists items' h',
      for_each (build_turn metrics_map) todo (items, h) = Some (items', h') /\
      h0 ⊆ h' /\ Forall (item_ok h0 use_cases h') items'.
Proof.
  induction todo as [| l todo IH]; intros items h Hsub Htodo Hall.
  - by exists items, h.
  - apply Forall_cons in Htodo as [Hl Htodo]. cbn [for_each].
    destruct (build_turn_ok metrics_map items h l Hsub Hl Hall)
      as (items1 & h1 & -> & Hsub1 & Hall1).
    by apply IH.
Qed.

End Frame.

(** ** The stages on the store compute what the stages on values do *)

Lemma load_Some (h : gmap positive obj) (p : positive)
    (item : PortfolioItem.t) :
  load h p = Some item <->
  exists c,
    h !! p = Some (ItemObj c) /\
    h !! use_case c = Some (UseCaseObj (PortfolioItem.use_case item)) /\
    item = {| PortfolioItem.use_case := PortfolioItem.use_case item;
              PortfolioItem.roi_metrics := roi_metrics c;
              PortfolioItem.priority_score := priority_score c;
              PortfolioItem.quadrant := quadrant c;
              PortfolioItem.selected := selected c;
              PortfolioItem.selection_rationale := selection_rationale c |}.
Proof.
  unfold load. split.
  - destruct (get_item h p) as [c |] eqn:Hc; [| done]. simpl.
    destruct (get_use_case h (use_case c)) as [uc |] eqn:Huc; [| done].
    simpl. intros [= <-]. exists c.
    by rewrite <- get_item_Some, <- get_use_case_Some.
  - intros (c & Hc & Huc & ->).
    apply get_item_Some in Hc. apply get_use_case_Some in Huc.
    rewrite Hc. simpl. by rewrite Huc.
Qed.

(** Writing the item object at [p] leaves what is read at another item
    object as it was. *)
Lemma load_insert_other (h : gmap positive obj) (p q : positive)
    (c : item_cell) (item : PortfolioItem.t) :
  p <> q -> is_Some (get_item h p) ->
  load h q = Some item -> load (<[p := ItemObj c]> h) q = Some item.
Proof.
  intros Hne [cp Hp%get_item_Some] (cq & Hq & Huc & Heq)%load_Some.
  apply load_Some. exists cq. rewrite !lookup_insert_ne; [done | | done].
  intros Habs. rewrite <- Habs in Huc. congruence.
Qed.

Lemma Forall2_elem_impl {A B} (P R : A -> B -> Prop)
    (l : list A) (k : list B) :
  Forall2 P l k -> (forall x y, x ∈ l -> P x y -> R x y) -> Forall2 R l k.
Proof.
  induction 1 as [| x y l k Hxy _ IH]; intros Himpl; constructor.
  - apply Himpl; [apply list_elem_of_here | done].
  - apply IH. intros a b Ha. apply Himpl. by apply list_elem_of_further.
Qed.

(** The loop on item objects leaves in each of them what the loop on
    values computes for it, and writes nowhere else. *)
Lemma selection_in_place (self : PortfolioOptimizer.t)
    (locs : list positive) :
  forall (items : list PortfolioItem.t) (n : Z) (c : Q)
         (h : gmap positive obj),
    NoDup locs ->
    Forall2 (fun p item => load h p = Some item) locs items ->
    exists h',
      selection_loop self locs n c h = Some h' /\
      Forall2 (fun p item => load h' p = Some item) locs
              (PortfolioOptimizer.selection_loop self items n c).1.1 /\
      (forall l, l ∉ locs -> h' !! l = h !! l).
Proof.
  induction locs as [| p rest IH]; intros items n c h Hnd Hall.
  { inversion Hall; subst. exists h. simpl. by repeat split. }
  inversion Hall as [| ? item ? items' Hitem Hrest]; subst.
  apply NoDup_cons in Hnd as [Hp Hnd].
  rewrite SelectionFacts.selection_loop_cons.
  cbn [selection_loop]. rewrite Hitem. cbn [mbind option_bind].
  pose proof (SelectionFacts.select_item_keeps self n c item)
    as (Kuc & Kroi & Kscore & Kquad).
  destruct (PortfolioOptimizer.select_item self n c item)
    as [[item' n'] c'].
  simpl in Kuc, Kroi, Kscore, Kquad.
  pose proof Hitem as (cp & Hcp & Hucp & Heq)%load_Some.
  unfold assign. rewrite (proj2 (get_item_Some h p cp) Hcp). simpl.
  set (cp' := {| use_case := use_case cp; roi_metrics := roi_metrics cp;
                 priority_score := priority_score cp;
                 quadrant := quadrant cp;
                 selected := PortfolioItem.selected item';
                 selection_rationale :=
                   PortfolioItem.selection_rationale item' |}).
  destruct (IH items' n' c' (<[p := ItemObj cp']> h) Hnd)
    as (h' & Hrun & Hloads & Hframe).
  { eapply Forall2_elem_impl; [exact Hrest |].
    intros q it Hq Hload. apply load_insert_other; [| | done].
    - intros <-. contradiction.
    - exists cp. by apply get_item_Some. }
  exists h'. split; [done |].
  destruct (PortfolioOptimizer.selection_loop self items' n' c')
    as [[rest' n2] c2].
  simpl in *. split; [constructor; [| done] |].
  - apply load_Some. exists cp'.
    assert (Hucloc : use_case cp ∉ rest).
    { intros Hin.
      destruct (list_elem_of_lookup_1 _ _ Hin) as [i Hi].
      destruct (Forall2_lookup_l _ _ _ _ _ Hrest Hi) as (it & _ & Hit).
      apply load_Some in Hit as (cq & Hcq & _). congruence. }
    assert (Hne : p <> use_case cp) by (intros Habs; congruence).
    rewrite !Hframe by done.
    rewrite lookup_insert_eq, lookup_insert_ne by done.
    split; [done |]. split; [by rewrite Kuc |].
    rewrite Heq in Kroi, Kscore, Kquad. simpl in Kroi, Kscore, Kquad.
    destruct item'. simpl in *. by subst.
  - intros l Hl. apply not_elem_of_cons in Hl as [Hne Hl].
    rewrite Hframe by done. by rewrite lookup_insert_ne.
Qed.

Lemma load_mono (h h' : gmap positive obj) (p : positive)
    (item : PortfolioItem.t) :
  h ⊆ h' -> load h p = Some item -> load h' p = Some item.
Proof.
  intros Hsub (c & Hc & Huc & Heq)%load_Some. apply load_Some. exists c.
  split; [by eapply lookup_weaken |]. split; [by eapply lookup_weaken | done].
Qed.

Lemma load_score (h : gmap positive obj) (p : positive)
    (item : PortfolioItem.t) :
  load h p = Some item -> score_at h p = PortfolioItem.priority_score item.
Proof.
  intros (c & Hc & _ & ->)%load_Some. unfold score_at.
  by rewrite (proj2 (get_item_Some h p c) Hc).
Qed.

(** The loop that makes the item objects makes, in order, the items that
    the loop on values builds. *)
Lemma build_in_place (metrics_map : gmap string ROIMetrics.t)
    (todo : list positive) :
  forall (ucs : list AIUseCase.t) (locs : list positive)
         (items : list PortfolioItem.t) (h : gmap positive obj),
    Forall2 (fun l uc => get_use_case h l = Some uc) todo ucs ->
    Forall2 (fun p item => load h p = Some item) locs items ->
    NoDup locs ->
    exists locs' h',
      for_each (build_turn metrics_map) todo (locs, h) = Some (locs', h') /\
      Forall2 (fun p item => load h' p = Some item) locs'
              (foldl (PortfolioOptimizer.build_turn metrics_map) items ucs) /\
      NoDup locs' /\ h ⊆ h'.
Proof.
  induction todo as [| l todo IH]; intros ucs locs items h Hucs Hall Hnd.
  { inversion Hucs; subst. by exists locs, h. }
  inversion Hucs as [| ? uc ? ucs' Hl Hrest]; subst.
  cbn [for_each foldl]. unfold build_turn at 1. rewrite Hl.
  cbn [mbind option_bind]. unfold PortfolioOptimizer.build_turn at 2.
  destruct (metrics_map !! AIUseCase.id uc) as [roi_metrics |].
  { unfold alloc. pose proof (fresh_loc_None h) as Hfresh.
    set (p := fresh_loc h) in *.
    match goal with |- context [<[p := ?o]> h] => set (cell := o) end.
    assert (Hsub : h ⊆ <[p := cell]> h) by by apply insert_subseteq.
    destruct (IH ucs' (locs ++ [p])
                (items ++ [ {| PortfolioItem.use_case := uc;
                     PortfolioItem.roi_metrics := roi_metrics;
                     PortfolioItem.priority_score :=
                       PortfolioOptimizer._calculate_priority_score
                         uc roi_metrics;
                     PortfolioItem.quadrant :=
                       (PortfolioOptimizer._get_quadrant
                          (ImpactLevel.value (AIUseCase.impact_level uc))
                          (EffortLevel.value (AIUseCase.effort_level uc))).1.1;
                     PortfolioItem.selected := false;
                     PortfolioItem.selection_rationale :=
                       PortfolioItem.NoRationale |} ])
                (<[p := cell]> h))
      as (locs' & h' & Hrun & Hloads & Hnd' & Hsub').
    - eapply Forall2_impl; [exact Hrest |].
      intros q ucq Hq. by eapply get_use_case_mono.
    - apply Forall2_app.
      + eapply Forall2_impl; [exact Hall |].
        intros q it Hq. by eapply load_mono.
      + constructor; [| constructor]. apply load_Some. eexists.
        rewrite lookup_insert_eq. split; [reflexivity |]. simpl.
        apply get_use_case_Some in Hl.
        rewrite lookup_insert_ne by (intros ->; congruence).
        by split.
    - apply NoDup_app. split; [done |]. split; [| apply NoDup_singleton].
      intros q Hq ->%list_elem_of_singleton.
      destruct (list_elem_of_lookup_1 _ _ Hq) as [i Hi].
      destruct (Forall2_lookup_l _ _ _ _ _ Hall Hi) as (it & _ & Hit).
      apply load_Some in Hit as (cq & Hcq & _). congruence.
    - exists locs', h'. split; [done |]. split; [done |].
      split; [done | by etrans]. }
  by apply IH.
Qed.

Lemma filter_Forall2 {A B} (R : A -> B -> Prop) (P : A -> Prop)
    (S : B -> Prop) `{!forall x, Decision (P x)} `{!forall y, Decision (S y)}
    (l : list A) (k : list B) :
  (forall x y, R x y -> (P x <-> S y)) ->
  Forall2 R l k -> Forall2 R (filter P l) (filter S k).
Proof.
  intros Hagree. induction 1 as [| x y l k Hxy _ IH]; [constructor |].
  rewrite !filter_cons. specialize (Hagree x y Hxy).
  destruct (decide (P x)), (decide (S y)); try tauto. by constructor.
Qed.

(** [optimize] on the store leaves in the item objects, in order, the
    items that [optimize] on values returns. *)
Lemma optimize_in_place (self : PortfolioOptimizer.t)
    (use_cases : list positive) (ucs : list AIUseCase.t)
    (metrics : list ROIMetrics.t) (h : gmap positive obj) :
  Forall2 (fun l uc => get_use_case h l = Some uc) use_cases ucs ->
  exists items h',
    optimize self use_cases metrics h = Some (items, h') /\
    Forall2 (fun p item => load h' p = Some item) items
            (PortfolioOptimizer.optimize self ucs metrics).
Proof.
  intros Hucs. unfold optimize, PortfolioOptimizer.optimize.
  set (metrics_map := foldl _ ∅ metrics).
  destruct (build_in_place metrics_map use_cases ucs [] [] h Hucs)
    as (built & h1 & -> & Hbuilt & Hnd & _); [constructor | constructor |].
  cbn [mbind option_bind]. unfold _apply_selection.
  destruct (selection_in_place self (sort_desc (score_at h1) built)
              (sort_desc PortfolioItem.priority_score
                 (foldl (PortfolioOptimizer.build_turn metrics_map) [] ucs))
              0 0%Q h1) as (h' & -> & Hloads & _).
  - by rewrite StableSort.sort_desc_perm.
  - apply StableSort.sort_desc_Forall2; [| done].
    intros p item. apply load_score.
  - simpl. by eexists _, _.
Qed.

(** [generate_roadmap] on the store returns the roadmap that
    [generate_roadmap] on values returns, each entry with its reference. *)
Lemma generate_roadmap_in_place (self : RoadmapGenerator.t)
    (locs : list positive) (items : list PortfolioItem.t)
    (selected_only : bool) (h : gmap positive obj) :
  Forall2 (fun p item => load h p = Some item) locs items ->
  exists refs roadmap,
    generate_roadmap self locs selected_only h = Some (zip refs roadmap) /\
    RoadmapGenerator.generate_roadmap self items selected_only
    = Some roadmap /\
    length refs = length roadmap.
Proof.
  intros Hall. unfold generate_roadmap, RoadmapGenerator.generate_roadmap.
  set (chosen := sort_desc (score_at h) _).
  set (chosen_items := sort_desc PortfolioItem.priority_score _).
  assert (Hchosen : Forall2 (fun p item => load h p = Some item)
                            chosen chosen_items).
  { subst chosen chosen_items.
    apply StableSort.sort_desc_Forall2; [intros p item; apply load_score |].
    destruct selected_only; [| done].
    apply filter_Forall2; [| done].
    intros p item (c & Hc & _ & ->)%load_Some. simpl.
    rewrite (proj2 (get_item_Some h p c) Hc). simpl.
    split; [by intros [= ->] | by intros ->]. }
  assert (Hrefs : is_Some (mapM (fun l => use_case <$> get_item h l) chosen)).
  { apply mapM_is_Some. apply Forall_forall. intros p Hp.
    destruct (list_elem_of_lookup_1 _ _ Hp) as [i Hi].
    destruct (Forall2_lookup_l _ _ _ _ _ Hchosen Hi) as (it & _ & Hit).
    apply load_Some in Hit as (c & Hc & _). simpl.
    rewrite (proj2 (get_item_Some h p c) Hc). by eexists. }
  destruct Hrefs as [refs Hrefs]. rewrite Hrefs.
  rewrite (mapM_Some_2 _ _ _ Hchosen). cbn [mbind option_bind].
  destruct (RoadmapFacts.roadmap_loop_ok self chosen_items [] _
              RoadmapFacts.initial_slots_full)
    as (added & slots' & -> & Hadded).
  simpl. exists refs, added. split; [done |]. split; [done |].
  rewrite <- (length_mapM _ _ _ Hrefs).
  rewrite (Forall2_length _ _ _ Hchosen). by eapply Forall2_length.
Qed.

(** The pipeline on the store computes what the stages on values
    compute on the records that the store holds. *)
Lemma pipeline_in_place (monthly_rate : Q) (optimizer : PortfolioOptimizer.t)
    (generator : RoadmapGenerator.t) (use_cases : list positive)
    (ucs : list AIUseCase.t) (h : gmap positive obj) :
  Forall2 (fun l uc => get_use_case h l = Some uc) use_cases ucs ->
  let metrics := ROICalculator.calculate_batch monthly_rate ucs in
  let portfolio := PortfolioOptimizer.optimize optimizer ucs metrics in
  exists items refs roadmap h',
    pipeline monthly_rate optimizer generator use_cases h
    = Some (metrics, items, zip refs roadmap, h') /\
    Forall2 (fun p item => load h' p = Some item) items portfolio /\
    RoadmapGenerator.generate_roadmap generator portfolio true
    = Some roadmap /\
    length refs = length roadmap.
Proof.
  intros Hucs metrics portfolio. unfold pipeline.
  assert (Hbatch : calculate_batch monthly_rate use_cases h = Some metrics).
  { apply mapM_Some. subst metrics. unfold ROICalculator.calculate_batch.
    apply Forall2_fmap_r. eapply Forall2_impl; [exact Hucs |].
    intros l uc Hl. simpl. by rewrite Hl. }
  rewrite Hbatch. cbn [mbind option_bind].
  destruct (optimize_in_place optimizer use_cases ucs metrics h Hucs)
    as (items & h' & -> & Hitems).
  cbn [mbind option_bind].
  destruct (generate_roadmap_in_place generator items portfolio true h'
              Hitems) as (refs & roadmap & -> & Hroadmap & Hlen).
  simpl. by exists items, refs, roadmap, h'.
Qed.

Lemma zip_related {A B C D} (F : A -> option B) (G : A -> option C)
    (R : C -> D -> Prop) (ps : list A) :
  forall (refs : list B) (loaded : list C) (rs : list D),
    Forall2 (fun p ref => F p = Some ref) ps refs ->
    Forall2 (fun p item => G p = Some item) ps loaded ->
    Forall2 R loaded rs ->
    Forall (fun r => exists p item,
                p ∈ ps /\ F p = Some r.1 /\ G p = Some item /\ R item r.2)
           (zip refs rs).
Proof.
  induction ps as [| p ps IH]; intros refs loaded rs Hrefs Hloaded Hrs.
  - inversion Hrefs; subst. constructor.
  - inversion Hrefs as [| ? ref ? refs' Hp Hrefs']; subst.
    inversion Hloaded as [| ? item ? loaded' Hitem Hloaded']; subst.
    inversion Hrs as [| ? r ? rs' Hr Hrs']; subst.
    simpl. constructor.
    + exists p, item. repeat split; try done. apply list_elem_of_here.
    + eapply Forall_impl; [by eapply IH |].
      intros x (q & it & Hq & ?). exists q, it. split; [| done].
      by apply list_elem_of_further.
Qed.

Lemma generate_roadmap_ok (h0 h : gmap positive obj)
    (use_cases items : list positive) (self : RoadmapGenerator.t)
    (selected_only : bool) :
  Forall (is_use_case h0) use_cases ->
  h0 ⊆ h -> Forall (item_ok h0 use_cases h) items ->
  exists roadmap,
    generate_roadmap self items selected_only h = Some roadmap /\
    Forall (fun r => r.1 ∈ use_cases /\
                     get_use_case h0 r.1 = Some (RoadmapItem.use_case r.2))
           roadmap.
Proof.
  intros Hvalid Hsub Hall. unfold generate_roadmap.
  set (chosen := sort_desc (score_at h) _).
  assert (Hchosen : Forall (item_ok h0 use_cases h) chosen).
  { subst chosen. rewrite StableSort.sort_desc_perm.
    destruct selected_only; [| done].
    apply Forall_forall. intros x [_ Hx]%list_elem_of_filter.
    rewrite Forall_forall in Hall. by apply Hall. }
  assert (Hrefs : is_Some (mapM (fun l => use_case <$> get_item h l) chosen)).
  { apply mapM_is_Some. eapply Forall_impl; [exact Hchosen |].
    intros p (_ & c & Hc & _). simpl.
    rewrite (proj2 (get_item_Some h p c) Hc). by eexists. }
  destruct Hrefs as [refs Hrefs]. rewrite Hrefs. simpl.
  assert (Hloaded : is_Some (mapM (load h) chosen)).
  { apply mapM_is_Some. eapply Forall_impl; [exact Hchosen |].
    intros p Hp. by eapply load_ok. }
  destruct Hloaded as [loaded Hloaded]. rewrite Hloaded. simpl.
  destruct (RoadmapFacts.roadmap_loop_ok self loaded [] _
              RoadmapFacts.initial_slots_full)
    as (added & slots' & -> & Hadded).
  simpl. eexists. split; [reflexivity |].
  apply mapM_Some in Hrefs. apply mapM_Some in Hloaded.
  eapply Forall_impl;
    [exact (zip_related _ _ _ chosen refs loaded added Hrefs Hloaded Hadded) |].
  intros r (p & item & Hp & Href & Hitem & Huc & _).
  rewrite Forall_forall in Hchosen.
  destruct (Hchosen p Hp) as (_ & c & Hc & Hin).
  apply get_item_Some in Hc. rewrite Hc in Href. simpl in Href.
  injection Href as Hr1. rewrite <- Hr1. split; [done |].
  unfold load in Hitem. rewrite Hc in Hitem. simpl in Hitem.
  rewrite Forall_forall in Hvalid.
  destruct (Hvalid _ Hin) as [uc Huc0].
  rewrite (get_use_case_mono h0 h _ uc Hsub Huc0) in Hitem. simpl in Hitem.
  injection Hitem as <-. by rewrite Huc.
Qed.

(** C9. The three stages run on any store whose use case objects are
    where [use_cases] says, and they leave every object of that store,
    hence every field of every input record, as it was: what they make
    are new objects.  The metrics are those of the records, in order; each
    item object is new and refers to one of the input records; each
    roadmap item refers to one of the input records and reads it as it
    was on entry. *)
Theorem C9_records_not_mutated (monthly_rate : Q)
    (optimizer : PortfolioOptimizer.t) (generator : RoadmapGenerator.t)
    (use_cases : list positive) (h : gmap positive obj) :
  Forall (fun l => is_Some (get_use_case h l)) use_cases ->
  exists metrics portfolio_items roadmap_items h',
    pipeline monthly_rate optimizer generator use_cases h
    = Some (metrics, portfolio_items, roadmap_items, h') /\
    (forall l o, h !! l = Some o -> h' !! l = Some o) /\
    Forall2 (fun l m =>
               exists uc, get_use_case h l = Some uc /\
                 m = ROICalculator.calculate_metrics monthly_rate uc)
            use_cases metrics /\
    Forall (fun p =>
              h !! p = None /\
              exists c, get_item h' p = Some c /\ use_case c ∈ use_cases)
           portfolio_items /\
    Forall (fun r =>
              r.1 ∈ use_cases /\
              get_use_case h r.1 = Some (RoadmapItem.use_case r.2) /\
              get_use_case h' r.1 = Some (RoadmapItem.use_case r.2))
           roadmap_items.
Proof.
  intros Hvalid. unfold pipeline.
  assert (Hmetrics : is_Some (calculate_batch monthly_rate use_cases h)).
  { apply mapM_is_Some. eapply Forall_impl; [exact Hvalid |].
    intros l [uc Huc]. simpl. rewrite Huc. by eexists. }
  destruct Hmetrics as [metrics Hmetrics]. rewrite Hmetrics. simpl.
  unfold optimize.
  set (metrics_map := foldl _ ∅ metrics).
  destruct (build_loop_ok h use_cases Hvalid metrics_map use_cases [] h)
    as (built & h1 & -> & Hsub1 & Hbuilt); [done | | done |].
  { by apply Forall_forall. }
  simpl. unfold _apply_selection.
  set (sorted := sort_desc (score_at h1) built).
  assert (Hsorted : Forall (item_ok h use_cases h1) sorted)
    by (subst sorted; by rewrite StableSort.sort_desc_perm).
  destruct (selection_loop_ok h use_cases Hvalid optimizer sorted 0 0%Q h1
              Hsub1 Hsorted) as (h' & -> & Hsub' & Hkeep).
  simpl.
  assert (Hitems : Forall (item_ok h use_cases h') sorted)
    by (eapply Forall_impl; [exact Hsorted | exact Hkeep]).
  destruct (generate_roadmap_ok h h' use_cases sorted generator true
              Hvalid Hsub' Hitems) as (roadmap & -> & Hroadmap).
  simpl. exists metrics, sorted, roadmap, h'.
  split; [reflexivity |]. split.
  { intros l o Hl. by eapply lookup_weaken. }
  split.
  { apply mapM_Some in Hmetrics.
    eapply Forall2_impl; [exact Hmetrics |].
    intros l m Hm. simpl in Hm.
    destruct (get_use_case h l) as [uc |]; [| done].
    injection Hm as <-. eauto. }
  split.
  { eapply Forall_impl; [exact Hitems |].
    intros p (Hnew & c & Hc & Hin). split; [done |].
    exists c. split; [by apply get_item_Some | done]. }
  eapply Forall_impl; [exact Hroadmap |].
  intros r [Hin Hr]. split; [done |]. split; [done |].
  by eapply get_use_case_mono.
Qed.


Lemma C9_witness :
  exists metrics portfolio_items roadmap_items h',
    pipeline Sample.monthly_rate Sample.tight_budget Sample.generator
      [1; 2]%positive Sample.store
    = Some (metrics, portfolio_items, roadmap_items, h') /\
    (forall l o, Sample.store !! l = Some o -> h' !! l = Some o) /\
    Forall2 (fun l m =>
               exists uc, get_use_case Sample.store l = Some uc /\
                 m = ROICalculator.calculate_metrics Sample.monthly_rate uc)
            [1; 2]%positive metrics /\
    Forall (fun p =>
              Sample.store !! p = None /\
              exists c, get_item h' p = Some c /\
                        use_case c ∈ [1; 2]%positive)
           portfolio_items /\
    Forall (fun r =>
              r.1 ∈ [1; 2]%positive /\
              get_use_case Sample.store r.1
              = Some (RoadmapItem.use_case r.2) /\
              get_use_case h' r.1 = Some (RoadmapItem.use_case r.2))
           roadmap_items.
Proof.
  apply (C9_records_not_mutated Sample.monthly_rate Sample.tight_budget
           Sample.generator [1; 2]%positive Sample.store).
  repeat constructor; eexists; reflexivity.
Defined.

End StoreFacts.

(** * The dependency order *)

Module DependencyFacts.
Import RoadmapGenerator Dependencies.

Lemma name_fold_notin (items : list RoadmapItem.t) (name : string) :
  forall acc : gmap string RoadmapItem.t,
    name ∉ item_name <$> items ->
    foldl (fun acc i => <[AIUseCase.name (RoadmapItem.use_case i) := i]> acc)
          acc items !! name = acc !! name.
Proof.
  induction items as [| x rest IH]; intros acc Hnot; [done |].
  rewrite fmap_cons in Hnot. apply not_elem_of_cons in Hnot as [Hne Hnot].
  simpl. rewrite IH by done.
  by rewrite lookup_insert_ne.
Qed.

Lemma name_fold_inv (items : list RoadmapItem.t) (name : string)
    (item : RoadmapItem.t) :
  forall acc : gmap string RoadmapItem.t,
    foldl (fun acc i => <[AIUseCase.name (RoadmapItem.use_case i) := i]> acc)
          acc items !! name = Some item ->
    (item ∈ items /\ item_name item = name) \/ acc !! name = Some item.
Proof.
  induction items as [| x rest IH]; intros acc Hl; [by right |].
  simpl in Hl. destruct (IH _ Hl) as [[Hin Hname] | Hacc].
  - left. split; [by apply list_elem_of_further | done].
  - rewrite lookup_insert in Hacc. case_decide as Heq.
    + injection Hacc as <-. left. split; [apply list_elem_of_here | done].
    + by right.
Qed.

Lemma name_map_inv (items : list RoadmapItem.t) (name : string)
    (item : RoadmapItem.t) :
  name_map items !! name = Some item ->
  item ∈ items /\ item_name item = name.
Proof.
  intros Hl. destruct (name_fold_inv items name item ∅ Hl) as [H | H];
    [done | by rewrite lookup_empty in H].
Qed.

Lemma name_map_lookup (items : list RoadmapItem.t) (item : RoadmapItem.t) :
  NoDup (item_name <$> items) -> item ∈ items ->
  name_map items !! item_name item = Some item.
Proof.
  unfold name_map. generalize (∅ : gmap string RoadmapItem.t).
  induction items as [| x rest IH]; intros acc Hnd Hin; [by inversion Hin |].
  rewrite fmap_cons in Hnd. apply NoDup_cons in Hnd as [Hx Hnd].
  simpl. apply elem_of_cons in Hin as [-> | Hin].
  - rewrite name_fold_notin by done. apply lookup_insert_eq.
  - by apply IH.
Qed.

Lemma name_map_None (items : list RoadmapItem.t) (name : string) :
  NoDup (item_name <$> items) ->
  name_map items !! name = None -> name ∉ item_name <$> items.
Proof.
  intros Hnd Hnone (item & -> & Hin)%list_elem_of_fmap.
  by rewrite (name_map_lookup items item Hnd Hin) in Hnone.
Qed.

Section Order.

Variable items : list RoadmapItem.t.
Variable rank : string -> nat.
Hypothesis names_distinct : NoDup (item_name <$> items).
Hypothesis no_cycle : acyclic rank items.

Abbreviation order_inv := (Dependencies.order_inv items).
Abbreviation grows := (Dependencies.grows rank).
Abbreviation visit := (Dependencies.visit items).
Abbreviation process_spec := (Dependencies.process_spec items rank).

Lemma grows_refl (bound : nat) (st : gset string * list RoadmapItem.t) :
  grows bound st st.
Proof. exists []. by rewrite app_nil_r. Qed.

Lemma grows_trans (b1 b2 bound : nat)
    (st1 st2 st3 : gset string * list RoadmapItem.t) :
  (b1 <= bound)%nat -> (b2 <= bound)%nat ->
  grows b1 st1 st2 -> grows b2 st2 st3 -> grows bound st1 st3.
Proof.
  intros H1 H2 (a1 & E1 & F1) (a2 & E2 & F2). exists (a1 ++ a2).
  split; [by rewrite E2, E1, app_assoc |].
  apply Forall_app. split; (eapply Forall_impl; [eassumption |]);
    simpl; intros; lia.
Qed.

Lemma grows_processed (bound : nat)
    (st st' : gset string * list RoadmapItem.t) (name : string) :
  order_inv st -> order_inv st' -> grows bound st st' ->
  name ∈ st.1 -> name ∈ st'.1.
Proof.
  intros (Hp & _) (Hp' & _) (added & E & _) Hin.
  apply Hp'. rewrite E, fmap_app. apply elem_of_app. left. by apply Hp.
Qed.

Lemma dependencies_first_snoc (ordered : list RoadmapItem.t)
    (item : RoadmapItem.t) :
  dependencies_first items ordered ->
  (forall dep, dep ∈ item_deps item -> dep ∈ item_name <$> items ->
               dep ∈ item_name <$> ordered) ->
  dependencies_first items (ordered ++ [item]).
Proof.
  intros Hfirst Hdeps pre x post dep Heq Hdep Hin.
  destruct post as [| y post' _] using rev_ind.
  - apply app_inj_tail in Heq as [<- <-]. by apply Hdeps.
  - rewrite app_comm_cons, app_assoc in Heq.
    apply app_inj_tail in Heq as [-> _].
    by eapply Hfirst.
Qed.

Lemma process_unfold (depth : nat) (item : RoadmapItem.t)
    (st : gset string * list RoadmapItem.t) :
  process (S depth) (name_map items) item st
  = if bool_decide (item_name item ∈ st.1) then Some st
    else
      st' ← for_each (visit depth) (item_deps item) st;
      Some ({[item_name item]} ∪ st'.1, st'.2 ++ [item]).
Proof. reflexivity. Qed.

Lemma visit_all_ok (depth bound : nat) (deps : list string) :
  process_spec depth ->
  forall st,
    order_inv st ->
    (forall dep, dep ∈ deps -> dep ∈ item_name <$> items ->
                 (rank dep < depth)%nat /\ (rank dep < bound)%nat) ->
    exists st',
      for_each (visit depth) deps st = Some st' /\
      order_inv st' /\
      (forall dep, dep ∈ deps -> dep ∈ item_name <$> items -> dep ∈ st'.1) /\
      grows bound st st'.
Proof.
  intros Hprocess. induction deps as [| dep rest IH]; intros st Hinv Hranks.
  { exists st. split; [done |]. split; [done |].
    split; [by intros ? ?%elem_of_nil | apply grows_refl]. }
  assert (Hstep : exists st1,
            visit depth st dep = Some st1 /\ order_inv st1 /\
            (dep ∈ item_name <$> items -> dep ∈ st1.1) /\
            grows bound st st1).
  { unfold visit. destruct (name_map items !! dep) as [d |] eqn:Hd.
    - destruct (name_map_inv _ _ _ Hd) as [Hin Hname].
      case_bool_decide as Hseen.
      + exists st. split; [done |]. split; [done |].
        split; [done | apply grows_refl].
      + destruct (Hranks dep) as [Hlt Hbound];
          [apply list_elem_of_here
          | rewrite <- Hname; by apply list_elem_of_fmap_2 |].
        destruct (Hprocess d st Hin) as (st1 & Hrun & Hinv1 & Hdone & Hgrow);
          [by rewrite Hname | done |].
        exists st1. split; [done |]. split; [done |].
        split; [by rewrite <- Hname |].
        eapply (grows_trans 0 (S (rank (item_name d))) bound st st st1);
          [lia | rewrite Hname; lia | apply grows_refl | done].
    - exists st. split; [done |]. split; [done |].
      split; [| apply grows_refl].
      intros Hin. by apply name_map_None in Hd. }
  destruct Hstep as (st1 & Hrun1 & Hinv1 & Hdone1 & Hgrow1).
  destruct (IH st1 Hinv1) as (st' & Hrun & Hinv' & Hdone & Hgrow).
  { intros d Hd. apply Hranks. by apply list_elem_of_further. }
  exists st'. cbn [for_each]. rewrite Hrun1. split; [done |].
  split; [done |]. split.
  - intros d [-> | Hd]%elem_of_cons Hnamed; [| by apply Hdone].
    eapply grows_processed; [exact Hinv1 | exact Hinv' | exact Hgrow |].
    by apply Hdone1.
  - by eapply (grows_trans bound bound bound st st1 st').
Qed.

Lemma process_ok (depth : nat) : process_spec depth.
Proof.
  induction depth as [| depth IH]; intros item st Hin Hrank Hinv; [lia |].
  rewrite process_unfold. case_bool_decide as Hseen.
  { exists st. split; [done |]. split; [done |]. split; [done |].
    apply grows_refl. }
  destruct (visit_all_ok depth (rank (item_name item)) (item_deps item) IH
              st Hinv) as (st1 & -> & Hinv1 & Hdeps & Hgrow).
  { intros dep Hdep Hnamed.
    pose proof (no_cycle item dep Hin Hdep Hnamed). lia. }
  simpl. eexists. split; [reflexivity |].
  destruct Hinv as (Hp & Hnd & Hsub & Hfirst).
  destruct Hinv1 as (Hp1 & Hnd1 & Hsub1 & Hfirst1).
  destruct Hgrow as (added & Hadded & Hranks).
  assert (Hfresh : item_name item ∉ item_name <$> st1.2).
  { rewrite Hadded, fmap_app. apply not_elem_of_app. split.
    - by rewrite <- Hp.
    - intros (x & Hname & Hx)%list_elem_of_fmap.
      rewrite Forall_forall in Hranks. specialize (Hranks x Hx).
      rewrite Hname in Hranks. lia. }
  split; [| split].
  - unfold Dependencies.order_inv. simpl. split; [| split; [| split]].
    + intros name. rewrite fmap_app, elem_of_app, elem_of_union, Hp1.
      simpl. rewrite list_elem_of_singleton, elem_of_singleton. tauto.
    + rewrite fmap_app. apply NoDup_app. split; [done |].
      split; [| apply NoDup_singleton].
      intros name Hname ->%list_elem_of_singleton. by apply Hfresh.
    + intros x [Hx | ->%list_elem_of_singleton]%elem_of_app; auto.
    + apply dependencies_first_snoc; [done |].
      intros dep Hdep Hnamed. apply Hp1. by apply Hdeps.
  - simpl. apply elem_of_union_l. by apply elem_of_singleton.
  - exists (added ++ [item]). simpl. split; [by rewrite Hadded, app_assoc |].
    apply Forall_app. split.
    + eapply Forall_impl; [exact Hranks |]. simpl. intros; lia.
    + apply Forall_singleton. lia.
Qed.

Lemma order_loop_ok (depth : nat) (todo : list RoadmapItem.t) :
  forall st,
    order_inv st ->
    Forall (fun item => item ∈ items /\
                        (rank (item_name item) < depth)%nat) todo ->
    exists st',
      for_each (fun st item => process depth (name_map items) item st)
               todo st = Some st' /\
      order_inv st' /\
      (forall name, name ∈ st.1 -> name ∈ st'.1) /\
      Forall (fun item => item_name item ∈ st'.1) todo.
Proof.
  induction todo as [| item rest IH]; intros st Hinv Htodo.
  { exists st. split; [done |]. split; [done |]. split; [done | constructor]. }
  apply Forall_cons in Htodo as [[Hin Hrank] Htodo]. cbn [for_each].
  destruct (process_ok depth item st Hin Hrank Hinv)
    as (st1 & -> & Hinv1 & Hdone & Hgrow).
  destruct (IH st1 Hinv1 Htodo) as (st' & Hrun & Hinv' & Hmono & Hall).
  exists st'. split; [done |]. split; [done |]. split.
  - intros name Hname. apply Hmono.
    eapply grows_processed; [exact Hinv | exact Hinv1 | exact Hgrow | done].
  - constructor; [by apply Hmono | done].
Qed.

End Order.

(** X23. On entries with distinct names whose dependencies have no
    cycle, and with a depth of recursion above every rank, the ordering
    pass returns the entries, each once, every one after whatever it
    names among them. *)
Lemma acyclic_order (depth : nat) (self : RoadmapGenerator.t)
    (items : list RoadmapItem.t) (rank : string -> nat) :
  NoDup (item_name <$> items) ->
  acyclic rank items ->
  Forall (fun item => (rank (item_name item) < depth)%nat) items ->
  exists ordered,
    get_dependencies_order depth self items = Some ordered /\
    ordered ≡ₚ items /\
    dependencies_first items ordered.
Proof.
  intros Hnd Hacyclic Hdepth. unfold get_dependencies_order.
  fold (name_map items).
  destruct (order_loop_ok items rank Hnd Hacyclic depth items (∅, []))
    as ([processed ordered] & -> & Hinv & _ & Hall).
  { unfold Dependencies.order_inv. simpl. split; [set_solver |].
    split; [constructor |]. split; [by intros ? ?%elem_of_nil |].
    intros pre x post dep Heq. by destruct pre. }
  { apply Forall_forall. intros item Hin. split; [done |].
    rewrite Forall_forall in Hdepth. by apply Hdepth. }
  destruct Hinv as (Hp & Hnd' & Hsub & Hfirst). simpl in *.
  exists ordered. split; [done |]. split; [| done].
  apply NoDup_Permutation.
  - by eapply NoDup_fmap_1.
  - by eapply NoDup_fmap_1.
  - intros x. split; [apply Hsub |]. intros Hx.
    rewrite Forall_forall in Hall.
    pose proof (proj1 (Hp _) (Hall x Hx)) as (y & Hname & Hy)%list_elem_of_fmap.
    pose proof (name_map_lookup items x Hnd Hx) as Hlx.
    pose proof (name_map_lookup items y Hnd (Hsub y Hy)) as Hly.
    rewrite Hname in Hlx. rewrite Hlx in Hly. by injection Hly as ->.
Qed.

(** Of two entries of the same name the pass keeps the first and drops
    the second. *)
Lemma same_name_dropped :
  get_dependencies_order 1 Sample.generator
    [Sample.entry "A" []; Sample.entry "A" ["Z"]]
  = Some [Sample.entry "A" []].
Proof.
  unfold get_dependencies_order.
  fold (name_map [Sample.entry "A" []; Sample.entry "A" ["Z"]]).
  cbn [for_each]. rewrite !process_unfold.
  rewrite bool_decide_eq_false_2 by set_solver.
  cbn [for_each item_deps Sample.entry RoadmapItem.use_case
       AIUseCase.dependencies mbind option_bind fst snd].
  rewrite process_unfold.
  rewrite bool_decide_eq_true_2; [done |].
  cbn [item_name Sample.entry RoadmapItem.use_case AIUseCase.name fst].
  set_solver.
Qed.

End DependencyFacts.

(** * Sums and rounding of exact values *)

Module SumFacts.
#[local] Open Scope Q_scope.

Lemma py_sum_from (l : list Q) (a : Q) : foldl Qplus a l == a + py_sum l.
Proof.
  unfold py_sum. revert a. induction l as [| x l IH]; intros a; simpl.
  - lra.
  - rewrite (IH (a + x)), (IH (0 + x)). lra.
Qed.

Lemma py_sum_cons (x : Q) (l : list Q) : py_sum (x :: l) == x + py_sum l.
Proof. unfold py_sum at 1. simpl. rewrite py_sum_from. lra. Qed.

Lemma py_sum_snoc (l : list Q) (x : Q) : py_sum (l ++ [x]) == py_sum l + x.
Proof. unfold py_sum. by rewrite foldl_snoc. Qed.





Lemma round_half_even_Z (k : Z) : round_half_even (inject_Z k) = k.
Proof.
  unfold round_half_even. rewrite Qfloor_Z.
  assert (inject_Z k - inject_Z k < 1 # 2) as ->%Qlt_alt by lra.
  reflexivity.
Qed.

(** A value with at most [ndigits] decimals is its own rounding. *)
Lemma py_round_exact (k : Z) (ndigits : Z) :
  py_round (inject_Z k / 10 ^ ndigits) ndigits == inject_Z k / 10 ^ ndigits.
Proof.
  unfold py_round.
  assert (Hpos : 0 < 10 ^ ndigits) by (apply Qpower_0_lt; lra).
  assert (Hk : inject_Z k / 10 ^ ndigits * 10 ^ ndigits == inject_Z k)
    by (field; lra).
  by rewrite (round_half_even_comp _ _ Hk), round_half_even_Z.
Qed.

Lemma py_round_idem (x : Q) (ndigits : Z) :
  py_round (py_round x ndigits) ndigits == py_round x ndigits.
Proof. unfold py_round at 2 3. apply py_round_exact. Qed.

Lemma py_round_int (k : Z) (ndigits : Z) :
  (0 <= ndigits)%Z -> py_round (inject_Z k) ndigits == inject_Z k.
Proof.
  intros Hn.
  assert (Hpow : 10 ^ ndigits == inject_Z (10 ^ ndigits)).
  { symmetry. exact (Zpower_Qpower 10 ndigits Hn). }
  assert (Hpos : 0 < 10 ^ ndigits) by (apply Qpower_0_lt; lra).
  assert (Hk : inject_Z k == inject_Z (k * 10 ^ ndigits) / 10 ^ ndigits).
  { rewrite inject_Z_mult, <- Hpow. field. lra. }
  rewrite Hk at 1. rewrite py_round_exact. by rewrite <- Hk.
Qed.

End SumFacts.

(** * More on the financial metrics *)

Module CalculatorMore.
Import ROICalculator SumFacts.
#[local] Open Scope Q_scope.

#[local] Ltac split_month n :=
  destruct n as [| n];
  [ change (Z.of_nat 0) with 0%Z; cbn [Z.eqb];
    change (inject_Z 0) with 0
  | destruct (Z.eqb_spec (Z.of_nat (S n)) 0) as [? | _]; [lia |] ];
  lra.

(** The sum of the first [n] monthly flows. *)
Lemma cash_flows_prefix_sum (uc : AIUseCase.t) (n : nat) :
  (0 <= Spec.benefit_start uc)%Z ->
  py_sum
    ((fun month : Z =>
        let flow := 0 in
        let flow :=
          if (month =? 0)%Z then flow - AIUseCase.initial_cost uc else flow in
        let flow := flow - AIUseCase.annual_cost uc / 12 in
        let benefit_start :=
          (AIUseCase.implementation_months uc
           + AIUseCase.benefit_start_month uc - 1)%Z in
        let flow :=
          if (benefit_start <=? month)%Z
          then flow + AIUseCase.annual_benefit uc / 12
          else flow in
        flow) <$> seqZ 0 (Z.of_nat n))
  == (if n is O then 0 else - AIUseCase.initial_cost uc)
     - AIUseCase.annual_cost uc / 12 * inject_Z (Z.of_nat n)
     + AIUseCase.annual_benefit uc / 12
       * inject_Z (Z.max 0 (Z.of_nat n - Spec.benefit_start uc)).
Proof.
  intros Hstart. unfold Spec.benefit_start in *.
  set (bs := (AIUseCase.implementation_months uc
              + AIUseCase.benefit_start_month uc - 1)%Z) in *.
  induction n as [| n IH].
  - cbn [seqZ]. rewrite Z.max_l by lia. unfold py_sum. simpl.
    change (inject_Z (Z.of_nat 0)) with 0. change (inject_Z 0) with 0.
    unfold Qdiv. lra.
  - rewrite seqZ_S, fmap_app. cbn [fmap list_fmap].
    rewrite py_sum_snoc, IH.
    rewrite Z.add_0_l, Nat2Z.inj_succ. unfold Z.succ.
    rewrite inject_Z_plus. change (inject_Z 1) with 1.
    unfold Qdiv. change (/ 12) with (1 # 12).
    destruct (bs <=? Z.of_nat n)%Z eqn:Hle.
    + apply Z.leb_le in Hle.
      rewrite (Z.max_r 0 (Z.of_nat n + 1 - bs)) by lia.
      rewrite (Z.max_r 0 (Z.of_nat n - bs)) by lia.
      replace (Z.of_nat n + 1 - bs)%Z with ((Z.of_nat n - bs) + 1)%Z by lia.
      rewrite inject_Z_plus. change (inject_Z 1) with 1.
      split_month n.
    + apply Z.leb_gt in Hle.
      rewrite (Z.max_l 0 (Z.of_nat n + 1 - bs)) by lia.
      rewrite (Z.max_l 0 (Z.of_nat n - bs)) by lia.
      change (inject_Z 0) with 0.
      split_month n.
Qed.

(** X1. The cash-flow series has 36 entries, and for a record whose
    benefits start in month 0 or later they add up to the three-year
    benefit less the three-year cost of [calculate_metrics]. *)
Theorem cash_flows_balance (monthly_rate : Q) (uc : AIUseCase.t) :
  (0 <= Spec.benefit_start uc)%Z ->
  length (_generate_cash_flows uc) = 36%nat /\
  py_sum (_generate_cash_flows uc)
  == ROIMetrics.three_year_benefit (calculate_metrics monthly_rate uc)
     - ROIMetrics.three_year_cost (calculate_metrics monthly_rate uc).
Proof.
  intros Hstart. split.
  - unfold _generate_cash_flows. by rewrite length_fmap, length_seqZ.
  - unfold _generate_cash_flows.
    change (ANALYSIS_YEARS * 12)%Z with (Z.of_nat 36).
    rewrite (cash_flows_prefix_sum uc 36 Hstart).
    cbn [calculate_metrics ROIMetrics.three_year_benefit
         ROIMetrics.three_year_cost].
    unfold _calculate_total_benefit, Spec.benefit_start.
    change (ANALYSIS_YEARS * 12)%Z with 36%Z.
    change (Z.of_nat 36) with 36%Z.
    change (inject_Z ANALYSIS_YEARS) with 3. change (inject_Z 36) with 36.
    unfold Qdiv. change (/ 12) with (1 # 12). lra.
Qed.

Lemma cash_flows_balance_witness :
  (0 <= Spec.benefit_start Sample.invoice_triage)%Z /\
  length (_generate_cash_flows Sample.invoice_triage) = 36%nat /\
  py_sum (_generate_cash_flows Sample.invoice_triage)
  == ROIMetrics.three_year_benefit
       (calculate_metrics Sample.monthly_rate Sample.invoice_triage)
     - ROIMetrics.three_year_cost
         (calculate_metrics Sample.monthly_rate Sample.invoice_triage).
Proof.
  assert (H : (0 <= Spec.benefit_start Sample.invoice_triage)%Z)
    by (vm_compute; discriminate).
  split; [exact H |].
  exact (cash_flows_balance Sample.monthly_rate Sample.invoice_triage H).
Defined.

Lemma risk_multiplier_bounds (risk_level : RiskLevel.t) :
  0 <= default (80 # 100) (RISK_MULTIPLIERS !! RiskLevel.value risk_level)
  <= 1.
Proof. destruct risk_level; vm_compute; split; discriminate. Qed.

(** The risk adjustment of a value of at most two decimals keeps its
    sign and does not raise its magnitude. *)
Lemma risk_adjusted_between (base_value : Q) (risk_level : RiskLevel.t) :
  py_round base_value 2 == base_value ->
  (0 <= base_value ->
   0 <= _calculate_risk_adjusted_value base_value risk_level <= base_value)
  /\ (base_value <= 0 ->
      base_value <= _calculate_risk_adjusted_value base_value risk_level
      <= 0).
Proof.
  intros Hidem. unfold _calculate_risk_adjusted_value. cbv zeta.
  pose proof (risk_multiplier_bounds risk_level) as [Hm0 Hm1].
  set (m := default _ _) in *.
  assert (Hzero : py_round 0 2 == 0) by (apply (py_round_int 0 2); lia).
  split; intros Hsign.
  - assert (H0 : 0 <= base_value * m) by (by apply Qmult_le_0_compat).
    assert (H1 : base_value * m <= base_value) by nra.
    split.
    + rewrite <- Hzero. by apply py_round_mono.
    + rewrite <- Hidem at 2. by apply py_round_mono.
  - assert (H0 : base_value * m <= 0) by nra.
    assert (H1 : base_value <= base_value * m) by nra.
    split.
    + rewrite <- Hidem at 1. by apply py_round_mono.
    + rewrite <- Hzero. by apply py_round_mono.
Qed.

(** X2. The risk-adjusted value of [calculate_metrics] has the sign of the
    NPV and never exceeds it in magnitude, the two roundings to the cent
    included. *)
Theorem risk_adjusted_within_npv (monthly_rate : Q) (uc : AIUseCase.t) :
  (0 <= ROIMetrics.npv (calculate_metrics monthly_rate uc) ->
   0 <= ROIMetrics.risk_adjusted_value (calculate_metrics monthly_rate uc)
   <= ROIMetrics.npv (calculate_metrics monthly_rate uc)) /\
  (ROIMetrics.npv (calculate_metrics monthly_rate uc) <= 0 ->
   ROIMetrics.npv (calculate_metrics monthly_rate uc)
   <= ROIMetrics.risk_adjusted_value (calculate_metrics monthly_rate uc)
   <= 0).
Proof.
  cbn [calculate_metrics ROIMetrics.npv ROIMetrics.risk_adjusted_value].
  apply risk_adjusted_between. unfold _calculate_npv. apply py_round_idem.
Qed.












End CalculatorMore.

(** * More on the optimizer *)

Module OptimizerMore.
Import PortfolioOptimizer Selection SumFacts CalculatorMore.
#[local] Open Scope Q_scope.








(** ** What [optimize] returns *)




(** The selector leaves record, metrics, score and quadrant as they
    are. *)
Lemma selection_loop_keeps (self : t) (items : list PortfolioItem.t) :
  forall (n : Z) (c : Q),
    Forall2 (fun item item' =>
               PortfolioItem.use_case item' = PortfolioItem.use_case item /\
               PortfolioItem.roi_metrics item'
               = PortfolioItem.roi_metrics item /\
               PortfolioItem.priority_score item'
               = PortfolioItem.priority_score item /\
               PortfolioItem.quadrant item' = PortfolioItem.quadrant item)
            items (selection_loop self items n c).1.1.
Proof.
  induction items as [| item rest IH]; intros n c; [constructor |].
  rewrite SelectionFacts.selection_loop_cons.
  pose proof (SelectionFacts.select_item_keeps self n c item) as Hk.
  destruct (select_item self n c item) as [[item' n1] c1].
  specialize (IH n1 c1).
  destruct (selection_loop self rest n1 c1) as [[rest' n2] c2].
  simpl in *. by constructor.
Qed.

Lemma apply_selection_use_cases (self : t) (items : list PortfolioItem.t) :
  PortfolioItem.use_case <$> _apply_selection self items
  = PortfolioItem.use_case <$> items.
Proof.
  unfold _apply_selection.
  pose proof (selection_loop_keeps self items 0%Z 0) as Hk.
  induction Hk as [| item item' l l' (Hu & _) _ IH]; [done |].
  cbn [fmap list_fmap]. by rewrite Hu, IH.
Qed.


(** The dictionary [metrics_map] holds, for each id, the last of the
    metrics that carry it. *)
Lemma metrics_map_fold (metrics : list ROIMetrics.t) (k : string) :
  forall acc : gmap string ROIMetrics.t,
    foldl (fun acc m => <[ROIMetrics.use_case_id m := m]> acc) acc metrics
    !! k
    = match last (filter (fun m => ROIMetrics.use_case_id m = k) metrics)
      with
      | Some m => Some m
      | None => acc !! k
      end.
Proof.
  induction metrics as [| m ms IH]; intros acc; [done |].
  cbn [foldl]. rewrite IH, filter_cons.
  destruct (decide (ROIMetrics.use_case_id m = k)) as [<- | Hne].
  - rewrite last_cons. destruct (last (filter _ ms)); [done |].
    by rewrite lookup_insert_eq.
  - destruct (last (filter _ ms)); [done |]. by rewrite lookup_insert_ne.
Qed.

Lemma metrics_map_lookup (metrics : list ROIMetrics.t) (uc : AIUseCase.t) :
  foldl (fun acc m => <[ROIMetrics.use_case_id m := m]> acc)
        (∅ : gmap string ROIMetrics.t) metrics
  !! AIUseCase.id uc
  = Portfolio.metrics_for metrics uc.
Proof.
  rewrite metrics_map_fold. unfold Portfolio.metrics_for.
  by destruct (last _).
Qed.

Lemma metrics_for_is_Some (metrics : list ROIMetrics.t) (uc : AIUseCase.t) :
  is_Some (Portfolio.metrics_for metrics uc)
  <-> AIUseCase.id uc ∈ ROIMetrics.use_case_id <$> metrics.
Proof.
  unfold Portfolio.metrics_for. rewrite list_elem_of_fmap. split.
  - intros [m Hm]. exists m.
    assert (Hin : m ∈ filter (fun m => ROIMetrics.use_case_id m
                                       = AIUseCase.id uc) metrics).
    { apply last_Some in Hm as [l' ->]. set_solver. }
    apply list_elem_of_filter in Hin as [-> Hin]. done.
  - intros (m & Hid & Hin).
    assert (Hf : m ∈ filter (fun m => ROIMetrics.use_case_id m
                                      = AIUseCase.id uc) metrics)
      by (by apply list_elem_of_filter).
    destruct (filter _ metrics) as [| x l] eqn:Hl using rev_ind.
    + by apply elem_of_nil in Hf.
    + rewrite last_snoc. by eexists.
Qed.

Lemma build_loop_use_cases (metrics_map : gmap string ROIMetrics.t)
    (use_cases : list AIUseCase.t) :
  forall acc,
    PortfolioItem.use_case <$> foldl (build_turn metrics_map) acc use_cases
    = (PortfolioItem.use_case <$> acc)
      ++ filter (fun uc => is_Some (metrics_map !! AIUseCase.id uc))
                use_cases.
Proof.
  induction use_cases as [| uc rest IH]; intros acc.
  - by rewrite app_nil_r.
  - cbn [foldl]. rewrite IH, filter_cons. unfold build_turn.
    destruct (metrics_map !! AIUseCase.id uc) as [m |] eqn:Hm.
    + destruct (decide (is_Some (Some m))) as [_ | Hn];
        [| by destruct Hn].
      rewrite fmap_app, <- app_assoc. done.
    + destruct (decide (is_Some (@None ROIMetrics.t))) as [[? ?] | _];
        done.
Qed.

Lemma build_loop_scored (metrics : list ROIMetrics.t)
    (use_cases : list AIUseCase.t) :
  forall acc,
    Forall (Portfolio.scored_from metrics) acc ->
    Forall (Portfolio.scored_from metrics)
      (foldl (build_turn
                (foldl (fun acc m => <[ROIMetrics.use_case_id m := m]> acc)
                       (∅ : gmap string ROIMetrics.t) metrics))
             acc use_cases).
Proof.
  induction use_cases as [| uc rest IH]; intros acc Hacc; [done |].
  cbn [foldl]. apply IH. unfold build_turn.
  destruct (_ !! AIUseCase.id uc) as [m |] eqn:Hm; [| done].
  apply Forall_app. split; [done |]. apply Forall_singleton.
  rewrite metrics_map_lookup in Hm. done.
Qed.


Lemma optimize_use_cases (self : t) (use_cases : list AIUseCase.t)
    (metrics : list ROIMetrics.t) :
  PortfolioItem.use_case <$> optimize self use_cases metrics
  ≡ₚ filter (fun uc => AIUseCase.id uc ∈ ROIMetrics.use_case_id <$> metrics)
            use_cases.
Proof.
  unfold optimize. cbv zeta.
  rewrite apply_selection_use_cases, StableSort.sort_desc_perm.
  rewrite build_loop_use_cases. cbn [fmap list_fmap app].
  erewrite list_filter_iff; [reflexivity |].
  intros uc. rewrite metrics_map_lookup. apply metrics_for_is_Some.
Qed.

(** X9. [optimize] returns one item for each use case whose id some
    metrics carry, as often as the use case is in the input, and none for
    the others: a use case without metrics is dropped without notice. *)
Theorem optimize_covers (self : t) (use_cases : list AIUseCase.t)
    (metrics : list ROIMetrics.t) :
  PortfolioItem.use_case <$> optimize self use_cases metrics
  ≡ₚ filter (fun uc => AIUseCase.id uc ∈ ROIMetrics.use_case_id <$> metrics)
            use_cases.
Proof. apply optimize_use_cases. Qed.

(** X10. Each item that [optimize] returns carries the last of the
    metrics with the id of its use case, the priority score computed from
    the two, and the label of the quadrant of its use case. *)
Theorem optimize_scored (self : t) (use_cases : list AIUseCase.t)
    (metrics : list ROIMetrics.t) :
  Forall (Portfolio.scored_from metrics) (optimize self use_cases metrics).
Proof.
  unfold optimize. cbv zeta.
  set (metrics_map := foldl _ ∅ metrics).
  assert (Hsorted : Forall (Portfolio.scored_from metrics)
                      (sort_desc PortfolioItem.priority_score
                         (foldl (build_turn metrics_map) [] use_cases))).
  { rewrite StableSort.sort_desc_perm. by apply build_loop_scored. }
  unfold _apply_selection.
  pose proof (selection_loop_keeps self
                (sort_desc PortfolioItem.priority_score
                   (foldl (build_turn metrics_map) [] use_cases)) 0%Z 0)
    as Hk.
  induction Hk as [| item item' l l' (Hu & Hm & Hs & Hq) _ IH];
    [constructor |].
  apply Forall_cons in Hsorted as [Hitem Hrest].
  constructor; [| by apply IH].
  unfold Portfolio.scored_from in *. by rewrite Hu, Hm, Hs, Hq.
Qed.

(** ** The marks the selector leaves *)

Lemma selection_loop_marks (self : t) (items : list PortfolioItem.t) :
  unselected items ->
  forall (n : Z) (c : Q),
    let '(out, n', _) := selection_loop self items n c in
    Forall (fun item' =>
              (PortfolioItem.selected item' = true ->
               meets_threshold self item') /\
              (PortfolioItem.selected item' = false ->
               Portfolio.is_rejection
                 (PortfolioItem.selection_rationale item'))) out /\
    PortfolioItem.selection_rationale <$> Portfolio.selected_items out
    = imap (fun i item' =>
              PortfolioItem.SelectedRank (n + Z.of_nat i + 1)
                (PortfolioItem.priority_score item'))
           (Portfolio.selected_items out) /\
    n' = (n + Z.of_nat (length (Portfolio.selected_items out)))%Z.
Proof.
  intros Hun.
  induction Hun as [| item rest Hitem _ IH]; intros n c.
  { cbn. split; [constructor |]. split; [done | lia]. }
  rewrite SelectionFacts.selection_loop_cons.
  pose proof (SelectionFacts.select_item_turn self n c item) as Hturn.
  pose proof (SelectionFacts.select_item_keeps self n c item)
    as (_ & Hroi & Hscore & _).
  destruct (select_item self n c item) as [[item' n1] c1].
  specialize (IH n1 c1).
  destruct (selection_loop self rest n1 c1) as [[rest' n2] c2].
  destruct IH as (Hall & Hranks & Hn).
  cbn [fst snd] in Hroi, Hscore.
  unfold Portfolio.selected_items in *. rewrite filter_cons.
  inversion Hturn as
    [? _ Hsel _ Hrat | ? ? _ _ _ _ Hsel _ Hrat | ? ? _ _ _ _ _ Hsel _ Hrat
     | ? Hmeets _ _ Hsel _ Hrat]; subst.
  1-3: rewrite Hitem in Hsel;
    (destruct (decide (PortfolioItem.selected item' = true)) as [Habs | _];
     [congruence |]);
    (split; [| done]);
    (constructor; [| done]);
    (split; [congruence |]); intros _; by rewrite Hrat.
  destruct (decide (PortfolioItem.selected item' = true)) as [_ | Hn];
    [| done].
  split; [| split].
  - constructor; [| done]. split; [| congruence].
    intros _. unfold meets_threshold. by rewrite Hroi.
  - cbn [fmap list_fmap]. rewrite imap_cons, Hranks, Hrat, Hscore.
    f_equal; [f_equal; lia |].
    apply imap_ext. intros i x _. cbn. f_equal. lia.
  - cbn [length]. lia.
Qed.


(** X12. The selected items of the list that [optimize] returns are
    ranked 1, 2, 3, ... in the order of the list, each with its own
    score in the rationale. *)
Theorem optimize_ranks (self : t) (use_cases : list AIUseCase.t)
    (metrics : list ROIMetrics.t) :
  PortfolioItem.selection_rationale
    <$> Portfolio.selected_items (optimize self use_cases metrics)
  = imap Portfolio.rank_rationale
         (Portfolio.selected_items (optimize self use_cases metrics)).
Proof.
  destruct (SelectionFacts.optimize_candidates self use_cases metrics)
    as (items & -> & Hun).
  unfold _apply_selection.
  pose proof (selection_loop_marks self items Hun 0%Z 0) as Hm.
  destruct (selection_loop self items 0%Z 0) as [[out n] c].
  destruct Hm as (_ & Hranks & _). cbn [fst]. rewrite Hranks.
  apply imap_ext. intros i x _. unfold Portfolio.rank_rationale.
  f_equal; lia.
Qed.

(** ** The summaries *)

Lemma selected_count_length (items : list PortfolioItem.t) :
  selected_count items
  = Z.of_nat (length (Portfolio.selected_items items)).
Proof.
  unfold selected_count, Portfolio.selected_items.
  induction items as [| item rest IH]; [done |].
  cbn [foldr]. rewrite filter_cons, IH.
  destruct (PortfolioItem.selected item);
    [destruct (decide (true = true)) as [_ | Hn]; [| done]
    | destruct (decide (false = true)) as [Habs | _]; [done |]].
  - cbn [length]. lia.
  - done.
Qed.

Lemma selected_cost_sum (items : list PortfolioItem.t) :
  selected_cost items
  == py_sum (project_cost <$> Portfolio.selected_items items).
Proof.
  unfold selected_cost, Portfolio.selected_items.
  induction items as [| item rest IH]; [reflexivity |].
  cbn [foldr]. rewrite filter_cons.
  destruct (PortfolioItem.selected item);
    [destruct (decide (true = true)) as [_ | Hn]; [| done]
    | destruct (decide (false = true)) as [Habs | _]; [done |]].
  - cbn [fmap list_fmap]. rewrite py_sum_cons, IH. reflexivity.
  - exact IH.
Qed.

Lemma selection_summary_totals (self : t) (items : list PortfolioItem.t) :
  count (get_selection_summary self items) = selected_count items /\
  total_investment (get_selection_summary self items)
  == selected_cost items /\
  length (PortfolioOptimizer.items (get_selection_summary self items))
  = length (Portfolio.selected_items items).
Proof.
  rewrite selected_count_length, selected_cost_sum.
  unfold get_selection_summary, Portfolio.selected_items. cbv zeta.
  destruct (filter _ items) as [| x l] eqn:Hsel.
  - cbn. split; [done |]. split; [reflexivity | done].
  - cbn [count total_investment PortfolioOptimizer.items].
    split; [done |]. split; [reflexivity |]. by rewrite length_fmap.
Qed.

(** X13. The summary of the list that [optimize] returns reports an
    investment within a positive budget and a count within a positive
    limit on the number of projects; its count is the number of entries
    under its key "items". *)
Theorem optimize_summary_within_limits (self : t)
    (use_cases : list AIUseCase.t) (metrics : list ROIMetrics.t) :
  (forall budget,
     budget_constraint self = Some budget -> 0 < budget ->
     total_investment
       (get_selection_summary self (optimize self use_cases metrics))
     <= budget) /\
  (forall limit,
     max_projects self = Some limit -> (0 < limit)%Z ->
     (count (get_selection_summary self (optimize self use_cases metrics))
      <= limit)%Z) /\
  count (get_selection_summary self (optimize self use_cases metrics))
  = Z.of_nat
      (length (PortfolioOptimizer.items
                 (get_selection_summary self
                    (optimize self use_cases metrics)))).
Proof.
  destruct (selection_summary_totals self (optimize self use_cases metrics))
    as (Hcount & Hcost & Hlen).
  destruct (SelectionFacts.optimize_within_limits self use_cases metrics)
    as [Hb Hm].
  split; [| split].
  - intros budget Hsome Hpos. rewrite Hcost. by apply Hb.
  - intros limit Hsome Hpos. rewrite Hcount. by apply Hm.
  - by rewrite Hcount, Hlen, selected_count_length.
Qed.

Lemma quadrant_summary_fold (items : list PortfolioItem.t) (q : string) :
  forall summary : gmap string (list PortfolioItem.t),
    foldl (fun summary item =>
             let summary :=
               match summary !! PortfolioItem.quadrant item with
               | None => <[PortfolioItem.quadrant item := []]> summary
               | Some _ => summary
               end in
             <[PortfolioItem.quadrant item :=
                 default [] (summary !! PortfolioItem.quadrant item)
                 ++ [item]]> summary)
          summary items !! q
    = match filter (fun i => PortfolioItem.quadrant i = q) items with
      | [] => summary !! q
      | group => Some (default [] (summary !! q) ++ group)
      end.
Proof.
  induction items as [| item rest IH]; intros summary; [done |].
  cbn [foldl]. rewrite IH, filter_cons. cbv zeta.
  destruct (decide (PortfolioItem.quadrant item = q)) as [<- | Hne].
  - rewrite lookup_insert_eq.
    destruct (summary !! PortfolioItem.quadrant item) as [g |] eqn:Hg.
    + rewrite Hg. cbn [default].
      destruct (filter _ rest); [done |]. unfold id.
      by rewrite <- app_assoc.
    + rewrite lookup_insert_eq. cbn [default app].
      by destruct (filter _ rest).
  - rewrite lookup_insert_ne by done.
    destruct (summary !! PortfolioItem.quadrant item) as [g |] eqn:Hg;
      [done |].
    by rewrite lookup_insert_ne by done.
Qed.

(** X15. [get_quadrant_summary] has a key for a quadrant exactly when
    some item lies in it, and the list under the key holds the items of
    that quadrant, all of them, in the order of the input. *)
Theorem quadrant_summary_groups (self : t) (items : list PortfolioItem.t)
    (q : string) :
  get_quadrant_summary self items !! q
  = match filter (fun i => PortfolioItem.quadrant i = q) items with
    | [] => None
    | group => Some group
    end.
Proof.
  unfold get_quadrant_summary. rewrite quadrant_summary_fold.
  rewrite lookup_empty. by destruct (filter _ items).
Qed.

End OptimizerMore.

(** * More on the roadmap *)

Module RoadmapMore.
Import RoadmapGenerator Schedule SumFacts.

Lemma in_horizon_snoc (horizon : TimeHorizon.t) (l : list RoadmapItem.t)
    (r : RoadmapItem.t) :
  Z.of_nat (length (in_horizon horizon (l ++ [r])))
  = Z.of_nat (length (in_horizon horizon l))
    + (if decide (RoadmapItem.time_horizon r = horizon) then 1 else 0).
Proof.
  unfold in_horizon. rewrite filter_app, length_app, filter_cons.
  destruct (decide (RoadmapItem.time_horizon r = horizon)); cbn; lia.
Qed.

Lemma staggered_snoc (self : RoadmapGenerator.t)
    (roadmap : list RoadmapItem.t) (r : RoadmapItem.t) :
  staggered self roadmap ->
  RoadmapItem.start_date r
  = start_date self
    + slot_offset (RoadmapItem.time_horizon r)
        (Z.of_nat (length (in_horizon (RoadmapItem.time_horizon r) roadmap)))
  ->
  RoadmapItem.end_date r
  = RoadmapItem.start_date r
    + AIUseCase.implementation_months (RoadmapItem.use_case r) * 30 ->
  staggered self (roadmap ++ [r]).
Proof.
  intros Hst Hstart Hend pre r' post Heq.
  destruct post as [| x post _] using rev_ind.
  - apply app_inj_tail in Heq as [<- <-]. done.
  - rewrite app_comm_cons, app_assoc in Heq.
    apply app_inj_tail in Heq as [Heq _]. by apply (Hst pre r' post).
Qed.

(** One turn of the loop of [generate_roadmap] when the counters hold the
    number of entries made so far in each horizon. *)
Lemma roadmap_turn_schedule (self : RoadmapGenerator.t)
    (roadmap_items : list RoadmapItem.t) (slots : gmap TimeHorizon.t Z)
    (item : PortfolioItem.t) :
  (forall h, slots !! h
             = Some (Z.of_nat (length (in_horizon h roadmap_items)))) ->
  staggered self roadmap_items ->
  exists r slots',
    roadmap_turn self (roadmap_items, slots) item
    = Some (roadmap_items ++ [r], slots') /\
    (forall h, slots' !! h
               = Some (Z.of_nat (length (in_horizon h (roadmap_items ++ [r])))))
    /\ staggered self (roadmap_items ++ [r]) /\ entry_of self item r.
Proof.
  intros Hslots Hst. unfold roadmap_turn, _calculate_dates.
  change (_determine_horizon self item slots)
    with (_determine_horizon self item ∅).
  set (horizon := _determine_horizon self item ∅).
  rewrite !Hslots. cbn [mbind option_bind].
  set (k := Z.of_nat (length (in_horizon horizon roadmap_items))).
  assert (Hdates :
    match horizon with
    | TimeHorizon.Q1 =>
        Some (start_date self + k * 30,
              start_date self + k * 30
              + AIUseCase.implementation_months (PortfolioItem.use_case item)
                * 30)
    | TimeHorizon.YEAR_1 =>
        Some (start_date self + (90 + k * 45),
              start_date self + (90 + k * 45)
              + AIUseCase.implementation_months (PortfolioItem.use_case item)
                * 30)
    | TimeHorizon.YEAR_3 =>
        Some (start_date self + (365 + k * 90),
              start_date self + (365 + k * 90)
              + AIUseCase.implementation_months (PortfolioItem.use_case item)
                * 30)
    end
    = Some (start_date self + slot_offset horizon k,
            start_date self + slot_offset horizon k
            + AIUseCase.implementation_months (PortfolioItem.use_case item)
              * 30)) by (by destruct horizon).
  cbv zeta. rewrite Hdates. cbn [mbind option_bind].
  eexists _, _. split; [reflexivity |]. split; [| split].
  - intros h. rewrite in_horizon_snoc. cbn [RoadmapItem.time_horizon].
    rewrite lookup_insert. fold horizon.
    destruct (decide (horizon = h)) as [<- | Hne]; [done |].
    rewrite Hslots. f_equal. lia.
  - by apply staggered_snoc.
  - done.
Qed.

Lemma roadmap_loop_schedule (self : RoadmapGenerator.t)
    (items : list PortfolioItem.t) :
  forall (roadmap_items : list RoadmapItem.t) (slots : gmap TimeHorizon.t Z),
    (forall h, slots !! h
               = Some (Z.of_nat (length (in_horizon h roadmap_items)))) ->
    staggered self roadmap_items ->
    exists added slots',
      for_each (roadmap_turn self) items (roadmap_items, slots)
      = Some (roadmap_items ++ added, slots') /\
      Forall2 (entry_of self) items added /\
      staggered self (roadmap_items ++ added).
Proof.
  induction items as [| item rest IH]; intros roadmap_items slots Hslots Hst.
  - exists [], slots. rewrite app_nil_r.
    split; [done |]. split; [constructor | done].
  - cbn [for_each].
    destruct (roadmap_turn_schedule self roadmap_items slots item Hslots Hst)
      as (r & slots1 & -> & Hslots1 & Hst1 & Hr).
    destruct (IH (roadmap_items ++ [r]) slots1 Hslots1 Hst1)
      as (added & slots' & -> & Hall & Hst').
    exists (r :: added), slots'. rewrite <- app_assoc in *.
    split; [done |]. split; [by constructor | done].
Qed.

(** What [generate_roadmap] returns. *)
Lemma generate_roadmap_schedule (self : RoadmapGenerator.t)
    (portfolio_items : list PortfolioItem.t) (selected_only : bool) :
  exists roadmap,
    generate_roadmap self portfolio_items selected_only = Some roadmap /\
    Forall2 (entry_of self) (scheduled portfolio_items selected_only) roadmap
    /\ staggered self roadmap.
Proof.
  unfold generate_roadmap. cbv zeta.
  fold (scheduled portfolio_items selected_only).
  destruct (roadmap_loop_schedule self
              (scheduled portfolio_items selected_only) []
              (<[TimeHorizon.YEAR_3 := 0]> (<[TimeHorizon.YEAR_1 := 0]>
               (<[TimeHorizon.Q1 := 0]> ∅))))
    as (added & slots' & Hrun & Hall & Hst).
  - by intros [].
  - intros pre r post Heq. by destruct pre.
  - exists added. rewrite Hrun. split; [done |]. by split.
Qed.



(** X17. In the roadmap that [generate_roadmap] returns, the entry that
    is the k-th of its horizon starts 30 k days after the start date in
    Q1, 90 + 45 k days after it in year 1 and 365 + 90 k days after it in
    year 3, and ends 30 days per month of implementation later. *)
Theorem generate_roadmap_dates (self : RoadmapGenerator.t)
    (portfolio_items : list PortfolioItem.t) (selected_only : bool) :
  exists roadmap,
    generate_roadmap self portfolio_items selected_only = Some roadmap /\
    staggered self roadmap.
Proof.
  destruct (generate_roadmap_schedule self portfolio_items selected_only)
    as (roadmap & Hrun & _ & Hst).
  by exists roadmap.
Qed.

(** The rules of [_determine_horizon], read from its result. *)
Lemma determine_horizon_rules (self : RoadmapGenerator.t)
    (item : PortfolioItem.t) (slots : gmap TimeHorizon.t Z) :
  (_determine_horizon self item slots = TimeHorizon.Q1 ->
   AIUseCase.effort_level (PortfolioItem.use_case item) = EffortLevel.LOW /\
   AIUseCase.implementation_months (PortfolioItem.use_case item) <= 3 /\
   (50 <= PortfolioItem.priority_score item)%Q) /\
  (AIUseCase.effort_level (PortfolioItem.use_case item) = EffortLevel.HIGH
   \/ 12 < AIUseCase.implementation_months (PortfolioItem.use_case item) ->
   _determine_horizon self item slots = TimeHorizon.YEAR_3).
Proof.
  unfold _determine_horizon. cbv zeta.
  destruct (Z.leb_spec
              (AIUseCase.implementation_months (PortfolioItem.use_case item))
              3) as [H3 | H3];
    destruct (Z.ltb_spec 12
                (AIUseCase.implementation_months
                   (PortfolioItem.use_case item))) as [H12 | H12];
    try lia;
    destruct (Qle_bool 50 (PortfolioItem.priority_score item)) eqn:H50;
    destruct (Qle_bool 40 (PortfolioItem.priority_score item)) eqn:H40;
    try apply Qle_bool_iff in H50;
    destruct (AIUseCase.effort_level (PortfolioItem.use_case item));
    cbn; (split; [intros [=]; done || (split; [done | by split]) |]);
    intros [[=] | Hm]; done || lia.
Qed.

Lemma Forall2_Forall_exists {A B} (P : A -> B -> Prop) (l : list A)
    (k : list B) :
  Forall2 P l k -> Forall (fun y => exists x, x ∈ l /\ P x y) k.
Proof.
  induction 1 as [| x y l k Hxy _ IH]; constructor.
  - exists x. split; [apply elem_of_cons; by left | done].
  - eapply Forall_impl; [exact IH |]. intros z (x' & Hin & Hz).
    exists x'. split; [apply elem_of_cons; by right | done].
Qed.

(** X18. In the roadmap that [generate_roadmap] returns, an entry in Q1
    is of low effort and of at most three months, so that it ends at most
    90 days after it starts; an entry of high effort or of more than
    twelve months is in year 3; and no entry of year 1 starts within 90
    days, none of year 3 within 365 days, of the start date. *)
Theorem roadmap_horizon_rules (self : RoadmapGenerator.t)
    (portfolio_items : list PortfolioItem.t) (selected_only : bool) :
  exists roadmap,
    generate_roadmap self portfolio_items selected_only = Some roadmap /\
    Forall (fun r =>
      (RoadmapItem.time_horizon r = TimeHorizon.Q1 ->
       AIUseCase.effort_level (RoadmapItem.use_case r) = EffortLevel.LOW /\
       AIUseCase.implementation_months (RoadmapItem.use_case r) <= 3 /\
       RoadmapItem.end_date r - RoadmapItem.start_date r <= 90) /\
      (AIUseCase.effort_level (RoadmapItem.use_case r) = EffortLevel.HIGH
       \/ 12 < AIUseCase.implementation_months (RoadmapItem.use_case r) ->
       RoadmapItem.time_horizon r = TimeHorizon.YEAR_3) /\
      (RoadmapItem.time_horizon r = TimeHorizon.YEAR_1 ->
       start_date self + 90 <= RoadmapItem.start_date r) /\
      (RoadmapItem.time_horizon r = TimeHorizon.YEAR_3 ->
       start_date self + 365 <= RoadmapItem.start_date r)) roadmap.
Proof.
  destruct (generate_roadmap_schedule self portfolio_items selected_only)
    as (roadmap & Hrun & Hall & Hst).
  exists roadmap. split; [done |].
  apply Forall2_Forall_exists in Hall. rewrite Forall_forall in Hall.
  apply Forall_forall. intros r Hin.
  destruct (Hall r Hin) as (item & _ & Hu & _ & Hh & _).
  destruct (determine_horizon_rules self item ∅) as [Hq1 Hy3].
  apply list_elem_of_split in Hin as (pre & post & Heq).
  destruct (Hst pre r post Heq) as [Hstart Hend].
  rewrite Hu, Hh. split; [| split; [done |]].
  - intros Hq. destruct (Hq1 Hq) as (He & Hm & _).
    split; [done |]. split; [done |]. rewrite Hend, Hu. lia.
  - rewrite Hstart, Hh. split; intros ->; cbn [slot_offset]; lia.
Qed.

(** ** Grouping by horizon *)

Lemma by_horizon_loop (items : list RoadmapItem.t) :
  forall (grouped : gmap TimeHorizon.t (list RoadmapItem.t))
         (g : TimeHorizon.t -> list RoadmapItem.t),
    (forall h, grouped !! h = Some (g h)) ->
    exists grouped',
      for_each (fun grouped item =>
                  group ← grouped !! RoadmapItem.time_horizon item;
                  Some (<[RoadmapItem.time_horizon item := group ++ [item]]>
                          grouped))
               items grouped = Some grouped' /\
      forall h, grouped' !! h = Some (g h ++ in_horizon h items).
Proof.
  induction items as [| item rest IH]; intros grouped g Hg.
  - exists grouped. split; [done |]. intros h. by rewrite app_nil_r.
  - cbn [for_each]. rewrite Hg. cbn [mbind option_bind].
    destruct (IH (<[RoadmapItem.time_horizon item
                      := g (RoadmapItem.time_horizon item) ++ [item]]> grouped)
                 (fun h => g h ++ in_horizon h [item]))
      as (grouped' & -> & Hg').
    + intros h. unfold in_horizon. rewrite filter_cons, lookup_insert.
      destruct (decide (RoadmapItem.time_horizon item = h)) as [<- | Hne];
        [done |].
      by rewrite Hg, app_nil_r.
    + exists grouped'. split; [done |]. intros h. rewrite Hg'.
      unfold in_horizon. rewrite <- app_assoc, <- filter_app. done.
Qed.

Lemma roadmap_by_horizon_lookup (self : RoadmapGenerator.t)
    (items : list RoadmapItem.t) :
  exists grouped,
    get_roadmap_by_horizon self items = Some grouped /\
    forall h, grouped !! h = Some (in_horizon h items).
Proof.
  unfold get_roadmap_by_horizon. cbv zeta.
  destruct (by_horizon_loop items
              (<[TimeHorizon.YEAR_3 := []]> (<[TimeHorizon.YEAR_1 := []]>
               (<[TimeHorizon.Q1 := []]> ∅)))
              (fun _ => [])) as (grouped & Hrun & Hg).
  - by intros [].
  - exists grouped. split; [exact Hrun |]. intros h. by rewrite Hg.
Qed.

Lemma in_horizon_partition (items : list RoadmapItem.t) :
  (length (in_horizon TimeHorizon.Q1 items)
   + length (in_horizon TimeHorizon.YEAR_1 items)
   + length (in_horizon TimeHorizon.YEAR_3 items))%nat
  = length items.
Proof.
  unfold in_horizon. induction items as [| r rest IH]; [done |].
  rewrite !filter_cons.
  destruct (RoadmapItem.time_horizon r);
    repeat (destruct (decide _) as [? | ?]; try done);
    cbn [length]; lia.
Qed.

(** X19. [get_roadmap_by_horizon] raises no [KeyError]: it returns a
    dictionary with the three horizons as keys, each with the entries of
    that horizon in the order of the input, so that every entry is in
    exactly one of the three lists. *)
Theorem roadmap_by_horizon_groups (self : RoadmapGenerator.t)
    (items : list RoadmapItem.t) :
  exists grouped,
    get_roadmap_by_horizon self items = Some grouped /\
    (forall h, grouped !! h = Some (in_horizon h items)) /\
    (length (in_horizon TimeHorizon.Q1 items)
     + length (in_horizon TimeHorizon.YEAR_1 items)
     + length (in_horizon TimeHorizon.YEAR_3 items))%nat
    = length items.
Proof.
  destruct (roadmap_by_horizon_lookup self items) as (grouped & Hrun & Hg).
  exists grouped. split; [done |]. split; [done |].
  apply in_horizon_partition.
Qed.

(** The value that [get_roadmap_summary] stores for a group. *)
Lemma horizon_summary_fields (horizon_items : list RoadmapItem.t) :
  forall s,
    s = match horizon_items with
        | [] =>
            {| count := 0; total_investment := 0; total_npv := 0;
               projects := [] |}
        | _ =>
            {| count := Z.of_nat (length horizon_items);
               total_investment :=
                 py_sum ((fun i =>
                            AIUseCase.initial_cost (RoadmapItem.use_case i)
                            + AIUseCase.annual_cost (RoadmapItem.use_case i)
                              * 3)%Q
                         <$> horizon_items);
               total_npv :=
                 py_sum ((fun i => ROIMetrics.npv (RoadmapItem.roi_metrics i))
                         <$> horizon_items);
               projects :=
                 (fun i => AIUseCase.name (RoadmapItem.use_case i))
                 <$> horizon_items |}
        end ->
    count s = Z.of_nat (length horizon_items) /\
    (total_investment s == py_sum (entry_cost <$> horizon_items))%Q /\
    (total_npv s
     == py_sum ((fun i => ROIMetrics.npv (RoadmapItem.roi_metrics i))
                <$> horizon_items))%Q /\
    projects s
    = (fun i => AIUseCase.name (RoadmapItem.use_case i)) <$> horizon_items.
Proof.
  intros s ->. destruct horizon_items; cbn; repeat split; reflexivity.
Qed.

(** X20. [get_roadmap_summary] always returns, with an entry under the
    name of each of the three horizons: its count is the number of
    entries of the roadmap in that horizon, its totals are the sums of
    their three-year costs and of their NPVs, its projects are their
    names in order; the three counts add up to the length of the
    roadmap. *)
Theorem roadmap_summary_counts (self : RoadmapGenerator.t)
    (items : list RoadmapItem.t) :
  exists summary,
    get_roadmap_summary self items = Some summary /\
    (forall h,
       exists s,
         summary !! TimeHorizon.value h = Some s /\
         count s = Z.of_nat (length (in_horizon h items)) /\
         (total_investment s == py_sum (entry_cost <$> in_horizon h items))%Q
         /\ (total_npv s
             == py_sum ((fun i => ROIMetrics.npv (RoadmapItem.roi_metrics i))
                        <$> in_horizon h items))%Q /\
         projects s
         = (fun i => AIUseCase.name (RoadmapItem.use_case i))
           <$> in_horizon h items) /\
    exists q1 y1 y3,
      summary !! "Q1 (0-3 months)" = Some q1 /\
      summary !! "Year 1 (3-12 months)" = Some y1 /\
      summary !! "3-Year (1-3 years)" = Some y3 /\
      count q1 + count y1 + count y3 = Z.of_nat (length items).
Proof.
  destruct (roadmap_by_horizon_lookup self items) as (grouped & Hrun & Hg).
  unfold get_roadmap_summary. rewrite Hrun. cbn [mbind option_bind for_each].
  rewrite !Hg. cbn [mbind option_bind].
  eexists. split; [reflexivity |].
  match goal with |- ?P /\ _ => assert (Hall : P) end.
  { intros h. eexists. split.
    - destruct h; cbn [TimeHorizon.value];
        repeat (rewrite lookup_insert_eq || rewrite lookup_insert_ne by done);
        reflexivity.
    - destruct h; by apply horizon_summary_fields. }
  split; [exact Hall |].
  destruct (Hall TimeHorizon.Q1) as (q1 & Hq1 & Hc1 & _).
  destruct (Hall TimeHorizon.YEAR_1) as (y1 & Hy1 & Hc2 & _).
  destruct (Hall TimeHorizon.YEAR_3) as (y3 & Hy3 & Hc3 & _).
  exists q1, y1, y3. split; [exact Hq1 |]. split; [exact Hy1 |].
  split; [exact Hy3 |]. rewrite Hc1, Hc2, Hc3.
  rewrite <- (in_horizon_partition items). lia.
Qed.

(** ** Milestones *)

Lemma milestone_step (cond cond' : bool) (ms ms' : list string)
    (x : string) :
  ms `sublist_of` ms' -> (cond = true -> cond' = true) ->
  (if cond then ms ++ [x] else ms)
  `sublist_of` (if cond' then ms' ++ [x] else ms').
Proof.
  intros Hsub Himp. destruct cond.
  - rewrite Himp by done. by apply sublist_app.
  - destruct cond'; [by apply sublist_inserts_r | done].
Qed.

(** X21. The milestones of an item begin with the kickoff and end with
    the benefits review, number between four and eight, do not depend on
    the horizon, and grow with the months of implementation: those of a
    shorter project are among those of a longer one, in order. *)
Theorem milestones_shape (self : RoadmapGenerator.t)
    (item item' : PortfolioItem.t) (horizon horizon' : TimeHorizon.t) :
  head (_generate_milestones self item horizon) = Some "Project Kickoff" /\
  last (_generate_milestones self item horizon)
  = Some "Benefits Realization Review" /\
  (4 <= length (_generate_milestones self item horizon) <= 8)%nat /\
  _generate_milestones self item horizon'
  = _generate_milestones self item horizon /\
  (AIUseCase.implementation_months (PortfolioItem.use_case item)
   <= AIUseCase.implementation_months (PortfolioItem.use_case item') ->
   _generate_milestones self item horizon
   `sublist_of` _generate_milestones self item' horizon').
Proof.
  split; [| split; [| split; [| split; [done |]]]].
  - unfold _generate_milestones. cbv zeta.
    by repeat (destruct (_ <=? _)).
  - unfold _generate_milestones. cbv zeta. by rewrite last_snoc.
  - unfold _generate_milestones. cbv zeta.
    repeat (destruct (_ <=? _)); cbn; lia.
  - intros Hle. unfold _generate_milestones. cbv zeta.
    repeat apply sublist_app; try done.
    repeat (apply milestone_step; [| intros H%Z.leb_le; apply Z.leb_le; lia]).
    done.
Qed.

(** ** The dependency order *)

(** The ordering pass on an entry that names a later one. *)
Lemma acyclic_order_witness :
  exists ordered,
    get_dependencies_order 2 Sample.generator Sample.chain = Some ordered /\
    ordered ≡ₚ Sample.chain /\
    Dependencies.dependencies_first Sample.chain ordered.
Proof.
  apply (DependencyFacts.acyclic_order 2 Sample.generator Sample.chain
           Sample.chain_rank).
  - cbn. apply NoDup_cons. split; [| apply NoDup_singleton].
    intros Hin%list_elem_of_singleton. discriminate.
  - intros item dep Hitem Hdep _.
    apply elem_of_cons in Hitem as [-> | Hitem].
    + apply list_elem_of_singleton in Hdep as ->.
      change (0 < 1)%nat. lia.
    + apply list_elem_of_singleton in Hitem as ->.
      by apply elem_of_nil in Hdep.
  - constructor; [change (1 < 2)%nat; lia |].
    constructor; [change (0 < 2)%nat; lia | constructor].
Defined.

End RoadmapMore.

(** * The stages in sequence *)

Module PipelineMore.
Import PortfolioOptimizer RoadmapGenerator Selection Schedule SumFacts.
#[local] Open Scope Q_scope.

Lemma py_sum_perm (l k : list Q) : l ≡ₚ k -> py_sum l == py_sum k.
Proof.
  induction 1 as [| x l k _ IH | x y l | l k m _ IH1 _ IH2].
  - reflexivity.
  - by rewrite !py_sum_cons, IH.
  - rewrite !py_sum_cons. lra.
  - by rewrite IH1.
Qed.

Lemma filter_all {A} (P : A -> Prop) `{!forall x, Decision (P x)}
    (l : list A) :
  Forall P l -> filter P l = l.
Proof.
  induction 1 as [| x l Hx _ IH]; [done |].
  rewrite filter_cons_True by done. by f_equal.
Qed.

Lemma entries_cost (self : RoadmapGenerator.t)
    (items : list PortfolioItem.t) (roadmap : list RoadmapItem.t) :
  Forall2 (entry_of self) items roadmap ->
  entry_cost <$> roadmap = project_cost <$> items.
Proof.
  induction 1 as [| item r items roadmap (Hu & _) _ IH]; [done |].
  cbn [fmap list_fmap]. rewrite IH. f_equal.
  unfold entry_cost, project_cost. by rewrite Hu.
Qed.

(** X22. The stages as the application chains them: the metrics of the
    use cases, the portfolio, the roadmap of the selected items.  Every
    use case gets an item; and the entries of the roadmap that
    [generate_roadmap] returns are entries for use cases of the input,
    their three-year costs add up to no more than a positive budget and
    their number is no more than a positive limit on the number of
    projects. *)
Theorem pipeline_roadmap_within_limits (monthly_rate : Q)
    (optimizer : PortfolioOptimizer.t) (generator : RoadmapGenerator.t)
    (use_cases : list AIUseCase.t) (roadmap : list RoadmapItem.t) :
  generate_roadmap generator
    (optimize optimizer use_cases
       (ROICalculator.calculate_batch monthly_rate use_cases)) true
  = Some roadmap ->
  length (optimize optimizer use_cases
            (ROICalculator.calculate_batch monthly_rate use_cases))
  = length use_cases /\
  Forall (fun r => RoadmapItem.use_case r ∈ use_cases) roadmap /\
  (forall budget,
     budget_constraint optimizer = Some budget -> 0 < budget ->
     py_sum (entry_cost <$> roadmap) <= budget) /\
  (forall limit,
     max_projects optimizer = Some limit -> (0 < limit)%Z ->
     (Z.of_nat (length roadmap) <= limit)%Z).
Proof.
  set (metrics := ROICalculator.calculate_batch monthly_rate use_cases).
  set (items := optimize optimizer use_cases metrics).
  destruct (RoadmapMore.generate_roadmap_schedule generator items true)
    as (roadmap' & -> & Hall & _).
  intros [= <-].
  assert (Hcover : PortfolioItem.use_case <$> items ≡ₚ use_cases).
  { subst items. rewrite OptimizerMore.optimize_use_cases.
    rewrite filter_all; [done |].
    apply Forall_forall. intros uc Hin. apply list_elem_of_fmap.
    exists (ROICalculator.calculate_metrics monthly_rate uc).
    split; [done |]. subst metrics. unfold ROICalculator.calculate_batch.
    apply list_elem_of_fmap. by exists uc. }
  assert (Hsched : scheduled items true ≡ₚ Portfolio.selected_items items).
  { unfold scheduled. by rewrite StableSort.sort_desc_perm. }
  destruct (SelectionFacts.optimize_within_limits optimizer use_cases metrics)
    as [Hb Hm]. fold items in Hb, Hm.
  split; [| split; [| split]].
  - rewrite <- (length_fmap PortfolioItem.use_case). by rewrite Hcover.
  - apply RoadmapMore.Forall2_Forall_exists in Hall.
    eapply Forall_impl; [exact Hall |].
    intros r (item & Hin & Hu & _). rewrite Hu, <- Hcover.
    apply list_elem_of_fmap. exists item. split; [done |].
    rewrite Hsched in Hin. unfold Portfolio.selected_items in Hin.
    by apply list_elem_of_filter in Hin as [_ Hin].
  - intros budget Hsome Hpos.
    rewrite (entries_cost generator _ _ Hall).
    rewrite (py_sum_perm _ _ (fmap_Permutation project_cost _ _ Hsched)).
    rewrite <- OptimizerMore.selected_cost_sum. by apply Hb.
  - intros limit Hsome Hpos.
    rewrite <- (Forall2_length _ _ _ Hall), Hsched.
    rewrite <- OptimizerMore.selected_count_length. by apply Hm.
Qed.

Lemma pipeline_roadmap_within_limits_witness :
  exists roadmap,
    generate_roadmap Sample.generator
      (optimize Sample.tight_budget [Sample.invoice_triage]
         (ROICalculator.calculate_batch Sample.monthly_rate
            [Sample.invoice_triage])) true
    = Some roadmap /\
    Forall (fun r => RoadmapItem.use_case r ∈ [Sample.invoice_triage])
           roadmap /\
    py_sum (entry_cost <$> roadmap) <= 300000 /\
    (Z.of_nat (length roadmap) <= 1)%Z.
Proof.
  eexists.
  assert (Hrun :
    generate_roadmap Sample.generator
      (optimize Sample.tight_budget [Sample.invoice_triage]
         (ROICalculator.calculate_batch Sample.monthly_rate
            [Sample.invoice_triage])) true = Some _) by reflexivity.
  split; [exact Hrun |].
  destruct (pipeline_roadmap_within_limits Sample.monthly_rate
              Sample.tight_budget Sample.generator [Sample.invoice_triage]
              _ Hrun) as (_ & Hin & Hb & Hm).
  split; [exact Hin |]. split; [by apply Hb | by apply Hm].
Defined.

End PipelineMore.
